(** * The service supervisor of [init_advanced.c]

    A shallow embedding of the service management part of
    [exercises/advanced/09_custom_init/src/init_advanced.c]: the service
    table, [start_service], [stop_service], [restart_service],
    [start_all_services], [stop_all_services], [check_services],
    [reap_children], the three signal handlers, the watchdog helpers,
    [load_services], [do_shutdown] and the main loop.

    The supervisor is one process.  Its global variables form the record
    [world]; every C function becomes a function from [world] to [world]
    (with the C return value next to it where there is one).  System calls
    are not executed: each one appends an [event] to the [trace] of the
    world and takes its result from an environment [env], a family of
    oracles that see the trace so far.  All statements are proved for every
    environment unless they say otherwise.

    Console and log-file output ([log_msg], [printf], the closing line of
    the log file) changes no variable of the supervisor and is left out. *)

From Stdlib Require Import ZArith String Ascii List Bool Lia.
From stdpp Require Import base list strings.
Import ListNotations.

Local Open Scope string_scope.
Local Open Scope list_scope.
Local Open Scope Z_scope.

(** ** Constants *)

Definition MAX_SERVICES : nat := 32.
Definition MAX_LINE : nat := 256.
Definition MAX_NAME : nat := 64.
Definition MAX_PATH : nat := 256.

Definition SERVICES_DIR : string := "/etc/init.d".

Definition RUNLEVEL_SINGLE : Z := 1.
Definition RUNLEVEL_FULL : Z := 5.

Definition SVC_STOPPED : Z := 0.
Definition SVC_STARTING : Z := 1.
Definition SVC_RUNNING : Z := 2.
Definition SVC_STOPPING : Z := 3.
Definition SVC_FAILED : Z := 4.

Definition SVC_FLAG_RESPAWN : Z := Z.shiftl 1 0.
Definition SVC_FLAG_WAIT : Z := Z.shiftl 1 1.
Definition SVC_FLAG_CRITICAL : Z := Z.shiftl 1 2.
Definition SVC_FLAG_ONESHOT : Z := Z.shiftl 1 3.

(** [S_IXUSR] of [<sys/stat.h>], octal 0100. *)
Definition S_IXUSR : Z := 64.

(** ** Data *)

(** [struct service].  The [depends] array and [depend_count] are never
    read or written after the initial [memset] and are left out.  The C
    [int] fields are integers here; the only arithmetic on them is
    [restart_count++], which runs under [restart_count < max_restarts] and
    so stays within [int]. *)
Record service : Type := Service {
  name : string;
  cmd : string;
  pidfile : string;
  runlevel : Z;
  flags : Z;
  state : Z;
  pid : Z;
  start_time : Z;
  restart_count : Z;
  max_restarts : Z;
  restart_delay : Z
}.

(** What [memset (svc, 0, sizeof *svc)] leaves. *)
Definition zero_service : service :=
  Service "" "" "" 0 0 0 0 0 0 0 0.

Definition set_name (v : string) (s : service) : service :=
  Service v (cmd s) (pidfile s) (runlevel s) (flags s) (state s) (pid s)
          (start_time s) (restart_count s) (max_restarts s) (restart_delay s).
Definition set_cmd (v : string) (s : service) : service :=
  Service (name s) v (pidfile s) (runlevel s) (flags s) (state s) (pid s)
          (start_time s) (restart_count s) (max_restarts s) (restart_delay s).
Definition set_runlevel (v : Z) (s : service) : service :=
  Service (name s) (cmd s) (pidfile s) v (flags s) (state s) (pid s)
          (start_time s) (restart_count s) (max_restarts s) (restart_delay s).
Definition set_flags (v : Z) (s : service) : service :=
  Service (name s) (cmd s) (pidfile s) (runlevel s) v (state s) (pid s)
          (start_time s) (restart_count s) (max_restarts s) (restart_delay s).
Definition set_state (v : Z) (s : service) : service :=
  Service (name s) (cmd s) (pidfile s) (runlevel s) (flags s) v (pid s)
          (start_time s) (restart_count s) (max_restarts s) (restart_delay s).
Definition set_pid (v : Z) (s : service) : service :=
  Service (name s) (cmd s) (pidfile s) (runlevel s) (flags s) (state s) v
          (start_time s) (restart_count s) (max_restarts s) (restart_delay s).
Definition set_start_time (v : Z) (s : service) : service :=
  Service (name s) (cmd s) (pidfile s) (runlevel s) (flags s) (state s) (pid s)
          v (restart_count s) (max_restarts s) (restart_delay s).
Definition set_restart_count (v : Z) (s : service) : service :=
  Service (name s) (cmd s) (pidfile s) (runlevel s) (flags s) (state s) (pid s)
          (start_time s) v (max_restarts s) (restart_delay s).
Definition set_pidfile (v : string) (s : service) : service :=
  Service (name s) (cmd s) v (runlevel s) (flags s) (state s) (pid s)
          (start_time s) (restart_count s) (max_restarts s) (restart_delay s).
Definition set_max_restarts (v : Z) (s : service) : service :=
  Service (name s) (cmd s) (pidfile s) (runlevel s) (flags s) (state s) (pid s)
          (start_time s) (restart_count s) v (restart_delay s).
Definition set_restart_delay (v : Z) (s : service) : service :=
  Service (name s) (cmd s) (pidfile s) (runlevel s) (flags s) (state s) (pid s)
          (start_time s) (restart_count s) (max_restarts s) v.

(** [svc->flags & f], as a truth value. *)
Definition has_flag (s : service) (f : Z) : bool :=
  negb (Z.land (flags s) f =? 0).

(** The signals the program names. *)
Inductive signal : Type :=
  SIGHUP | SIGINT | SIGKILL | SIGUSR1 | SIGTERM | SIGCHLD.

(** The status that [waitpid] stores: [WIFEXITED] with its
    [WEXITSTATUS], or anything else. *)
Inductive wstatus : Type :=
| WExited (code : Z)
| WAbnormal.

Inductive reboot_cmd : Type :=
  LINUX_REBOOT_CMD_RESTART | LINUX_REBOOT_CMD_POWER_OFF.

(** One system call of the supervisor with its result, or the run of a
    signal handler. *)
Inductive event : Type :=
| EvAccess (path : string) (ok : bool)          (* access (path, X_OK) == 0 *)
| EvFork (argv : list string) (ret : option positive)
    (* fork (); the child, if any, resets SIGCHLD, SIGTERM and SIGUSR1 and
       calls execv ("/bin/sh", argv); the parent sees [Some pid] or, for a
       negative return, [None] *)
| EvTime (now : Z)                              (* time (NULL) *)
| EvProbe (p : Z) (alive : bool)                (* kill (p, 0) == 0 *)
| EvKill (p : Z) (sig : signal)                 (* kill (p, sig) *)
| EvUsleep (usec : Z)
| EvSleep (sec : Z)
| EvWaitNohang (p : Z) (ret : Z)                (* waitpid (p, &status, WNOHANG) *)
| EvWait (p : Z) (st : wstatus)                 (* waitpid (p, &status, 0) *)
| EvWrite (fd : Z) (data : string)
| EvClose (fd : Z)
| EvSync
| EvUmount (target : string)
| EvReboot (c : reboot_cmd)
| EvSignal (s : signal).                        (* a handler ran *)

(** The environment: the result of each system call, given the trace so
    far.  [o_reap] lists the pids that successive
    [waitpid (-1, &status, WNOHANG)] calls of one reaping pass return
    before a call returns 0 or -1; [o_signals] lists the signals that
    arrive while the process is blocked in the call that was just
    recorded. *)
Record env : Type := Env {
  o_access : list event -> string -> bool;
  o_fork : list event -> option positive;
  o_time : list event -> Z;
  o_alive : list event -> Z -> bool;
  o_waitpid_nohang : list event -> Z -> Z;
  o_waitpid : list event -> Z -> wstatus;
  o_reap : list event -> list positive;
  o_signals : list event -> list signal;
  o_opendir : option (list string);     (* readdir entries of SERVICES_DIR *)
  o_stat : string -> option Z;          (* st_mode when stat () == 0 *)
  o_fopen : string -> option string     (* the text of a readable file *)
}.

(** The global variables, and the trace of what happened.
    [service_count] is the length of [services]. *)
Record world : Type := World {
  services : list service;
  current_runlevel : Z;
  shutdown_requested : Z;
  reboot_requested : Z;
  child_died : Z;
  watchdog_fd : Z;
  trace : list event
}.

Definition service_count (w : world) : nat := length (services w).

Definition emit (e : event) (w : world) : world :=
  World (services w) (current_runlevel w) (shutdown_requested w)
        (reboot_requested w) (child_died w) (watchdog_fd w) (trace w ++ [e]).

Definition with_services (f : list service -> list service) (w : world) : world :=
  World (f (services w)) (current_runlevel w) (shutdown_requested w)
        (reboot_requested w) (child_died w) (watchdog_fd w) (trace w).

(** An assignment through [svc = &services[i]]. *)
Definition upd (i : nat) (f : service -> service) (w : world) : world :=
  with_services (alter f i) w.

Definition set_shutdown_requested (v : Z) (w : world) : world :=
  World (services w) (current_runlevel w) v
        (reboot_requested w) (child_died w) (watchdog_fd w) (trace w).
Definition set_reboot_requested (v : Z) (w : world) : world :=
  World (services w) (current_runlevel w) (shutdown_requested w)
        v (child_died w) (watchdog_fd w) (trace w).
Definition set_child_died (v : Z) (w : world) : world :=
  World (services w) (current_runlevel w) (shutdown_requested w)
        (reboot_requested w) v (watchdog_fd w) (trace w).
Definition set_watchdog_fd (v : Z) (w : world) : world :=
  World (services w) (current_runlevel w) (shutdown_requested w)
        (reboot_requested w) (child_died w) v (trace w).
Definition set_current_runlevel (v : Z) (w : world) : world :=
  World (services w) v (shutdown_requested w)
        (reboot_requested w) (child_died w) (watchdog_fd w) (trace w).

(** ** Signal handlers *)

Definition sigchld_handler (w : world) : world := set_child_died 1 w.

Definition sigterm_handler (w : world) : world :=
  set_reboot_requested 0 (set_shutdown_requested 1 w).

Definition sigusr1_handler (w : world) : world :=
  set_reboot_requested 1 (set_shutdown_requested 1 w).

(** The dispositions that [main] installs: three handlers, SIGINT and
    SIGHUP ignored.  Nothing else reaches process 1. *)
Definition deliver (s : signal) (w : world) : world :=
  let w1 := emit (EvSignal s) w in
  match s with
  | SIGCHLD => sigchld_handler w1
  | SIGTERM => sigterm_handler w1
  | SIGUSR1 => sigusr1_handler w1
  | SIGINT | SIGHUP | SIGKILL => w1
  end.

Definition deliver_all (l : list signal) (w : world) : world :=
  foldl (fun w s => deliver s w) w l.

(** ** Text: [trim], [sscanf], [atoi], [fgets], [strrchr]

    Strings hold no NUL character. *)

Definition is_blank (c : ascii) : bool :=
  Ascii.eqb c " " || Ascii.eqb c "009".

Definition is_line_end_space (c : ascii) : bool :=
  is_blank c || Ascii.eqb c "010" || Ascii.eqb c "013".

(** [isspace] in the C locale. *)
Definition is_space (c : ascii) : bool :=
  Ascii.eqb c " " || ((9 <=? nat_of_ascii c)%nat && (nat_of_ascii c <=? 13)%nat).

Definition is_digit (c : ascii) : bool :=
  (nat_of_ascii "0" <=? nat_of_ascii c)%nat
  && (nat_of_ascii c <=? nat_of_ascii "9")%nat.

Fixpoint skip_blanks (s : string) : string :=
  match s with
  | String c r => if is_blank c then skip_blanks r else s
  | EmptyString => EmptyString
  end.

Fixpoint leading_blanks (s : string) : string :=
  match s with
  | String c r => if is_blank c then String c (leading_blanks r) else EmptyString
  | EmptyString => EmptyString
  end.

(** The trailing blanks, newlines and carriage returns removed. *)
Fixpoint strip_end (s : string) : string :=
  match s with
  | EmptyString => EmptyString
  | String c r =>
      match strip_end r with
      | EmptyString => if is_line_end_space c then EmptyString else String c EmptyString
      | r' => String c r'
      end
  end.

(** The string that [trim (str)] returns: [str] after its leading blanks,
    cut at the end; the loop condition [end > str] keeps the first
    character in any case. *)
Definition trim (s : string) : string :=
  match skip_blanks s with
  | EmptyString => EmptyString
  | String c r => String c (strip_end r)
  end.

(** The buffer after [trim (buf)] when the result is discarded, as in
    [trim (key)]: the leading blanks stay. *)
Definition trim_in_place (s : string) : string :=
  leading_blanks s +:+ trim s.

(** A [%n[...]] conversion: the longest prefix of at most [n] characters
    that satisfy [ok], and the rest. *)
Fixpoint scanset (n : nat) (ok : ascii -> bool) (s : string) : string * string :=
  match n, s with
  | S n', String c r =>
      if ok c then let (a, b) := scanset n' ok r in (String c a, b)
      else (EmptyString, s)
  | _, _ => (EmptyString, s)
  end.

(** [sscanf (l, "%63[^=]=%255[^\n]", key, value) == 2], with the key and
    the value. *)
Definition scan_key_value (l : string) : option (string * string) :=
  let (k, r1) := scanset 63 (fun c => negb (Ascii.eqb c "=")) l in
  match k, r1 with
  | String _ _, String c r2 =>
      if Ascii.eqb c "=" then
        match fst (scanset 255 (fun c => negb (Ascii.eqb c "010")) r2) with
        | EmptyString => None
        | v => Some (k, v)
        end
      else None
  | _, _ => None
  end.

Fixpoint skip_spaces (s : string) : string :=
  match s with
  | String c r => if is_space c then skip_spaces r else s
  | EmptyString => EmptyString
  end.

Fixpoint digits_value (acc : Z) (s : string) : Z :=
  match s with
  | String c r =>
      if is_digit c
      then digits_value (10 * acc + (Z.of_nat (nat_of_ascii c) - 48)) r
      else acc
  | EmptyString => acc
  end.

Definition LONG_MAX : Z := 2 ^ 63 - 1.
Definition LONG_MIN : Z := - 2 ^ 63.

(** [strtol (s, NULL, 10)] with a [long] of 64 bits: white space, a
    sign, the digits; a number that does not fit a [long] gives
    LONG_MAX or LONG_MIN. *)
Definition strtol (s : string) : Z :=
  match skip_spaces s with
  | String c r =>
      if Ascii.eqb c "-" then Z.max LONG_MIN (- digits_value 0 r)
      else if Ascii.eqb c "+" then Z.min LONG_MAX (digits_value 0 r)
      else Z.min LONG_MAX (digits_value 0 (String c r))
  | EmptyString => 0
  end.

(** The conversion of an integer to [int] and to [unsigned int], both
    of 32 bits: the value modulo 2^32, in the range of the type. *)
Definition to_int (z : Z) : Z := (z + 2 ^ 31) mod 2 ^ 32 - 2 ^ 31.

Definition to_unsigned (z : Z) : Z := z mod 2 ^ 32.

(** [atoi] is [(int) strtol (s, NULL, 10)] in glibc.  Every number that
    fits an [int] has its value; for the others C leaves the result
    open, and this is what the library gives where [long] has 64
    bits. *)
Definition atoi (s : string) : Z := to_int (strtol s).

(** One [fgets (line, n + 1, fp)]: up to [n] characters, ending after a
    newline. *)
Fixpoint fgets (n : nat) (s : string) : string * string :=
  match n, s with
  | S n', String c r =>
      if Ascii.eqb c "010" then (String c EmptyString, r)
      else let (a, b) := fgets n' r in (String c a, b)
  | _, _ => (EmptyString, s)
  end.

(** The lines that [while (fgets (line, sizeof (line), fp))] sees. *)
Fixpoint fgets_lines (fuel : nat) (s : string) : list string :=
  match fuel, s with
  | S fuel', String _ _ =>
      let (l, r) := fgets (MAX_LINE - 1) s in l :: fgets_lines fuel' r
  | _, _ => []
  end.

(** What follows the last ['/'], if there is one: [strrchr (path, '/') + 1]. *)
Fixpoint after_last_slash (s : string) : option string :=
  match s with
  | EmptyString => None
  | String c r =>
      match after_last_slash r with
      | Some t => Some t
      | None => if Ascii.eqb c "/" then Some r else None
      end
  end.

(** ** The supervisor's functions, for a given environment

    A function that takes [struct service *svc] takes the index [i] of
    the entry here.  The handlers never write to the table, so a field
    read through [svc] in the course of a call has the value it had when
    the call began, unless the call itself assigned it. *)

Section Supervisor.

Context (E : env).

(** A call in which the process waits: the call is recorded, then the
    handlers of the signals that arrive meanwhile run.  Signals can
    arrive at any instruction; the model lets them arrive where the
    process spends its time. *)
Definition blocked (e : event) (w : world) : world :=
  let w1 := emit e w in
  deliver_all (o_signals E (trace w1)) w1.

(** [is_running]: no system call for [pid <= 0]. *)
Definition is_running (p : Z) (w : world) : world * bool :=
  if p <=? 0 then (w, false)
  else
    let a := o_alive E (trace w) p in
    (emit (EvProbe p a) w, a).

(** [start_service (&services[i])].  Callers pass [i < service_count];
    the first branch only makes the function total. *)
Definition start_service (i : nat) (w : world) : world * Z :=
  match services w !! i with
  | None => (w, 0)
  | Some svc =>
    if state svc =? SVC_RUNNING then (w, 0)
    else
      (* Check if command exists *)
      let ok := o_access E (trace w) (cmd svc) in
      let w1 := emit (EvAccess (cmd svc) ok) w in
      let checked : world * bool :=
        if ok then (w1, true)
        else
          match String.index 0 " " (cmd svc) with
          | Some n =>
              let tok := String.substring 0 n (cmd svc) in
              let ok' := o_access E (trace w1) tok in
              (emit (EvAccess tok ok') w1, ok')
          | None => (w1, true)
          end in
      let (w2, found) := checked in
      if negb found then (upd i (set_state SVC_FAILED) w2, -1)
      else
        let w3 := upd i (set_state SVC_STARTING) w2 in
        let r := o_fork E (trace w3) in
        let w4 := emit (EvFork ["/bin/sh"; "-c"; cmd svc] r) w3 in
        match r with
        | None => (upd i (set_state SVC_FAILED) w4, -1)
        | Some p =>
            let w5 := upd i (set_pid (Z.pos p)) w4 in
            let now := o_time E (trace w5) in
            let w6 := upd i (set_start_time now) (emit (EvTime now) w5) in
            if has_flag svc SVC_FLAG_WAIT then
              let st := o_waitpid E (trace w6) (Z.pos p) in
              let w7 := blocked (EvWait (Z.pos p) st) w6 in
              match st with
              | WExited 0 => (upd i (set_state SVC_STOPPED) w7, 0)
              | _ => (upd i (set_state SVC_FAILED) w7, -1)
              end
            else (upd i (set_state SVC_RUNNING) w6, 0)
        end
  end.

(** The polling loop of [stop_service]: at most [n] rounds of
    [usleep (100000)] and [waitpid (pid, &status, WNOHANG)]; [true] when
    a round saw the child exit. *)
Fixpoint stop_poll (n : nat) (p : Z) (w : world) : world * bool :=
  match n with
  | O => (w, false)
  | S n' =>
      let w1 := blocked (EvUsleep 100000) w in
      let r := o_waitpid_nohang E (trace w1) p in
      let w2 := emit (EvWaitNohang p r) w1 in
      if 0 <? r then (w2, true) else stop_poll n' p w2
  end.

Definition stop_service (i : nat) (w : world) : world * Z :=
  match services w !! i with
  | None => (w, 0)
  | Some svc =>
    if negb (state svc =? SVC_RUNNING) then (w, 0)
    else
      let w1 := upd i (set_state SVC_STOPPING) w in
      (* Try graceful shutdown *)
      let w2 := emit (EvKill (pid svc) SIGTERM) w1 in
      (* Wait up to 5 seconds *)
      let (w3, exited) := stop_poll 50 (pid svc) w2 in
      if exited then
        (upd i (set_pid 0) (upd i (set_state SVC_STOPPED) w3), 0)
      else
        (* Force kill *)
        let w4 := emit (EvKill (pid svc) SIGKILL) w3 in
        let st := o_waitpid E (trace w4) (pid svc) in
        let w5 := blocked (EvWait (pid svc) st) w4 in
        (upd i (set_pid 0) (upd i (set_state SVC_STOPPED) w5), 0)
  end.

Definition restart_service (i : nat) (w : world) : world * Z :=
  let (w1, _) := stop_service i w in
  let w2 := blocked (EvSleep 1) w1 in
  start_service i w2.

(** [for (i = 0; i < service_count; i++)]: the indices in rising order. *)
Definition indices (w : world) : list nat := seq 0 (service_count w).

(** The body of the loop of [start_all_services]. *)
Definition start_if_eligible (w : world) (i : nat) : world :=
  match services w !! i with
  | Some svc =>
      if runlevel svc <=? current_runlevel w
      then fst (start_service i w) else w
  | None => w
  end.

Definition start_all_services (w : world) : world :=
  foldl start_if_eligible w (indices w).

(** Stop in reverse order. *)
Definition stop_all_services (w : world) : world :=
  foldl (fun w i => fst (stop_service i w)) w (rev (indices w)).

(** The body of the loop of [check_services] for [svc = &services[i]]. *)
Definition check_service (i : nat) (w : world) : world :=
  match services w !! i with
  | None => w
  | Some svc =>
    if state svc =? SVC_RUNNING then
      (* Check if still running *)
      let (w1, alive) := is_running (pid svc) w in
      if alive then w1
      else
        let w2 := upd i (set_state SVC_STOPPED) w1 in
        (* Respawn if configured *)
        if has_flag svc SVC_FLAG_RESPAWN && (shutdown_requested w2 =? 0) then
          if restart_count svc <? max_restarts svc then
            (* sleep takes an unsigned int *)
            let w3 := blocked (EvSleep (to_unsigned (restart_delay svc))) w2 in
            let w4 := fst (start_service i w3) in
            upd i (fun s => set_restart_count (restart_count s + 1) s) w4
          else
            let w3 := upd i (set_state SVC_FAILED) w2 in
            if has_flag svc SVC_FLAG_CRITICAL then
              set_shutdown_requested 1 (set_reboot_requested 1 w3)
            else w3
        else w2
    else w
  end.

Definition check_services (w : world) : world :=
  foldl (fun w i => check_service i w) w (indices w).

(** The inner loop of [reap_children]: the first service whose [pid]
    is [p] has it cleared and leaves RUNNING; then [break]. *)
Fixpoint reap_one (p : Z) (l : list service) : list service :=
  match l with
  | [] => []
  | s :: rest =>
      if pid s =? p then
        (if state s =? SVC_RUNNING
         then set_state SVC_STOPPED (set_pid 0 s)
         else set_pid 0 s) :: rest
      else s :: reap_one p rest
  end.

(** The call of [waitpid] that ends the loop (its return is not
    positive) leaves no event. *)
Definition reap_children (w : world) : world :=
  let w' :=
    foldl (fun w p =>
             with_services (reap_one (Z.pos p))
                           (emit (EvWaitNohang (-1) (Z.pos p)) w))
          w (o_reap E (trace w)) in
  set_child_died 0 w'.

(** *** Loading the registry *)

(** [d_name[0] == 'S' && d_name[1] >= '0' && d_name[1] <= '9']; a name
    of one character has the terminating NUL at index 1. *)
Definition is_startup_script (d_name : string) : bool :=
  match d_name with
  | String c0 (String c1 _) =>
      Ascii.eqb c0 "S"%char
      && (nat_of_ascii "0" <=? nat_of_ascii c1)%nat
      && (nat_of_ascii c1 <=? nat_of_ascii "9")%nat
  | _ => false
  end.

(** [snprintf (path, sizeof (path), "%s/%s", SERVICES_DIR, d_name)]. *)
Definition script_path (d_name : string) : string :=
  String.substring 0 (MAX_PATH - 1) (SERVICES_DIR +:+ "/" +:+ d_name).

(** [stat (path, &st) == 0 && (st.st_mode & S_IXUSR)]. *)
Definition is_executable (path : string) : bool :=
  match o_stat E path with
  | Some mode => negb (Z.land mode S_IXUSR =? 0)
  | None => false
  end.

(** The service that [load_services] creates for a startup script. *)
Definition script_service (d_name : string) : service :=
  set_state SVC_STOPPED
    (set_flags SVC_FLAG_ONESHOT
       (set_runlevel RUNLEVEL_FULL
          (set_cmd (String.substring 0 (MAX_PATH - 1) (script_path d_name +:+ " start"))
             (set_name (String.substring 0 (MAX_NAME - 1) d_name) zero_service)))).

(** The [readdir] loop.  The source writes [services[service_count]]
    without comparing [service_count] with [MAX_SERVICES]; a write past
    the array is undefined and gives [None]. *)
Fixpoint load_entries (entries : list string) (w : world) : option world :=
  match entries with
  | [] => Some w
  | d_name :: rest =>
      if is_startup_script d_name && is_executable (script_path d_name) then
        if (MAX_SERVICES <=? service_count w)%nat then None
        else load_entries rest
               (with_services (fun l => l ++ [script_service d_name]) w)
      else load_entries rest w
  end.

Definition load_services (w : world) : option world :=
  match o_opendir E with
  | None => Some w
  | Some entries => load_entries entries w
  end.

(** One line of a service file. *)
Definition is_true_word (v : string) : bool :=
  String.eqb v "true" || String.eqb v "1".

Definition parse_service_line (svc : service) (line : string) : service :=
  let l := trim line in
  match l with
  | EmptyString => svc
  | String c _ =>
      if Ascii.eqb c "#" then svc
      else
        match scan_key_value l with
        | None => svc
        | Some (key0, value0) =>
            let key := trim_in_place key0 in
            let value := trim_in_place value0 in
            if String.eqb key "command" || String.eqb key "cmd" then
              set_cmd (String.substring 0 (MAX_PATH - 1) value) svc
            else if String.eqb key "pidfile" then
              set_pidfile (String.substring 0 (MAX_PATH - 1) value) svc
            else if String.eqb key "runlevel" then
              set_runlevel (atoi value) svc
            else if String.eqb key "respawn" then
              if is_true_word value
              then set_flags (Z.lor (flags svc) SVC_FLAG_RESPAWN) svc else svc
            else if String.eqb key "wait" then
              if is_true_word value
              then set_flags (Z.lor (flags svc) SVC_FLAG_WAIT) svc else svc
            else if String.eqb key "critical" then
              if is_true_word value
              then set_flags (Z.lor (flags svc) SVC_FLAG_CRITICAL) svc else svc
            else if String.eqb key "oneshot" then
              if is_true_word value
              then set_flags (Z.lor (flags svc) SVC_FLAG_ONESHOT) svc else svc
            else svc
        end
  end.

(** [parse_service_file (path)], with [config.respawn_delay] as
    [respawn_delay].  No function of the program calls it. *)
Definition parse_service_file (respawn_delay : Z) (path : string) (w : world)
  : world * Z :=
  if (MAX_SERVICES <=? service_count w)%nat then (w, -1)
  else
    match o_fopen E path with
    | None => (w, -1)
    | Some text =>
        let nm := match after_last_slash path with
                  | Some t => t
                  | None => path
                  end in
        let svc0 :=
          set_restart_delay respawn_delay
            (set_max_restarts 5
               (set_runlevel RUNLEVEL_FULL
                  (set_name (String.substring 0 (MAX_NAME - 1) nm) zero_service))) in
        let svc1 :=
          foldl parse_service_line svc0 (fgets_lines (String.length text) text) in
        let svc2 :=
          match cmd svc1 with
          | EmptyString =>
              (* No command specified, try script path *)
              set_cmd (String.substring 0 (MAX_PATH - 1) (path +:+ " start")) svc1
          | _ => svc1
          end in
        (with_services (fun l => l ++ [svc2]) w, 0)
    end.

(** [find_service]: the first service with that name. *)
Fixpoint find_service (nm : string) (l : list service) : option (nat * service) :=
  match l with
  | [] => None
  | s :: rest =>
      if String.eqb (name s) nm then Some (0%nat, s)
      else match find_service nm rest with
           | Some (i, s') => Some (S i, s')
           | None => None
           end
  end.

(** *** Watchdog *)

Definition kick_watchdog (w : world) : world :=
  if 0 <=? watchdog_fd w then emit (EvWrite (watchdog_fd w) "k") w else w.

Definition stop_watchdog (w : world) : world :=
  if 0 <=? watchdog_fd w then
    (* Write 'V' to disable watchdog *)
    set_watchdog_fd (-1)
      (emit (EvClose (watchdog_fd w)) (emit (EvWrite (watchdog_fd w) "V") w))
  else w.

(** *** Shutdown *)

Definition umount_order : list string :=
  ["/tmp"; "/run"; "/dev/shm"; "/dev/pts"; "/dev"; "/sys"; "/proc"].

Definition do_shutdown (w : world) : world :=
  let w1 := stop_watchdog w in
  let w2 := stop_all_services w1 in
  let w3 := emit (EvKill (-1) SIGTERM) w2 in
  let w4 := blocked (EvSleep 2) w3 in
  let w5 := emit (EvKill (-1) SIGKILL) w4 in
  let w6 := blocked (EvSleep 1) w5 in
  let w7 := emit EvSync w6 in
  let w8 := foldl (fun w t => emit (EvUmount t) w) w7 umount_order in
  let w9 := emit EvSync w8 in
  if negb (reboot_requested w9 =? 0)
  then emit (EvReboot LINUX_REBOOT_CMD_RESTART) w9
  else emit (EvReboot LINUX_REBOOT_CMD_POWER_OFF) w9.

(** *** Main loop *)

(** One turn of [while (!shutdown_requested)]. *)
Definition loop_body (w : world) : world :=
  let w1 := blocked (EvUsleep 100000) w in
  let w2 := if negb (child_died w1 =? 0) then reap_children w1 else w1 in
  let w3 := check_services w2 in
  kick_watchdog w3.

(** The loop followed by [do_shutdown], for at most [fuel] turns;
    [None] when the loop is still running after them. *)
Fixpoint supervise (fuel : nat) (w : world) : option world :=
  if negb (shutdown_requested w =? 0) then Some (do_shutdown w)
  else
    match fuel with
    | O => None
    | S fuel' => supervise fuel' (loop_body w)
    end.

End Supervisor.

(** ** Observations on traces *)

Definition is_fork (e : event) : bool :=
  match e with EvFork _ _ => true | _ => false end.

Definition is_probe (e : event) : bool :=
  match e with EvProbe _ _ => true | _ => false end.

Definition is_signal (e : event) : bool :=
  match e with EvSignal _ => true | _ => false end.

(** The system calls of a trace, without the handler runs. *)
Definition calls (t : list event) : list event :=
  filter (fun e => is_signal e = false) t.

(** The pids that were sent SIGTERM, in order. *)
Fixpoint graceful_kills (t : list event) : list Z :=
  match t with
  | [] => []
  | EvKill p SIGTERM :: t' => p :: graceful_kills t'
  | _ :: t' => graceful_kills t'
  end.

(** The command lines handed to [/bin/sh -c] by successful forks. *)
Fixpoint spawned (t : list event) : list string :=
  match t with
  | [] => []
  | EvFork [_; _; c] (Some _) :: t' => c :: spawned t'
  | _ :: t' => spawned t'
  end.


(** [q] lies under the mount point [p]: [p/] is a proper prefix of it. *)
Definition mounted_under (p q : string) : bool :=
  String.prefix (p +:+ "/") q.

(** One round of the polling loop of [stop_service], as system calls. *)
Definition poll_round (p r : Z) : list event :=
  [EvUsleep 100000; EvWaitNohang p r].

(** ** Scenarios *)

(** An environment in which nothing goes wrong and nothing arrives:
    every command is executable, [fork] hands out fresh pids, every
    child is alive, exits with 0 when waited for, and is never reaped. *)
Definition calm : env :=
  Env (fun _ _ => true)
      (fun t => Some (Pos.of_nat (100 + length t)))
      (fun t => Z.of_nat (length t))
      (fun _ _ => true)
      (fun _ _ => 0)
      (fun _ _ => WExited 0)
      (fun _ => [])
      (fun _ => [])
      None
      (fun _ => None)
      (fun _ => None).

Definition boot_world (l : list service) (rl : Z) : world :=
  World l rl 0 0 0 (-1) [].

(** A daemon as a service file would describe it. *)
Definition daemon (nm c : string) (rl fl maxr delay : Z) : service :=
  Service nm c "" rl fl SVC_STOPPED 0 0 0 maxr delay.

Definition running_as (p : Z) (s : service) : service :=
  set_pid p (set_state SVC_RUNNING s).

(** *** A respawn service whose death is reported by SIGCHLD *)

Definition httpd : service :=
  daemon "httpd" "/usr/sbin/httpd -f" 3 SVC_FLAG_RESPAWN 5 3.

(** SIGCHLD arrives during the first [usleep]; the reaping pass that
    follows collects pid 100; nothing is alive. *)
Definition env_sigchld : env :=
  Env (fun _ _ => true)
      (fun t => Some (Pos.of_nat (100 + length t)))
      (fun t => Z.of_nat (length t))
      (fun _ _ => false)
      (fun _ _ => 0)
      (fun _ _ => WExited 0)
      (fun t => match t with [_; _] => [100%positive] | _ => [] end)
      (fun t => match t with [_] => [SIGCHLD] | _ => [] end)
      None
      (fun _ => None)
      (fun _ => None).

Definition world_httpd : world :=
  boot_world [running_as 100 httpd] 5.

(** *** Children that die unseen by SIGCHLD *)

(** Like [calm], but every probed process is gone. *)
Definition env_all_dead : env :=
  Env (fun _ _ => true)
      (fun t => Some (Pos.of_nat (100 + length t)))
      (fun t => Z.of_nat (length t))
      (fun _ _ => false)
      (fun _ _ => 0)
      (fun _ _ => WExited 0)
      (fun _ => [])
      (fun _ => [])
      None
      (fun _ => None)
      (fun _ => None).

Definition fsck : service :=
  daemon "fsck" "/sbin/fsck -a" 1 SVC_FLAG_WAIT 5 0.

Definition syslogd : service :=
  daemon "syslogd" "/sbin/syslogd -n" 1 0 5 0.

(** Service C of the scenario: RESPAWN, max_restarts = 2,
    restart_delay = 0. *)
Definition svc_C : service :=
  daemon "C" "/usr/bin/c -d" 1 SVC_FLAG_RESPAWN 2 0.

(** *** A command that does not exist *)

(** No path is executable. *)
Definition env_no_exec : env :=
  Env (fun _ _ => false)
      (fun t => Some (Pos.of_nat (100 + length t)))
      (fun t => Z.of_nat (length t))
      (fun _ _ => true)
      (fun _ _ => 0)
      (fun _ _ => WExited 0)
      (fun _ => [])
      (fun _ => [])
      None
      (fun _ => None)
      (fun _ => None).

Definition ghost : service :=
  daemon "ghost" "/usr/sbin/nosuchd" 1 0 5 0.

Definition ghost_args : service :=
  daemon "ghost" "/usr/sbin/nosuchd -f" 1 0 5 0.

(** *** Two startup scripts whose names agree on 63 bytes *)

Definition long_stem : string :=
  "S50network-interface-bring-up-and-address-configuration-script-".

Definition script_a : string := long_stem +:+ "a".
Definition script_b : string := long_stem +:+ "b".

Definition env_two_scripts : env :=
  Env (fun _ _ => true)
      (fun t => Some (Pos.of_nat (100 + length t)))
      (fun t => Z.of_nat (length t))
      (fun _ _ => true)
      (fun _ _ => 0)
      (fun _ _ => WExited 0)
      (fun _ => [])
      (fun _ => [])
      (Some ["."; ".."; script_a; "README"; script_b])
      (fun _ => Some 493)
      (fun _ => None).

(** *** Two service files with the same base name *)

Definition web_text : string :=
  "# web server" +:+ String "010" "" +:+
  "command=/usr/sbin/httpd -f" +:+ String "010" "" +:+
  "respawn=true" +:+ String "010" "" +:+
  "runlevel = 3" +:+ String "010" "".

Definition env_two_files : env :=
  Env (fun _ _ => true)
      (fun t => Some (Pos.of_nat (100 + length t)))
      (fun t => Z.of_nat (length t))
      (fun _ _ => true)
      (fun _ _ => 0)
      (fun _ _ => WExited 0)
      (fun _ => [])
      (fun _ => [])
      None
      (fun _ => None)
      (fun p => if String.eqb p "/etc/init.d/web" || String.eqb p "/opt/etc/web"
                then Some web_text else None).

(** *** Runlevels *)

Definition svc_A : service := daemon "A" "/bin/a" 2 0 5 0.
Definition svc_B : service := daemon "B" "/bin/b" 5 0 5 0.

(** *** SIGTERM during the restart delay *)


(** *** Pids that come round again *)

Definition depmod : service :=
  daemon "depmod" "/sbin/depmod -a" 1 SVC_FLAG_WAIT 5 0.

Definition hwclock : service :=
  daemon "hwclock" "/sbin/hwclock -s" 1 SVC_FLAG_WAIT 5 0.

(** The process [p] has been collected by a [waitpid] since it was
    last forked ([g] tells whether it was before [t]). *)
Fixpoint collected (p : Z) (g : bool) (t : list event) : bool :=
  match t with
  | [] => g
  | EvWaitNohang _ r :: t' => collected p (if r =? p then true else g) t'
  | EvWait q _ :: t' => collected p (if q =? p then true else g) t'
  | EvFork _ (Some q) :: t' =>
      collected p (if Z.pos q =? p then false else g) t'
  | _ :: t' => collected p g t'
  end.

(** The pid of the child that was forked last: 100 at first, then 101
    and 102. *)
Definition latest_child (t : list event) : nat :=
  100 + length (List.filter is_fork t).

(** The kernel as init meets it: a child that has exited is still
    there, and answers [kill (pid, 0)], until it is waited for.  The
    pids 100, 101 and 102 are free and are handed out again in this
    order; the process that gets one exits during the next [usleep] of
    the main loop, which brings SIGCHLD, and the reaping pass that
    follows collects it. *)
Definition env_pid_reused : env :=
  Env (fun _ _ => true)
      (fun t => Some (Pos.of_nat (S (latest_child t))))
      (fun t => Z.of_nat (length t))
      (fun t p => negb (collected p false t))
      (fun _ _ => 0)
      (fun _ _ => WExited 0)
      (fun t => if collected (Z.of_nat (latest_child t)) false t then []
                else [Pos.of_nat (latest_child t)])
      (fun t => match last t with
                | Some (EvUsleep _) =>
                    if collected (Z.of_nat (latest_child t)) false t then []
                    else [SIGCHLD]
                | _ => []
                end)
      None
      (fun _ => None)
      (fun _ => None).

(** Three checks that ran at boot are STOPPED and keep the pids they
    had (this is how [start_service] leaves a WAIT service whose child
    has exited with 0); service C runs under pid 100, which has come
    round again. *)
Definition world_pid_reused : world :=
  boot_world [set_pid 100 fsck; set_pid 101 depmod; set_pid 102 hwclock;
              running_as 100 svc_C] 5.

(** ** Vocabulary of the statements *)

(** The waitpid results of the polling rounds when the child is seen to
    exit: all but the last are not positive, the last is. *)
Definition polls_until_exit (rs : list Z) : Prop :=
  exists rs0 r, rs = rs0 ++ [r] /\ Forall (fun x => x <= 0) rs0 /\ 0 < r.

(** [s'] has the fields of [s] that are fixed when the registry is
    built. *)
Definition same_config (s s' : service) : Prop :=
  name s' = name s /\ cmd s' = cmd s /\ pidfile s' = pidfile s
  /\ runlevel s' = runlevel s /\ flags s' = flags s
  /\ max_restarts s' = max_restarts s /\ restart_delay s' = restart_delay s.

(** The same, with the restart counter. *)
Definition same_budget (s s' : service) : Prop :=
  same_config s s' /\ restart_count s' = restart_count s.

(** [w'] comes from [w] by work on [services[i]] alone: the table keeps
    its length, the other services, the runlevel and the watchdog handle
    are as before, [services[i]] stays related by [R], a raised
    [shutdown_requested] stays raised, and the trace has grown. *)
Record touches (R : service -> service -> Prop) (i : nat) (w w' : world) : Prop :=
  Touches {
    t_length : length (services w') = length (services w);
    t_other : forall j, j <> i -> services w' !! j = services w !! j;
    t_this : forall s, services w !! i = Some s ->
                       exists s', services w' !! i = Some s' /\ R s s';
    t_runlevel : current_runlevel w' = current_runlevel w;
    t_watchdog : watchdog_fd w' = watchdog_fd w;
    t_shutdown : shutdown_requested w <> 0 -> shutdown_requested w' <> 0;
    t_trace : exists new, trace w' = trace w ++ new
  }.




(** [w'] comes from [w] without a [fork], and with
    [shutdown_requested] still raised. *)
Definition winds_down (w w' : world) : Prop :=
  shutdown_requested w' <> 0
  /\ exists new, trace w' = trace w ++ new
                 /\ Forall (fun e => is_fork e = false) new.

(** The relation between pid and state that the data model asks for:
    a pid is recorded exactly in the states RUNNING and STOPPING. *)
Definition pid_invariant (s : service) : Prop :=
  pid s <> 0 <-> (state s = SVC_RUNNING \/ state s = SVC_STOPPING).

(** The directory entries that [load_services] turns into services. *)
Definition accepted (E : env) (entries : list string) : list string :=
  List.filter
    (fun d => is_startup_script d && is_executable E (script_path d)) entries.

Definition dir_entries (E : env) : list string :=
  match o_opendir E with
  | Some entries => entries
  | None => []
  end.

(** ** The configuration file and the way to the main loop *)

Definition CONFIG_FILE : string := "/etc/init.conf".

(** [struct init_config]; the two enable flags are C truth values. *)
Record init_config : Type := InitConfig {
  hostname : string;
  default_runlevel : Z;
  enable_watchdog : Z;
  watchdog_device : string;
  watchdog_timeout : Z;
  enable_logging : Z;
  logfile : string;
  respawn_delay : Z
}.

(** The initialiser of [config]. *)
Definition default_config : init_config :=
  InitConfig "beaglebone" RUNLEVEL_FULL 0 "/dev/watchdog" 30 1
             "/var/log/init.log" 3.

(** Every character of [s] satisfies [p]. *)
Fixpoint string_forall (p : ascii -> bool) (s : string) : bool :=
  match s with
  | EmptyString => true
  | String c r => p c && string_forall p r
  end.

(** [sscanf (l, "%63[^=]=%255s", key, value) == 2]: [%s] skips white
    space and then takes what is not white space. *)
Definition scan_key_word (l : string) : option (string * string) :=
  let (k, r1) := scanset 63 (fun c => negb (Ascii.eqb c "=")) l in
  match k, r1 with
  | String _ _, String c r2 =>
      if Ascii.eqb c "=" then
        match fst (scanset 255 (fun c => negb (is_space c)) (skip_spaces r2)) with
        | EmptyString => None
        | v => Some (k, v)
        end
      else None
  | _, _ => None
  end.

(** [strcmp (value, "1") == 0 || strcmp (value, "true") == 0] as an
    [int]. *)
Definition truth_of (v : string) : Z :=
  if String.eqb v "1" || String.eqb v "true" then 1 else 0.

(** One line of the configuration file. *)
Definition parse_config_line (cfg : init_config) (line : string) : init_config :=
  let l := trim line in
  match l with
  | EmptyString => cfg
  | String c _ =>
      (* Skip comments and empty lines *)
      if Ascii.eqb c "#" then cfg
      else
        match scan_key_word l with
        | None => cfg
        | Some (key0, value0) =>
            let key := trim_in_place key0 in
            let value := trim_in_place value0 in
            if String.eqb key "hostname" then
              InitConfig (String.substring 0 (MAX_NAME - 1) value)
                (default_runlevel cfg) (enable_watchdog cfg)
                (watchdog_device cfg) (watchdog_timeout cfg)
                (enable_logging cfg) (logfile cfg) (respawn_delay cfg)
            else if String.eqb key "runlevel" then
              InitConfig (hostname cfg) (atoi value) (enable_watchdog cfg)
                (watchdog_device cfg) (watchdog_timeout cfg)
                (enable_logging cfg) (logfile cfg) (respawn_delay cfg)
            else if String.eqb key "watchdog" then
              InitConfig (hostname cfg) (default_runlevel cfg) (truth_of value)
                (watchdog_device cfg) (watchdog_timeout cfg)
                (enable_logging cfg) (logfile cfg) (respawn_delay cfg)
            else if String.eqb key "watchdog_device" then
              InitConfig (hostname cfg) (default_runlevel cfg)
                (enable_watchdog cfg)
                (String.substring 0 (MAX_PATH - 1) value) (watchdog_timeout cfg)
                (enable_logging cfg) (logfile cfg) (respawn_delay cfg)
            else if String.eqb key "watchdog_timeout" then
              InitConfig (hostname cfg) (default_runlevel cfg)
                (enable_watchdog cfg) (watchdog_device cfg) (atoi value)
                (enable_logging cfg) (logfile cfg) (respawn_delay cfg)
            else if String.eqb key "logging" then
              InitConfig (hostname cfg) (default_runlevel cfg)
                (enable_watchdog cfg) (watchdog_device cfg)
                (watchdog_timeout cfg) (truth_of value) (logfile cfg)
                (respawn_delay cfg)
            else if String.eqb key "respawn_delay" then
              InitConfig (hostname cfg) (default_runlevel cfg)
                (enable_watchdog cfg) (watchdog_device cfg)
                (watchdog_timeout cfg) (enable_logging cfg) (logfile cfg)
                (atoi value)
            else cfg
        end
  end.

(** [parse_config] on [config] and [target_runlevel]: without the file
    both stay; with it [target_runlevel] becomes the runlevel that the
    file leaves in [config]. *)
Definition parse_config (E : env) (cfg : init_config) (target : Z)
  : init_config * Z :=
  match o_fopen E CONFIG_FILE with
  | None => (cfg, target)
  | Some text =>
      let cfg' :=
        foldl parse_config_line cfg (fgets_lines (String.length text) text) in
      (cfg', default_runlevel cfg')
  end.

(** [setup_watchdog], with the return value of [open] as [opened]; the
    [open] and the [ioctl] leave no event. *)
Definition setup_watchdog (cfg : init_config) (opened : Z) (w : world) : world :=
  if enable_watchdog cfg =? 0 then w else set_watchdog_fd opened w.

(** The variables as [main] finds them. *)
Definition initial_world : world :=
  World [] RUNLEVEL_SINGLE 0 0 0 (-1) [].

(** [main] from [parse_config] to [start_all_services]; the mounts, the
    console, the log file, the environment and the host name touch no
    variable that the supervisor reads later.  [None] when
    [load_services] writes past the table. *)
Definition boot (E : env) (opened : Z) (w : world) : option world :=
  let (cfg, target) := parse_config E default_config RUNLEVEL_FULL in
  let w1 := setup_watchdog cfg opened w in
  match load_services E w1 with
  | None => None
  | Some w2 => Some (start_all_services E (set_current_runlevel target w2))
  end.

(** A configuration file that asks for runlevel 3 and the watchdog. *)
Definition conf_text : string :=
  "# init.conf" +:+ String "010" "" +:+
  "hostname = bbb-lab" +:+ String "010" "" +:+
  "runlevel=3" +:+ String "010" "" +:+
  "watchdog=true" +:+ String "010" "".

Definition env_configured : env :=
  Env (fun _ _ => true)
      (fun t => Some (Pos.of_nat (100 + length t)))
      (fun t => Z.of_nat (length t))
      (fun _ _ => true)
      (fun _ _ => 0)
      (fun _ _ => WExited 0)
      (fun _ => [])
      (fun _ => [])
      (Some ["."; ".."; "S10net"; "S20sshd"; "K10net"])
      (fun _ => Some 493)
      (fun p => if String.eqb p CONFIG_FILE then Some conf_text else None).

(** The same directory with a configuration file that holds the one
    line [runlevel=v]. *)
Definition env_runlevel (v : string) : env :=
  Env (fun _ _ => true)
      (fun t => Some (Pos.of_nat (100 + length t)))
      (fun t => Z.of_nat (length t))
      (fun _ _ => true)
      (fun _ _ => 0)
      (fun _ _ => WExited 0)
      (fun _ => [])
      (fun _ => [])
      (Some ["."; ".."; "S10net"; "S20sshd"; "K10net"])
      (fun _ => Some 493)
      (fun p => if String.eqb p CONFIG_FILE
                then Some ("runlevel=" +:+ v +:+ String "010" "")
                else None).

(** The same directory without a configuration file. *)
Definition env_unconfigured : env :=
  Env (fun _ _ => true)
      (fun t => Some (Pos.of_nat (100 + length t)))
      (fun t => Z.of_nat (length t))
      (fun _ _ => true)
      (fun _ _ => 0)
      (fun _ _ => WExited 0)
      (fun _ => [])
      (fun _ => [])
      (Some ["."; ".."; "S10net"; "S20sshd"; "K10net"])
      (fun _ => Some 493)
      (fun _ => None).

(** A line as [fgets] hands it out: no newline, except perhaps at the
    very end. *)
Definition line_shaped (l : string) : Prop :=
  exists a, string_forall (fun c => negb (Ascii.eqb c "010")) a = true
            /\ (l = a \/ l = a +:+ String "010" "").

(** The trace grows from [w] to [w'] by events of the kind [K] only. *)
Definition emits (K : event -> bool) (w w' : world) : Prop :=
  exists new, trace w' = trace w ++ new /\ Forall (fun e => K e = true) new.

(** What a start attempt can do. *)
Definition start_kind (e : event) : bool :=
  match e with
  | EvAccess _ _ | EvFork _ _ | EvTime _ | EvWait _ _ | EvSignal _ => true
  | _ => false
  end.

(** What a turn of the main loop can do before it feeds the watchdog. *)
Definition loop_kind (e : event) : bool :=
  match e with
  | EvAccess _ _ | EvFork _ _ | EvTime _ | EvWait _ _ | EvSignal _
  | EvUsleep _ | EvSleep _ | EvProbe _ _ | EvWaitNohang _ _ => true
  | _ => false
  end.

(** A service that is RUNNING has the pid of a process. *)
Definition pid_if_running (s : service) : Prop :=
  state s = SVC_RUNNING -> 0 < pid s.

Definition running_have_pid (w : world) : Prop :=
  Forall pid_if_running (services w).

(** No service has the RESPAWN flag. *)
Definition none_respawns (w : world) : Prop :=
  Forall (fun s => has_flag s SVC_FLAG_RESPAWN = false) (services w).

(** The table of [w'] has the services of [w], each with the fields
    that are fixed when the registry is built. *)
Definition keeps_config (w w' : world) : Prop :=
  Forall2 same_config (services w) (services w').

(** The strings of [config] fit their buffers and the two enable flags
    are 0 or 1. *)
Definition config_fits (cfg : init_config) : Prop :=
  (String.length (hostname cfg) <= 63)%nat
  /\ (String.length (watchdog_device cfg) <= 255)%nat
  /\ (enable_watchdog cfg = 0 \/ enable_watchdog cfg = 1)
  /\ (enable_logging cfg = 0 \/ enable_logging cfg = 1).

(** [s'] is [s] after some respawns: the same configuration, a restart
    counter that has not gone down and has not passed [max_restarts]
    (unless it was beyond it from the start). *)
Definition within_budget (s s' : service) : Prop :=
  same_config s s'
  /\ restart_count s <= restart_count s'
  /\ restart_count s' <= Z.max (restart_count s) (max_restarts s).

(** The probes of a health check that finds every process alive. *)
Definition probes_of (l : list service) : list event :=
  map (fun s => EvProbe (pid s) true)
      (filter (fun s => state s = SVC_RUNNING) l).

(** The health check of [services[i]] in [w] finds the service [s]
    dead: it is RUNNING, [kill (pid, 0)] fails, and no shutdown is
    requested. *)
Definition found_dead (E : env) (i : nat) (w : world) (s : service) : Prop :=
  services w !! i = Some s /\ state s = SVC_RUNNING /\ 0 < pid s
  /\ o_alive E (trace w) (pid s) = false /\ shutdown_requested w = 0.

(** [new] holds the events of one call of [start_service] for [s], and
    [s'] is what the call left.  The call opens with the check of the
    command and forks at most once.  Either the child was forked and
    the service is RUNNING under its pid; or the service has the WAIT
    flag, the child was forked and waited for, and the service is
    STOPPED or FAILED; or no child came to be (the command was not
    found, or [fork] failed) and the service is FAILED. *)
Definition start_outcome (s s' : service) (new : list event) : Prop :=
  (exists ok rest, new = EvAccess (cmd s) ok :: rest)
  /\ ((exists p,
         List.filter is_fork new = [EvFork ["/bin/sh"; "-c"; cmd s] (Some p)]
         /\ has_flag s SVC_FLAG_WAIT = false
         /\ state s' = SVC_RUNNING /\ pid s' = Z.pos p)
      \/ (exists p,
            List.filter is_fork new
            = [EvFork ["/bin/sh"; "-c"; cmd s] (Some p)]
            /\ has_flag s SVC_FLAG_WAIT = true
            /\ (state s' = SVC_STOPPED \/ state s' = SVC_FAILED)
            /\ pid s' = Z.pos p)
      \/ ((List.filter is_fork new = []
           \/ List.filter is_fork new
              = [EvFork ["/bin/sh"; "-c"; cmd s] None])
          /\ state s' = SVC_FAILED)).

(** * Properties *)

(** ** Signals and flags *)

Lemma services_deliver s w : services (deliver s w) = services w.
Proof. destruct s; reflexivity. Qed.

Lemma trace_deliver s w : trace (deliver s w) = trace w ++ [EvSignal s].
Proof. destruct s; reflexivity. Qed.

Lemma runlevel_deliver s w : current_runlevel (deliver s w) = current_runlevel w.
Proof. destruct s; reflexivity. Qed.

Lemma watchdog_deliver s w : watchdog_fd (deliver s w) = watchdog_fd w.
Proof. destruct s; reflexivity. Qed.

Lemma shutdown_deliver s w :
  shutdown_requested w <> 0 -> shutdown_requested (deliver s w) <> 0.
Proof. destruct s; simpl; intros H; trivial; discriminate. Qed.

Lemma deliver_all_snoc l s w :
  deliver_all (l ++ [s]) w = deliver s (deliver_all l w).
Proof. unfold deliver_all. now rewrite foldl_app. Qed.

Lemma services_deliver_all l w : services (deliver_all l w) = services w.
Proof.
  revert w; induction l as [|s l IH]; intros w; [reflexivity|].
  simpl. rewrite IH. apply services_deliver.
Qed.

Lemma trace_deliver_all l w :
  trace (deliver_all l w) = trace w ++ map EvSignal l.
Proof.
  revert w; induction l as [|s l IH]; intros w; simpl.
  - now rewrite app_nil_r.
  - rewrite IH, trace_deliver, <- app_assoc. reflexivity.
Qed.

Lemma runlevel_deliver_all l w :
  current_runlevel (deliver_all l w) = current_runlevel w.
Proof.
  revert w; induction l as [|s l IH]; intros w; [reflexivity|].
  simpl. rewrite IH. apply runlevel_deliver.
Qed.

Lemma watchdog_deliver_all l w :
  watchdog_fd (deliver_all l w) = watchdog_fd w.
Proof.
  revert w; induction l as [|s l IH]; intros w; [reflexivity|].
  simpl. rewrite IH. apply watchdog_deliver.
Qed.

Lemma shutdown_deliver_all l w :
  shutdown_requested w <> 0 -> shutdown_requested (deliver_all l w) <> 0.
Proof.
  revert w; induction l as [|s l IH]; intros w H; [exact H|].
  simpl. apply IH, shutdown_deliver, H.
Qed.


Lemma calls_app t1 t2 : calls (t1 ++ t2) = calls t1 ++ calls t2.
Proof. apply filter_app. Qed.

Lemma calls_signals l : calls (map EvSignal l) = [].
Proof. induction l as [|s l IH]; [reflexivity|]. exact IH. Qed.

Lemma graceful_kills_app t1 t2 :
  graceful_kills (t1 ++ t2) = graceful_kills t1 ++ graceful_kills t2.
Proof.
  induction t1 as [|e t1 IH]; [reflexivity|].
  simpl. destruct e; try exact IH. destruct sig; try exact IH.
  simpl. now rewrite IH.
Qed.

Lemma graceful_kills_signals l : graceful_kills (map EvSignal l) = [].
Proof. induction l as [|s l IH]; [reflexivity|]. exact IH. Qed.

Section Facts.

Context (E : env).

Lemma services_blocked e w : services (blocked E e w) = services w.
Proof. unfold blocked. now rewrite services_deliver_all. Qed.

Lemma trace_blocked e w :
  trace (blocked E e w)
  = trace w ++ e :: map EvSignal (o_signals E (trace w ++ [e])).
Proof.
  unfold blocked. rewrite trace_deliver_all. simpl.
  now rewrite <- app_assoc.
Qed.

Lemma runlevel_blocked e w :
  current_runlevel (blocked E e w) = current_runlevel w.
Proof. unfold blocked. now rewrite runlevel_deliver_all. Qed.

Lemma watchdog_blocked e w : watchdog_fd (blocked E e w) = watchdog_fd w.
Proof. unfold blocked. now rewrite watchdog_deliver_all. Qed.

Lemma shutdown_blocked e w :
  shutdown_requested w <> 0 -> shutdown_requested (blocked E e w) <> 0.
Proof. intros H. unfold blocked. now apply shutdown_deliver_all. Qed.

End Facts.

(** ** Updating one service *)

Lemma alter_lookup_insert (f : service -> service) i (l : list service) s :
  l !! i = Some s -> alter f i l = <[i := f s]> l.
Proof.
  intros H. apply list_eq. intros j.
  destruct (decide (i = j)) as [->|Hne].
  - rewrite list_lookup_alter_eq, H. simpl.
    symmetry. apply list_lookup_insert_eq. eapply lookup_lt_Some, H.
  - rewrite list_lookup_alter_ne by exact Hne.
    now rewrite list_lookup_insert_ne by exact Hne.
Qed.

Lemma services_upd i f w : services (upd i f w) = alter f i (services w).
Proof. reflexivity. Qed.

Lemma trace_upd i f w : trace (upd i f w) = trace w.
Proof. reflexivity. Qed.

Lemma upd_upd i f g w : upd i f (upd i g w) = upd i (f ∘ g) w.
Proof.
  unfold upd, with_services. simpl. f_equal. apply list_alter_alter_eq.
Qed.

(** ** [stop_service] *)

Section StopService.

Context (E : env).

Lemma stop_poll_spec n p w :
  let w' := fst (stop_poll E n p w) in
  services w' = services w
  /\ current_runlevel w' = current_runlevel w
  /\ watchdog_fd w' = watchdog_fd w
  /\ (shutdown_requested w <> 0 -> shutdown_requested w' <> 0)
  /\ exists new rs,
       trace w' = trace w ++ new
       /\ calls new = concat (map (poll_round p) rs)
       /\ graceful_kills new = []
       /\ (length rs <= n)%nat
       /\ (if snd (stop_poll E n p w) then polls_until_exit rs
           else length rs = n /\ Forall (fun x => x <= 0) rs).
Proof.
  revert w; induction n as [|n IH]; intros w; simpl.
  - repeat split; trivial. exists [], []. rewrite app_nil_r.
    repeat split; trivial.
  - set (w1 := blocked E (EvUsleep 100000) w).
    set (r := o_waitpid_nohang E (trace w1) p).
    assert (Ht1 : trace (emit (EvWaitNohang p r) w1)
                  = trace w ++ (EvUsleep 100000
                       :: map EvSignal (o_signals E (trace w ++ [EvUsleep 100000])))
                       ++ [EvWaitNohang p r]).
    { simpl. unfold w1. rewrite trace_blocked, <- app_assoc. reflexivity. }
    assert (Hc : calls ((EvUsleep 100000
                       :: map EvSignal (o_signals E (trace w ++ [EvUsleep 100000])))
                       ++ [EvWaitNohang p r]) = poll_round p r).
    { rewrite calls_app. change (calls (EvUsleep 100000 :: ?l))
        with (EvUsleep 100000 :: calls l).
      rewrite calls_signals. reflexivity. }
    assert (Hg : graceful_kills ((EvUsleep 100000
                       :: map EvSignal (o_signals E (trace w ++ [EvUsleep 100000])))
                       ++ [EvWaitNohang p r]) = []).
    { rewrite graceful_kills_app. simpl. now rewrite graceful_kills_signals. }
    destruct (0 <? r) eqn:Hr; simpl.
    + split; [apply services_blocked|].
      split; [apply runlevel_blocked|].
      split; [apply watchdog_blocked|].
      split; [apply shutdown_blocked|].
      eexists _, [r]. split; [exact Ht1|]. split; [now rewrite Hc|].
      split; [exact Hg|]. split; [simpl; lia|].
      exists [], r. repeat split; trivial. apply Z.ltb_lt, Hr.
    + specialize (IH (emit (EvWaitNohang p r) w1)).
      destruct IH as (Hs & Hrl & Hwd & Hsh & new & rs & Ht & Hcs & Hgk & Hlen & Hres).
      split; [rewrite Hs; apply services_blocked|].
      split; [rewrite Hrl; apply runlevel_blocked|].
      split; [rewrite Hwd; apply watchdog_blocked|].
      split; [intros H; apply Hsh; simpl; now apply shutdown_blocked|].
      eexists _, (r :: rs). split.
      { rewrite Ht, Ht1, <- app_assoc. reflexivity. }
      split; [rewrite calls_app, Hc, Hcs; reflexivity|].
      split; [rewrite graceful_kills_app, Hg, Hgk; reflexivity|].
      split; [simpl; lia|].
      apply Z.ltb_ge in Hr.
      destruct (snd (stop_poll E n p (emit (EvWaitNohang p r) w1))).
      * destruct Hres as (rs0 & r' & -> & Hall & Hpos).
        exists (r :: rs0), r'. repeat split; trivial. now constructor.
      * destruct Hres as [Hl Hall]. split; [simpl; now rewrite Hl|].
        now constructor.
Qed.

Lemma stopped_after_stopping s :
  set_pid 0 (set_state SVC_STOPPED (set_state SVC_STOPPING s))
  = set_pid 0 (set_state SVC_STOPPED s).
Proof. reflexivity. Qed.

Lemma stop_service_idle i w :
  (forall s, services w !! i = Some s -> state s <> SVC_RUNNING) ->
  stop_service E i w = (w, 0).
Proof.
  intros H. unfold stop_service.
  destruct (services w !! i) as [s|] eqn:Hs; [|reflexivity].
  specialize (H s eq_refl). apply Z.eqb_neq in H. now rewrite H.
Qed.

(** What [stop_service] does to a running service: the table after it,
    and the system calls it made. *)
Lemma stop_service_running i w s :
  services w !! i = Some s ->
  state s = SVC_RUNNING ->
  exists w' new rs esc,
    stop_service E i w = (w', 0)
    /\ services w' = <[i := set_pid 0 (set_state SVC_STOPPED s)]> (services w)
    /\ current_runlevel w' = current_runlevel w
    /\ watchdog_fd w' = watchdog_fd w
    /\ (shutdown_requested w <> 0 -> shutdown_requested w' <> 0)
    /\ trace w' = trace w ++ new
    /\ calls new
       = EvKill (pid s) SIGTERM :: concat (map (poll_round (pid s)) rs) ++ esc
    /\ graceful_kills new = [pid s]
    /\ (length rs <= 50)%nat
    /\ ((polls_until_exit rs /\ esc = [])
        \/ (length rs = 50%nat /\ Forall (fun r => r <= 0) rs
            /\ exists st, esc = [EvKill (pid s) SIGKILL; EvWait (pid s) st])).
Proof.
  intros Hs Hst. unfold stop_service. rewrite Hs, Hst, Z.eqb_refl.
  cbn [negb].
  set (w2 := emit (EvKill (pid s) SIGTERM) (upd i (set_state SVC_STOPPING) w)).
  pose proof (stop_poll_spec 50 (pid s) w2) as Hp. cbv zeta in Hp.
  destruct (stop_poll E 50 (pid s) w2) as [w3 exited].
  cbn [fst snd] in Hp.
  destruct Hp as (Hsv & Hrl & Hwd & Hsh & new & rs & Ht & Hc & Hg & Hlen & Hres).
  assert (Hsv2 : services w2 = alter (set_state SVC_STOPPING) i (services w))
    by reflexivity.
  assert (Ht2 : trace w2 = trace w ++ [EvKill (pid s) SIGTERM]) by reflexivity.
  destruct exited.
  - eexists _, (EvKill (pid s) SIGTERM :: new), rs, [].
    split; [reflexivity|].
    split.
    { rewrite upd_upd, services_upd, Hsv, Hsv2, list_alter_alter_eq.
      rewrite (alter_lookup_insert _ _ _ _ Hs). reflexivity. }
    split; [exact Hrl|]. split; [exact Hwd|]. split; [exact Hsh|].
    split; [rewrite !trace_upd, Ht, Ht2, <- app_assoc; reflexivity|].
    split.
    { change (calls (EvKill (pid s) SIGTERM :: new))
        with (EvKill (pid s) SIGTERM :: calls new).
      now rewrite Hc, app_nil_r. }
    split; [simpl; now rewrite Hg|].
    split; [exact Hlen|]. left. split; [exact Hres|reflexivity].
  - destruct Hres as [Hl Hall].
    set (w4 := emit (EvKill (pid s) SIGKILL) w3).
    set (st := o_waitpid E (trace w4) (pid s)).
    eexists _, (EvKill (pid s) SIGTERM :: new
                  ++ EvKill (pid s) SIGKILL :: EvWait (pid s) st
                  :: map EvSignal (o_signals E (trace w4 ++ [EvWait (pid s) st]))),
            rs, [EvKill (pid s) SIGKILL; EvWait (pid s) st].
    split; [reflexivity|].
    split.
    { rewrite upd_upd, services_upd, services_blocked. unfold w4. simpl.
      rewrite Hsv, Hsv2, list_alter_alter_eq.
      rewrite (alter_lookup_insert _ _ _ _ Hs). reflexivity. }
    split; [rewrite !upd_upd; simpl; rewrite runlevel_blocked; exact Hrl|].
    split; [rewrite !upd_upd; simpl; rewrite watchdog_blocked; exact Hwd|].
    split.
    { intros H. rewrite !upd_upd. simpl. apply shutdown_blocked. simpl.
      now apply Hsh. }
    split.
    { rewrite !trace_upd, trace_blocked. unfold w4 at 1. simpl.
      rewrite Ht, Ht2, <- !app_assoc. reflexivity. }
    split.
    { change (calls (EvKill (pid s) SIGTERM :: ?l))
        with (EvKill (pid s) SIGTERM :: calls l).
      rewrite calls_app, Hc. f_equal. f_equal.
      change (calls (EvKill (pid s) SIGKILL :: EvWait (pid s) st :: ?l))
        with (EvKill (pid s) SIGKILL :: EvWait (pid s) st :: calls l).
      now rewrite calls_signals. }
    split.
    { simpl. rewrite graceful_kills_app, Hg. simpl.
      now rewrite graceful_kills_signals. }
    split; [exact Hlen|]. right. split; [exact Hl|]. split; [exact Hall|].
    now exists st.
Qed.

End StopService.

(** C6.  [stop_service] does nothing to a service that is not RUNNING.
    For a RUNNING service it sends SIGTERM, then polls in rounds of
    [usleep (100000)] and [waitpid (pid, &status, WNOHANG)], at most 50
    of them, stopping at the first round that sees the child exit; when
    all 50 rounds pass without that it sends SIGKILL and waits for the
    child with a blocking [waitpid].  Either way the service ends
    STOPPED with its pid cleared, no other service is touched, and the
    function returns 0. *)
Theorem C6_stop_service E i w s :
  services w !! i = Some s ->
  (state s <> SVC_RUNNING -> stop_service E i w = (w, 0))
  /\ (state s = SVC_RUNNING ->
      exists w' new rs esc,
        stop_service E i w = (w', 0)
        /\ services w' = <[i := set_pid 0 (set_state SVC_STOPPED s)]> (services w)
        /\ trace w' = trace w ++ new
        /\ calls new
           = EvKill (pid s) SIGTERM
               :: concat (map (poll_round (pid s)) rs) ++ esc
        /\ (length rs <= 50)%nat
        /\ ((polls_until_exit rs /\ esc = [])
            \/ (length rs = 50%nat /\ Forall (fun r => r <= 0) rs
                /\ exists st, esc = [EvKill (pid s) SIGKILL; EvWait (pid s) st]))).
Proof.
  intros Hs. split.
  - intros Hst. apply stop_service_idle. intros s' Hs'.
    rewrite Hs in Hs'. now injection Hs' as <-.
  - intros Hst.
    destruct (stop_service_running E i w s Hs Hst)
      as (w' & new & rs & esc & H1 & H2 & _ & _ & _ & H3 & H4 & _ & H5 & H6).
    exists w', new, rs, esc. repeat split; assumption.
Qed.

Lemma C6_stop_service_witness :
  services (boot_world [running_as 7 svc_A; svc_B] 5) !! 0%nat
  = Some (running_as 7 svc_A)
  /\ exists w',
       stop_service calm 0 (boot_world [running_as 7 svc_A; svc_B] 5) = (w', 0)
       /\ services w' = [svc_A; svc_B].
Proof.
  split; [reflexivity|].
  destruct (C6_stop_service calm 0 (boot_world [running_as 7 svc_A; svc_B] 5)
              (running_as 7 svc_A) eq_refl) as [_ H].
  destruct (H eq_refl) as (w' & new & rs & esc & H1 & H2 & _).
  exists w'. split; [exact H1|exact H2].
Defined.

(** ** [stop_all_services] and [do_shutdown] *)

Section Shutdown.

Context (E : env).

(** One call of [stop_service], whatever the state of the service. *)
Lemma stop_service_frame i w :
  let w' := fst (stop_service E i w) in
  length (services w') = length (services w)
  /\ (forall j, j <> i -> services w' !! j = services w !! j)
  /\ (forall s', services w' !! i = Some s' -> state s' <> SVC_RUNNING)
  /\ watchdog_fd w' = watchdog_fd w
  /\ exists new,
       trace w' = trace w ++ new
       /\ graceful_kills new
          = match services w !! i with
            | Some s => if decide (state s = SVC_RUNNING) then [pid s] else []
            | None => []
            end.
Proof.
  destruct (services w !! i) as [s|] eqn:Hs.
  - destruct (decide (state s = SVC_RUNNING)) as [Hst|Hst].
    + destruct (stop_service_running E i w s Hs Hst)
        as (w' & new & rs & esc & H1 & H2 & _ & Hwd & _ & H3 & _ & H4 & _).
      rewrite H1. cbn [fst].
      split; [rewrite H2; apply length_insert|].
      split; [intros j Hj; rewrite H2; now apply list_lookup_insert_ne|].
      split.
      { intros s'. rewrite H2, list_lookup_insert_eq
          by (eapply lookup_lt_Some, Hs).
        intros [= <-]. discriminate. }
      split; [exact Hwd|]. exists new. split; assumption.
    + rewrite stop_service_idle.
      2:{ intros s' Hs'. rewrite Hs in Hs'. now injection Hs' as <-. }
      cbn [fst]. split; [reflexivity|]. split; [reflexivity|].
      split; [intros s'; rewrite Hs; now intros [= <-]|].
      split; [reflexivity|]. exists []. now rewrite app_nil_r.
  - rewrite stop_service_idle by (intros s'; rewrite Hs; discriminate).
    cbn [fst]. split; [reflexivity|]. split; [reflexivity|].
    split; [intros s'; rewrite Hs; discriminate|].
    split; [reflexivity|]. exists []. now rewrite app_nil_r.
Qed.

(** The loop of [stop_all_services] from index [k - 1] down to 0. *)
Lemma stop_down_from k w :
  (k <= length (services w))%nat ->
  let w' := foldl (fun w i => fst (stop_service E i w)) w (rev (seq 0 k)) in
  length (services w') = length (services w)
  /\ (forall j, (k <= j)%nat -> services w' !! j = services w !! j)
  /\ Forall (fun s => state s <> SVC_RUNNING) (take k (services w'))
  /\ watchdog_fd w' = watchdog_fd w
  /\ exists new,
       trace w' = trace w ++ new
       /\ graceful_kills new
          = map pid (rev (filter (fun s => state s = SVC_RUNNING)
                                 (take k (services w)))).
Proof.
  revert w; induction k as [|k IH]; intros w Hk.
  - simpl. split; [reflexivity|]. split; [reflexivity|].
    split; [constructor|].
    split; [reflexivity|]. exists []. now rewrite app_nil_r.
  - rewrite seq_S, rev_app_distr. cbn [rev app foldl Nat.add].
    destruct (stop_service_frame k w)
      as (Hlen1 & Hne & Hst & Hwd & new1 & Ht1 & Hg1).
    set (w1 := fst (stop_service E k w)) in *.
    destruct (IH w1 ltac:(lia)) as (Hlen2 & Hge & Hall & Hwd2 & new2 & Ht2 & Hg2).
    set (w' := foldl _ w1 _) in *.
    destruct (lookup_lt_is_Some_2 (services w) k ltac:(lia)) as [s Hs].
    assert (Htk : take k (services w1) = take k (services w)).
    { apply list_eq. intros j. destruct (decide (j < k)%nat) as [Hj|Hj].
      - rewrite !lookup_take_lt by exact Hj. apply Hne. lia.
      - rewrite !lookup_take_ge by lia. reflexivity. }
    split; [lia|].
    split; [intros j Hj; rewrite Hge by lia; apply Hne; lia|].
    split.
    { destruct (lookup_lt_is_Some_2 (services w') k ltac:(lia)) as [s' Hs'].
      rewrite (take_S_r _ _ _ Hs'). apply Forall_app. split; [exact Hall|].
      constructor; [|constructor]. apply Hst. rewrite <- Hge by lia. exact Hs'. }
    split; [now rewrite Hwd2|].
    exists (new1 ++ new2). split; [rewrite Ht2, Ht1, <- app_assoc; reflexivity|].
    rewrite graceful_kills_app, Hg1, Hg2, Htk, Hs, (take_S_r _ _ _ Hs).
    rewrite filter_app, rev_app_distr, map_app.
    destruct (decide (state s = SVC_RUNNING)) as [Hr|Hr].
    + rewrite filter_cons_True by exact Hr. reflexivity.
    + rewrite filter_cons_False by exact Hr. reflexivity.
Qed.

Lemma stop_all_services_spec w :
  let w' := stop_all_services E w in
  Forall (fun s => state s <> SVC_RUNNING) (services w')
  /\ watchdog_fd w' = watchdog_fd w
  /\ exists new,
       trace w' = trace w ++ new
       /\ graceful_kills new
          = map pid (rev (filter (fun s => state s = SVC_RUNNING) (services w))).
Proof.
  unfold stop_all_services, indices, service_count.
  destruct (stop_down_from (length (services w)) w (Nat.le_refl _))
    as (Hlen & Hge & Hall & Hwd & new & Ht & Hg).
  set (w' := foldl _ w _) in *.
  rewrite take_ge in Hall by lia. rewrite firstn_all in Hg.
  split; [exact Hall|]. split; [exact Hwd|]. now exists new.
Qed.

End Shutdown.

Lemma services_emit e w : services (emit e w) = services w.
Proof. reflexivity. Qed.

Lemma services_umounts l w :
  services (foldl (fun w t => emit (EvUmount t) w) w l) = services w.
Proof.
  revert w; induction l as [|t l IH]; intros w; [reflexivity|].
  simpl. now rewrite IH.
Qed.

Lemma services_do_shutdown E w :
  services (do_shutdown E w)
  = services (stop_all_services E (stop_watchdog w)).
Proof.
  unfold do_shutdown.
  set (w2 := stop_all_services E (stop_watchdog w)). clearbody w2.
  destruct (negb _);
    rewrite !services_emit, services_umounts, services_emit,
            services_blocked, services_emit, services_blocked, services_emit;
    reflexivity.
Qed.

Lemma umount_nested_first i j p q :
  umount_order !! i = Some p ->
  umount_order !! j = Some q ->
  mounted_under p q = true ->
  (j < i)%nat.
Proof.
  intros Hi Hj Hpq.
  do 7 (destruct i as [|i];
        [injection Hi as <-;
         do 7 (destruct j as [|j];
               [injection Hj as <-; first [discriminate Hpq | lia]|]);
         discriminate Hj|]).
  discriminate Hi.
Qed.

(** C7.  [do_shutdown] issues its system calls in this order: the
    watchdog is disabled and closed (when it is open); the services are
    stopped by [stop_service], the RUNNING ones receiving SIGTERM in the
    reverse of registry order; SIGTERM goes to every process, followed
    by a sleep of 2 seconds; SIGKILL goes to every process, followed by
    a sleep of 1 second; sync; /tmp, /run, /dev/shm, /dev/pts, /dev,
    /sys and /proc are unmounted in this order, so that a mount point
    lying under another one goes first; sync; and last reboot, with the
    restart command when [reboot_requested] is set and the power-off
    command otherwise.  No service is RUNNING afterwards. *)
Theorem C7_shutdown_order E w :
  let w' := do_shutdown E w in
  exists stops,
    trace (stop_all_services E (stop_watchdog w))
    = trace (stop_watchdog w) ++ stops
    /\ graceful_kills stops
       = map pid (rev (filter (fun s => state s = SVC_RUNNING) (services w)))
    /\ calls (trace w')
       = calls (trace w)
         ++ (if 0 <=? watchdog_fd w
             then [EvWrite (watchdog_fd w) "V"; EvClose (watchdog_fd w)]
             else [])
         ++ calls stops
         ++ [EvKill (-1) SIGTERM; EvSleep 2; EvKill (-1) SIGKILL; EvSleep 1;
             EvSync]
         ++ map EvUmount
              ["/tmp"; "/run"; "/dev/shm"; "/dev/pts"; "/dev"; "/sys"; "/proc"]
         ++ [EvSync;
             EvReboot (if reboot_requested w' =? 0
                       then LINUX_REBOOT_CMD_POWER_OFF
                       else LINUX_REBOOT_CMD_RESTART)]
    /\ Forall (fun s => state s <> SVC_RUNNING) (services w')
    /\ (forall i j p q,
          umount_order !! i = Some p ->
          umount_order !! j = Some q ->
          mounted_under p q = true -> (j < i)%nat).
Proof.
  intros w'.
  destruct (stop_all_services_spec E (stop_watchdog w))
    as (Hall & _ & stops & Ht & Hg).
  exists stops. split; [exact Ht|].
  split.
  { rewrite Hg. unfold stop_watchdog.
    destruct (0 <=? watchdog_fd w); reflexivity. }
  split; [|split; [|exact umount_nested_first]].
  2:{ subst w'. now rewrite services_do_shutdown. }
  assert (Hwd : calls (trace (stop_watchdog w))
                = calls (trace w)
                  ++ (if 0 <=? watchdog_fd w
                      then [EvWrite (watchdog_fd w) "V"; EvClose (watchdog_fd w)]
                      else [])).
  { unfold stop_watchdog. destruct (0 <=? watchdog_fd w); simpl.
    - rewrite <- app_assoc, calls_app. reflexivity.
    - now rewrite app_nil_r. }
  subst w'. unfold do_shutdown.
  set (w2 := stop_all_services E (stop_watchdog w)) in *. clearbody w2.
  set (w4 := blocked E (EvSleep 2) (emit (EvKill (-1) SIGTERM) w2)).
  set (w6 := blocked E (EvSleep 1) (emit (EvKill (-1) SIGKILL) w4)).
  set (w9 := emit EvSync (foldl _ (emit EvSync w6) umount_order)).
  assert (Ht9 : calls (trace w9)
                = calls (trace w2)
                  ++ [EvKill (-1) SIGTERM; EvSleep 2; EvKill (-1) SIGKILL;
                      EvSleep 1; EvSync]
                  ++ map EvUmount umount_order ++ [EvSync]).
  { unfold w9. simpl. unfold w6. rewrite trace_blocked. simpl.
    unfold w4. rewrite trace_blocked. simpl.
    rewrite <- !app_assoc. simpl.
    rewrite !calls_app.
    change (calls (EvKill (-1) SIGTERM :: EvSleep 2 :: ?l))
      with (EvKill (-1) SIGTERM :: EvSleep 2 :: calls l).
    rewrite !calls_app, calls_signals.
    change (calls (EvKill (-1) SIGKILL :: EvSleep 1 :: ?l))
      with (EvKill (-1) SIGKILL :: EvSleep 1 :: calls l).
    rewrite !calls_app, calls_signals. reflexivity. }
  assert (Hfin : forall c,
             calls (trace (emit (EvReboot c) w9))
             = calls (trace w9) ++ [EvReboot c]).
  { intros c. simpl. now rewrite calls_app. }
  destruct (reboot_requested w9 =? 0) eqn:Hrb; cbn [negb];
    rewrite Hfin, Ht9, Ht, calls_app, Hwd;
    change (reboot_requested (emit (EvReboot ?c) w9)) with (reboot_requested w9);
    rewrite Hrb, <- !app_assoc; reflexivity.
Qed.

(** ** Functions that work on one service *)

Lemma same_config_refl s : same_config s s.
Proof. repeat split. Qed.

Lemma same_config_trans s1 s2 s3 :
  same_config s1 s2 -> same_config s2 s3 -> same_config s1 s3.
Proof. unfold same_config. intuition congruence. Qed.

Lemma same_budget_refl s : same_budget s s.
Proof. split; [apply same_config_refl|reflexivity]. Qed.

Lemma same_budget_trans s1 s2 s3 :
  same_budget s1 s2 -> same_budget s2 s3 -> same_budget s1 s3.
Proof.
  intros [H1 H2] [H3 H4]. split; [eapply same_config_trans; eassumption|].
  congruence.
Qed.

Lemma same_budget_config s s' : same_budget s s' -> same_config s s'.
Proof. now intros [H _]. Qed.

Section Touches.

Context (R : service -> service -> Prop).
Context (R_refl : forall s, R s s).
Context (R_trans : forall s1 s2 s3, R s1 s2 -> R s2 s3 -> R s1 s3).

Lemma touches_refl i w : touches R i w w.
Proof.
  constructor; trivial.
  - intros s Hs. exists s. split; [exact Hs|apply R_refl].
  - exists []. now rewrite app_nil_r.
Qed.

Lemma touches_trans i w1 w2 w3 :
  touches R i w1 w2 -> touches R i w2 w3 -> touches R i w1 w3.
Proof.
  intros [L1 O1 T1 C1 W1 S1 [n1 N1]] [L2 O2 T2 C2 W2 S2 [n2 N2]].
  constructor.
  - congruence.
  - intros j Hj. rewrite O2, O1 by exact Hj. reflexivity.
  - intros s Hs. destruct (T1 s Hs) as (s2 & Hs2 & HR1).
    destruct (T2 s2 Hs2) as (s3 & Hs3 & HR2).
    exists s3. split; [exact Hs3|]. eapply R_trans; eassumption.
  - congruence.
  - congruence.
  - auto.
  - exists (n1 ++ n2). rewrite N2, N1. now rewrite app_assoc.
Qed.

Lemma touches_emit i e w0 w :
  touches R i w0 w -> touches R i w0 (emit e w).
Proof.
  intros H. eapply touches_trans; [exact H|].
  constructor; trivial.
  - intros s Hs. exists s. split; [exact Hs|apply R_refl].
  - now exists [e].
Qed.

Lemma touches_upd i f w0 w :
  (forall s, R s (f s)) ->
  touches R i w0 w -> touches R i w0 (upd i f w).
Proof.
  intros Hf H. eapply touches_trans; [exact H|].
  constructor; trivial.
  - apply length_alter.
  - intros j Hj. simpl. now apply list_lookup_alter_ne.
  - intros s Hs. exists (f s). split; [|apply Hf].
    simpl. now rewrite list_lookup_alter_eq, Hs.
  - exists []. now rewrite app_nil_r.
Qed.

Lemma touches_deliver_all i l w0 w :
  touches R i w0 w -> touches R i w0 (deliver_all l w).
Proof.
  intros H. eapply touches_trans; [exact H|].
  constructor.
  - now rewrite services_deliver_all.
  - intros j _. now rewrite services_deliver_all.
  - intros s Hs. exists s. rewrite services_deliver_all.
    split; [exact Hs|apply R_refl].
  - apply runlevel_deliver_all.
  - apply watchdog_deliver_all.
  - apply shutdown_deliver_all.
  - rewrite trace_deliver_all. eauto.
Qed.

Lemma touches_blocked E i e w0 w :
  touches R i w0 w -> touches R i w0 (blocked E e w).
Proof.
  intros H. unfold blocked. apply touches_deliver_all, touches_emit, H.
Qed.

End Touches.

Lemma touches_weaken (R R' : service -> service -> Prop) i w w' :
  (forall s s', R s s' -> R' s s') -> touches R i w w' -> touches R' i w w'.
Proof.
  intros HR [L O T C W S N]. constructor; trivial.
  intros s Hs. destruct (T s Hs) as (s' & Hs' & Hr). eauto.
Qed.

(** Proves [touches R i w0 w] where [w] is built from [w0] by [emit],
    [blocked] and assignments to the state, pid and start time. *)
Ltac touches_tac Rrefl Rtrans :=
  repeat first
    [ apply (touches_refl _ Rrefl)
    | apply (touches_emit _ Rrefl Rtrans)
    | apply (touches_blocked _ Rrefl Rtrans)
    | apply (touches_upd _ Rtrans); [intros ?; repeat split|] ].

(** ** [start_service] *)

Section StartService.

Context (E : env).

Lemma start_service_running i w s :
  services w !! i = Some s -> state s = SVC_RUNNING ->
  start_service E i w = (w, 0).
Proof.
  intros Hs Hst. unfold start_service. now rewrite Hs, Hst.
Qed.

(** A start attempt begins with [access (svc->cmd, X_OK)]; all it
    changes is the state, pid and start time of the service. *)
Lemma start_service_attempt i w s :
  services w !! i = Some s -> state s <> SVC_RUNNING ->
  touches same_budget i
    (emit (EvAccess (cmd s) (o_access E (trace w) (cmd s))) w)
    (fst (start_service E i w)).
Proof.
  intros Hs Hst. unfold start_service. rewrite Hs.
  apply Z.eqb_neq in Hst. rewrite Hst.
  destruct (o_access E (trace w) (cmd s)) eqn:Hok.
  - cbn [negb]. destruct (o_fork E _) as [p|].
    + destruct (has_flag s SVC_FLAG_WAIT).
      * destruct (o_waitpid E _ _) as [[| |]|]; cbn [fst];
          touches_tac same_budget_refl same_budget_trans.
      * cbn [fst]. touches_tac same_budget_refl same_budget_trans.
    + cbn [fst]. touches_tac same_budget_refl same_budget_trans.
  - destruct (String.index 0 " " (cmd s)) as [n|].
    + destruct (o_access E _ (String.substring 0 n (cmd s))); cbn [negb].
      * destruct (o_fork E _) as [p|].
        -- destruct (has_flag s SVC_FLAG_WAIT).
           ++ destruct (o_waitpid E _ _) as [[| |]|]; cbn [fst];
                touches_tac same_budget_refl same_budget_trans.
           ++ cbn [fst]. touches_tac same_budget_refl same_budget_trans.
        -- cbn [fst]. touches_tac same_budget_refl same_budget_trans.
      * cbn [fst]. touches_tac same_budget_refl same_budget_trans.
    + cbn [negb]. destruct (o_fork E _) as [p|].
      * destruct (has_flag s SVC_FLAG_WAIT).
        -- destruct (o_waitpid E _ _) as [[| |]|]; cbn [fst];
             touches_tac same_budget_refl same_budget_trans.
        -- cbn [fst]. touches_tac same_budget_refl same_budget_trans.
      * cbn [fst]. touches_tac same_budget_refl same_budget_trans.
Qed.

Lemma start_service_touches i w :
  touches same_budget i w (fst (start_service E i w)).
Proof.
  destruct (services w !! i) as [s|] eqn:Hs.
  - destruct (decide (state s = SVC_RUNNING)) as [Hst|Hst].
    + rewrite (start_service_running i w s Hs Hst).
      apply (touches_refl _ same_budget_refl).
    + eapply (touches_trans _ same_budget_trans);
        [|apply (start_service_attempt i w s Hs Hst)].
      touches_tac same_budget_refl same_budget_trans.
  - unfold start_service. rewrite Hs. apply (touches_refl _ same_budget_refl).
Qed.

End StartService.

(** ** [start_all_services] *)

Section StartAll.

Context (E : env).


End StartAll.


(** ** Shutdown requests *)

Section Requests.

Context (E : env).

(** No signal arrives while the supervisor is blocked. *)
Hypothesis quiet : forall t, o_signals E t = [].






End Requests.



(** ** [check_services] *)

Section CheckServices.

Context (E : env).

Lemma check_service_idle i w s :
  services w !! i = Some s -> state s <> SVC_RUNNING ->
  check_service E i w = w.
Proof.
  intros Hs Hst. unfold check_service. rewrite Hs.
  apply Z.eqb_neq in Hst. now rewrite Hst.
Qed.

(** The probe of a dead process with a positive pid. *)
Lemma is_running_dead p w :
  0 < p -> o_alive E (trace w) p = false ->
  is_running E p w = (emit (EvProbe p false) w, false).
Proof.
  intros Hp Ha. unfold is_running.
  destruct (p <=? 0) eqn:Hle; [apply Z.leb_le in Hle; lia|].
  now rewrite Ha.
Qed.

(** The health check of one service once the shutdown is requested:
    a probe at most, and no respawn. *)
Lemma check_service_winds_down i w :
  shutdown_requested w <> 0 -> winds_down w (check_service E i w).
Proof.
  intros Hsd. unfold winds_down, check_service.
  assert (Hrefl : exists new, trace w = trace w ++ new
                    /\ Forall (fun e => is_fork e = false) new).
  { exists []. split; [now rewrite app_nil_r|constructor]. }
  destruct (services w !! i) as [s|]; [|now split].
  destruct (state s =? SVC_RUNNING); [|now split].
  unfold is_running. destruct (pid s <=? 0).
  - cbn [upd with_services shutdown_requested].
    apply Z.eqb_neq in Hsd. rewrite Hsd, andb_false_r.
    split; [now apply Z.eqb_neq|exact Hrefl].
  - assert (Hp : exists new,
               trace w ++ [EvProbe (pid s) (o_alive E (trace w) (pid s))]
               = trace w ++ new
               /\ Forall (fun e => is_fork e = false) new).
    { eexists. split; [reflexivity|]. now repeat constructor. }
    destruct (o_alive E (trace w) (pid s)).
    + split; [exact Hsd|exact Hp].
    + cbn [upd with_services emit shutdown_requested].
      apply Z.eqb_neq in Hsd. rewrite Hsd, andb_false_r.
      split; [now apply Z.eqb_neq|exact Hp].
Qed.







End CheckServices.




(** ** The main loop and services that are not running *)

Section MainLoop.

Context (E : env).

Lemma touches_request_reboot R i w0 w :
  (forall s, R s s) ->
  (forall s1 s2 s3, R s1 s2 -> R s2 s3 -> R s1 s3) ->
  touches R i w0 w ->
  touches R i w0 (set_shutdown_requested 1 (set_reboot_requested 1 w)).
Proof.
  intros Rr Rt H. eapply (touches_trans _ Rt); [exact H|].
  constructor; trivial.
  - intros s Hs. exists s. split; [exact Hs|apply Rr].
  - discriminate.
  - exists []. now rewrite app_nil_r.
Qed.

(** The health check of [services[i]] works on that service alone and
    keeps what the service file said. *)
Lemma check_service_touches i w :
  touches same_config i w (check_service E i w).
Proof.
  unfold check_service.
  destruct (services w !! i) as [s|] eqn:Hs;
    [|apply (touches_refl _ same_config_refl)].
  destruct (state s =? SVC_RUNNING);
    [|apply (touches_refl _ same_config_refl)].
  assert (H1 : touches same_config i w (fst (is_running E (pid s) w))).
  { unfold is_running. destruct (pid s <=? 0); cbn [fst];
      touches_tac same_config_refl same_config_trans. }
  destruct (is_running E (pid s) w) as [w1 alive]. cbn [fst] in H1.
  destruct alive; [exact H1|].
  assert (H2 : touches same_config i w (upd i (set_state SVC_STOPPED) w1)).
  { apply (touches_upd _ same_config_trans); [intros ?; repeat split|exact H1]. }
  destruct (has_flag s SVC_FLAG_RESPAWN && _); [|exact H2].
  destruct (restart_count s <? max_restarts s).
  - apply (touches_upd _ same_config_trans); [intros ?; repeat split|].
    eapply (touches_trans _ same_config_trans).
    2:{ eapply touches_weaken; [apply same_budget_config|].
        apply start_service_touches. }
    apply (touches_blocked _ same_config_refl same_config_trans), H2.
  - assert (H3 : touches same_config i w
                   (upd i (set_state SVC_FAILED)
                        (upd i (set_state SVC_STOPPED) w1))).
    { apply (touches_upd _ same_config_trans); [intros ?; repeat split|exact H2]. }
    destruct (has_flag s SVC_FLAG_CRITICAL); [|exact H3].
    apply touches_request_reboot;
      [apply same_config_refl|apply same_config_trans|exact H3].
Qed.

(** [check_services] leaves a service that is not RUNNING as it is:
    nothing in the health check starts a STOPPED or FAILED service. *)
Lemma check_services_idle w i s :
  services w !! i = Some s -> state s <> SVC_RUNNING ->
  services (check_services E w) !! i = Some s.
Proof.
  unfold check_services. generalize (indices w).
  intros l; revert w; induction l as [|j l IH]; intros w Hs Hst; [exact Hs|].
  simpl. apply IH; [|exact Hst].
  destruct (decide (j = i)) as [->|Hne].
  - now rewrite (check_service_idle E i w s Hs Hst).
  - rewrite (t_other _ _ _ _ (check_service_touches j w)) by congruence.
    exact Hs.
Qed.

Lemma reap_one_other p (l : list service) i s :
  l !! i = Some s -> pid s <> p -> reap_one p l !! i = Some s.
Proof.
  revert i; induction l as [|s0 l IH]; intros i Hs Hp; [discriminate|].
  simpl. destruct (pid s0 =? p) eqn:Hq.
  - destruct i as [|i]; [|exact Hs].
    injection Hs as ->. apply Z.eqb_eq in Hq. contradiction.
  - destruct i as [|i]; [exact Hs|]. simpl. now apply IH.
Qed.

Lemma reap_children_cleared w i s :
  services w !! i = Some s -> pid s = 0 ->
  services (reap_children E w) !! i = Some s.
Proof.
  intros Hs Hp. unfold reap_children.
  change (services (set_child_died 0 ?x)) with (services x).
  generalize (o_reap E (trace w)).
  intros l; revert w Hs; induction l as [|p l IH]; intros w Hs; [exact Hs|].
  simpl. apply IH. simpl. apply reap_one_other; [exact Hs|]. lia.
Qed.

(** A service that is not RUNNING and has no pid recorded is the same
    after any number of turns of the main loop, in every environment. *)
Lemma idle_service_stays w i s n :
  services w !! i = Some s -> state s <> SVC_RUNNING -> pid s = 0 ->
  services (Nat.iter n (loop_body E) w) !! i = Some s.
Proof.
  intros Hs Hst Hp. induction n as [|n IH]; [exact Hs|].
  simpl. set (w0 := Nat.iter n (loop_body E) w) in *.
  unfold loop_body.
  set (w1 := blocked E (EvUsleep 100000) w0).
  assert (H1 : services w1 !! i = Some s)
    by (unfold w1; now rewrite services_blocked).
  set (w2 := if negb (child_died w1 =? 0) then reap_children E w1 else w1).
  assert (H2 : services w2 !! i = Some s).
  { unfold w2. destruct (negb (child_died w1 =? 0)); [|exact H1].
    now apply reap_children_cleared. }
  pose proof (check_services_idle w2 i s H2 Hst) as H3.
  unfold kick_watchdog. destruct (0 <=? watchdog_fd _); exact H3.
Qed.

End MainLoop.

(** C1, on the code.  [httpd] has the RESPAWN flag, five restarts left
    and runs as pid 100.  SIGCHLD arrives during the first [usleep] of
    the main loop and the reaping pass collects pid 100: the pid is
    cleared and the service becomes STOPPED.  [check_services] looks at
    RUNNING services only, so neither this turn of the loop nor any
    later one starts the service again: after any number of turns it is
    STOPPED with [restart_count = 0], and the loop has made no system
    call but its [usleep]. *)
Theorem C1_reaped_service_is_not_respawned n :
  Nat.iter (S n) (loop_body env_sigchld) world_httpd
  = World [httpd] 5 0 0 0 (-1)
          ([EvUsleep 100000; EvSignal SIGCHLD; EvWaitNohang (-1) 100]
             ++ repeat (EvUsleep 100000) n).
Proof.
  induction n as [|n IH]; [vm_compute; reflexivity|].
  change (Nat.iter (S (S n)) (loop_body env_sigchld) world_httpd)
    with (loop_body env_sigchld
            (Nat.iter (S n) (loop_body env_sigchld) world_httpd)).
  rewrite IH. cbn [repeat]. rewrite (repeat_cons n (EvUsleep 100000)).
  unfold loop_body, blocked, emit. cbn [trace o_signals env_sigchld app].
  reflexivity.
Qed.

(** ** The recorded pid *)

(** C2, on the code.  Three operations that begin with the invariant
    and end without it.  [start_service] on a WAIT service whose child
    exits with 0 leaves the service STOPPED with the pid of that child;
    the health check of a dead service without the RESPAWN flag leaves
    it STOPPED with the pid of the dead process; the health check of a
    dead RESPAWN service whose budget is used up leaves it FAILED with
    that pid.  Only [stop_service] and [reap_children] clear the pid. *)
Theorem C2_pid_outlives_the_process :
  let wa := boot_world [fsck] 5 in
  let wb := boot_world [running_as 100 syslogd] 5 in
  let wc := boot_world [set_restart_count 2 (running_as 111 svc_C)] 5 in
  (Forall pid_invariant (services wa)
   /\ map (fun s => (state s, pid s)) (services (fst (start_service calm 0 wa)))
      = [(SVC_STOPPED, 101)]
   /\ ~ Forall pid_invariant (services (fst (start_service calm 0 wa))))
  /\ (Forall pid_invariant (services wb)
      /\ map (fun s => (state s, pid s)) (services (check_services env_all_dead wb))
         = [(SVC_STOPPED, 100)]
      /\ ~ Forall pid_invariant (services (check_services env_all_dead wb)))
  /\ (Forall pid_invariant (services wc)
      /\ map (fun s => (state s, pid s)) (services (check_services env_all_dead wc))
         = [(SVC_FAILED, 111)]
      /\ ~ Forall pid_invariant (services (check_services env_all_dead wc))).
Proof.
  cbv zeta.
  assert (Hbroken : forall l st p,
             map (fun s => (state s, pid s)) l = [(st, p)] ->
             p <> 0 -> st <> SVC_RUNNING -> st <> SVC_STOPPING ->
             ~ Forall pid_invariant l).
  { intros l st p Hl Hp H1 H2 HF.
    destruct l as [|s l]; [discriminate|]. injection Hl as Hst Hpid _.
    inversion HF as [|? ? Hinv _]. unfold pid_invariant in Hinv.
    subst. tauto. }
  assert (Hheld : forall s, pid s = 0 -> state s = SVC_STOPPED ->
                            Forall pid_invariant [s]).
  { intros s Hp Hst. constructor; [|constructor]. unfold pid_invariant.
    rewrite Hp, Hst. split; [congruence|]. intros [H|H]; discriminate H. }
  assert (Hrun : forall s, pid s <> 0 -> state s = SVC_RUNNING ->
                           Forall pid_invariant [s]).
  { intros s Hp Hst. constructor; [|constructor]. unfold pid_invariant.
    rewrite Hst. tauto. }
  split; [|split].
  - split; [now apply Hheld|].
    assert (Hm : map (fun s => (state s, pid s))
                     (services (fst (start_service calm 0 (boot_world [fsck] 5))))
                 = [(SVC_STOPPED, 101)]) by (vm_compute; reflexivity).
    split; [exact Hm|]. eapply Hbroken; [exact Hm|discriminate..].
  - split; [now apply Hrun|].
    assert (Hm : map (fun s => (state s, pid s))
                     (services (check_services env_all_dead
                                  (boot_world [running_as 100 syslogd] 5)))
                 = [(SVC_STOPPED, 100)]) by (vm_compute; reflexivity).
    split; [exact Hm|]. eapply Hbroken; [exact Hm|discriminate..].
  - split; [now apply Hrun|].
    assert (Hm : map (fun s => (state s, pid s))
                     (services (check_services env_all_dead
                        (boot_world [set_restart_count 2 (running_as 111 svc_C)] 5)))
                 = [(SVC_FAILED, 111)]) by (vm_compute; reflexivity).
    split; [exact Hm|]. eapply Hbroken; [exact Hm|discriminate..].
Qed.

(** ** The command check of [start_service] *)

Section CommandCheck.

Context (E : env).

(** The check rejects a command with arguments when neither the whole
    string nor the part before the first space is executable: FAILED,
    -1, and no [fork]. *)
Lemma start_service_not_found i w s n :
  services w !! i = Some s ->
  state s <> SVC_RUNNING ->
  o_access E (trace w) (cmd s) = false ->
  String.index 0 " " (cmd s) = Some n ->
  o_access E (trace w ++ [EvAccess (cmd s) false])
           (String.substring 0 n (cmd s)) = false ->
  start_service E i w
  = (upd i (set_state SVC_FAILED)
         (emit (EvAccess (String.substring 0 n (cmd s)) false)
               (emit (EvAccess (cmd s) false) w)), -1).
Proof.
  intros Hs Hst Ha Hi Ht. unfold start_service.
  apply Z.eqb_neq in Hst. rewrite Hs, Hst, Ha, Hi.
  cbn [emit trace]. now rewrite Ht.
Qed.

(** A command without a space passes the check whether or not it is
    executable: [start_service] goes on to [fork]. *)
Lemma start_service_unchecked i w s :
  services w !! i = Some s ->
  state s <> SVC_RUNNING ->
  o_access E (trace w) (cmd s) = false ->
  String.index 0 " " (cmd s) = None ->
  exists r rest,
    trace (fst (start_service E i w))
    = trace w ++ EvAccess (cmd s) false
              :: EvFork ["/bin/sh"; "-c"; cmd s] r :: rest.
Proof.
  intros Hs Hst Ha Hi. unfold start_service.
  apply Z.eqb_neq in Hst. rewrite Hs, Hst, Ha, Hi. cbn [negb].
  set (w3 := upd i (set_state SVC_STARTING) (emit (EvAccess (cmd s) false) w)).
  exists (o_fork E (trace w3)).
  destruct (o_fork E (trace w3)) as [p|].
  - destruct (has_flag s SVC_FLAG_WAIT).
    + set (st := o_waitpid E _ _).
      assert (Hw : exists rest, forall f,
                 trace (upd i f (blocked E (EvWait (Z.pos p) st)
                   (upd i (set_start_time (o_time E (trace (upd i (set_pid (Z.pos p))
                      (emit (EvFork ["/bin/sh"; "-c"; cmd s] (Some p)) w3)))))
                     (emit (EvTime (o_time E (trace (upd i (set_pid (Z.pos p))
                       (emit (EvFork ["/bin/sh"; "-c"; cmd s] (Some p)) w3)))))
                       (upd i (set_pid (Z.pos p))
                         (emit (EvFork ["/bin/sh"; "-c"; cmd s] (Some p)) w3))))))
                 = trace w ++ EvAccess (cmd s) false
                     :: EvFork ["/bin/sh"; "-c"; cmd s] (Some p) :: rest).
      { eexists. intros f. rewrite trace_upd, trace_blocked. simpl.
        rewrite <- !app_assoc. reflexivity. }
      destruct Hw as [rest Hw]. exists rest.
      destruct st as [[| |]|]; cbn [fst]; apply Hw.
    + eexists. cbn [fst]. simpl. rewrite <- !app_assoc. reflexivity.
  - exists []. cbn [fst]. simpl. rewrite <- !app_assoc. reflexivity.
Qed.

End CommandCheck.

(** C4, on the code.  The command of [ghost] has no space and nothing
    is executable: the check lets it pass, [start_service] forks,
    records pid 101, sets RUNNING and returns 0.  The same command with
    an argument is rejected before any [fork]: FAILED, -1, no pid. *)
Theorem C4_missing_command_is_forked :
  start_service env_no_exec 0 (boot_world [ghost] 5)
  = (World [set_start_time 2 (running_as 101 ghost)] 5 0 0 0 (-1)
           [EvAccess "/usr/sbin/nosuchd" false;
            EvFork ["/bin/sh"; "-c"; "/usr/sbin/nosuchd"] (Some 101%positive);
            EvTime 2],
     0)
  /\ start_service env_no_exec 0 (boot_world [ghost_args] 5)
     = (World [set_state SVC_FAILED ghost_args] 5 0 0 0 (-1)
              [EvAccess "/usr/sbin/nosuchd -f" false;
               EvAccess "/usr/sbin/nosuchd" false],
        -1).
Proof. split; vm_compute; reflexivity. Qed.

(** ** The registry *)

Section Registry.

Context (E : env).

Lemma name_script_service d :
  name (script_service d) = String.substring 0 63 d.
Proof. reflexivity. Qed.

(** When [load_services] returns, it has appended one service for each
    accepted entry, in directory order, and changed nothing else. *)
Lemma load_entries_some entries w w' :
  load_entries E entries w = Some w' ->
  services w' = services w ++ map script_service (accepted E entries)
  /\ trace w' = trace w
  /\ current_runlevel w' = current_runlevel w.
Proof.
  revert w; induction entries as [|d rest IH]; intros w H;
    cbn [load_entries] in H.
  - injection H as <-. simpl. now rewrite app_nil_r.
  - unfold accepted. simpl.
    destruct (is_startup_script d && is_executable E (script_path d)).
    + destruct (MAX_SERVICES <=? service_count w)%nat; [discriminate|].
      destruct (IH _ H) as (H1 & H2 & H3). simpl in H1.
      rewrite H1, <- app_assoc. auto.
    + now apply IH.
Qed.

(** It returns whenever the table has room for the accepted entries;
    the names play no part. *)
Lemma load_entries_room entries w :
  (length (services w) + length (accepted E entries) <= MAX_SERVICES)%nat ->
  exists w', load_entries E entries w = Some w'.
Proof.
  revert w; induction entries as [|d rest IH]; intros w H;
    cbn [load_entries].
  - eauto.
  - unfold accepted in H. simpl in H.
    destruct (is_startup_script d && is_executable E (script_path d)).
    + simpl in H. unfold service_count.
      destruct (MAX_SERVICES <=? length (services w))%nat eqn:Hfull.
      * apply Nat.leb_le in Hfull. lia.
      * apply IH. simpl. rewrite length_app. simpl.
        unfold accepted. lia.
    + now apply IH.
Qed.

(** [find_service] returns the first service with the name. *)
Lemma find_service_first nm (l : list service) i s :
  find_service nm l = Some (i, s) ->
  l !! i = Some s /\ name s = nm
  /\ forall j s', (j < i)%nat -> l !! j = Some s' -> name s' <> nm.
Proof.
  revert i; induction l as [|s0 l IH]; intros i H; [discriminate|].
  simpl in H. destruct (String.eqb (name s0) nm) eqn:Hn.
  - injection H as <- <-. apply String.eqb_eq in Hn.
    split; [reflexivity|]. split; [exact Hn|]. intros j s' Hj. lia.
  - destruct (find_service nm l) as [[i' s1]|]; [|discriminate].
    injection H as <- <-. destruct (IH i' eq_refl) as (H1 & H2 & H3).
    split; [exact H1|]. split; [exact H2|].
    intros [|j] s' Hj Hl.
    + injection Hl as <-. now apply String.eqb_neq in Hn.
    + apply (H3 j); [lia|exact Hl].
Qed.

Lemma parse_service_line_name svc line :
  name (parse_service_line svc line) = name svc.
Proof.
  unfold parse_service_line.
  destruct (trim line) as [|c l]; [reflexivity|].
  destruct (Ascii.eqb c "#"); [reflexivity|].
  destruct (scan_key_value (String c l)) as [[k v]|]; [|reflexivity].
  repeat match goal with
         | |- context [if ?b then _ else _] => destruct b
         end; reflexivity.
Qed.

Lemma parse_service_lines_name lines svc :
  name (foldl parse_service_line svc lines) = name svc.
Proof.
  revert svc; induction lines as [|l lines IH]; intros svc; [reflexivity|].
  simpl. now rewrite IH, parse_service_line_name.
Qed.

(** [parse_service_file] returns 0 exactly when the table has room and
    the file opens; it then appends one service, named by the first 63
    bytes of the base name of the path. *)
Lemma parse_service_file_spec d path w :
  let r := parse_service_file E d path w in
  ((length (services w) < MAX_SERVICES)%nat /\ o_fopen E path <> None ->
   snd r = 0
   /\ exists s,
        services (fst r) = services w ++ [s]
        /\ name s = String.substring 0 63
                      match after_last_slash path with
                      | Some t => t
                      | None => path
                      end)
  /\ (~ ((length (services w) < MAX_SERVICES)%nat /\ o_fopen E path <> None) ->
      r = (w, -1)).
Proof.
  unfold parse_service_file, service_count.
  destruct (MAX_SERVICES <=? length (services w))%nat eqn:Hfull.
  - apply Nat.leb_le in Hfull. split; [intros [H _]; lia|reflexivity].
  - apply Nat.leb_gt in Hfull.
    destruct (o_fopen E path) as [text|].
    + split; [|intros H; exfalso; apply H; split; [exact Hfull|discriminate]].
      intros _. cbn [fst snd]. split; [reflexivity|].
      eexists. split; [reflexivity|].
      destruct (cmd _); cbn [name set_cmd];
        rewrite parse_service_lines_name; reflexivity.
    + split; [intros [_ H]; contradiction|reflexivity].
Qed.

End Registry.

(** C5 (as the code has it).  [load_services] has no check of names and
    no error for a repeated one.  When it returns, the registry is the
    old one followed by one service for each executable [S<digit>...]
    entry of the directory, in directory order, each named by the first
    63 bytes of the entry name; so the names are unique exactly when
    the old names and these truncated names are.  It returns whenever
    the table of 32 has room for the accepted entries.  [find_service]
    returns the first service that has the name.  [parse_service_file]
    likewise appends a service named by the first 63 bytes of the base
    name of its path whenever the table has room and the file opens. *)
Theorem C5_registry_names E w w' :
  load_services E w = Some w' ->
  services w' = services w ++ map script_service (accepted E (dir_entries E))
  /\ map name (services w')
     = map name (services w)
       ++ map (String.substring 0 63) (accepted E (dir_entries E))
  /\ (NoDup (map name (services w'))
      <-> NoDup (map name (services w)
                 ++ map (String.substring 0 63) (accepted E (dir_entries E))))
  /\ (forall w0,
        (length (services w0) + length (accepted E (dir_entries E))
         <= MAX_SERVICES)%nat ->
        exists w1, load_services E w0 = Some w1)
  /\ (forall nm i s,
        find_service nm (services w') = Some (i, s) ->
        services w' !! i = Some s /\ name s = nm
        /\ forall j s', (j < i)%nat -> services w' !! j = Some s' ->
                        name s' <> nm)
  /\ (forall d path w0,
        (length (services w0) < MAX_SERVICES)%nat ->
        o_fopen E path <> None ->
        snd (parse_service_file E d path w0) = 0
        /\ exists s,
             services (fst (parse_service_file E d path w0))
             = services w0 ++ [s]
             /\ name s = String.substring 0 63
                           match after_last_slash path with
                           | Some t => t
                           | None => path
                           end).
Proof.
  intros H.
  assert (Hsv : services w'
                = services w ++ map script_service (accepted E (dir_entries E))).
  { unfold load_services, dir_entries in *.
    destruct (o_opendir E) as [entries|].
    - now apply load_entries_some in H.
    - injection H as <-. simpl. now rewrite app_nil_r. }
  assert (Hnm : map name (services w')
                = map name (services w)
                  ++ map (String.substring 0 63) (accepted E (dir_entries E))).
  { rewrite Hsv, map_app, map_map. reflexivity. }
  split; [exact Hsv|]. split; [exact Hnm|].
  split; [now rewrite Hnm|].
  split.
  - intros w0 Hroom. unfold load_services, dir_entries in *.
    destruct (o_opendir E) as [entries|]; [|eauto].
    now apply load_entries_room.
  - split; [intros nm i s; apply find_service_first|].
    intros d path w0 Hroom Hopen.
    now apply (parse_service_file_spec E d path w0).
Qed.

Lemma C5_registry_names_witness :
  exists w',
    load_services env_two_scripts (boot_world [] 1) = Some w'
    /\ map name (services w') = [long_stem; long_stem].
Proof.
  exists (with_services (fun _ => [script_service script_a; script_service script_b])
                        (boot_world [] 1)).
  assert (H : load_services env_two_scripts (boot_world [] 1)
              = Some (with_services
                        (fun _ => [script_service script_a; script_service script_b])
                        (boot_world [] 1))) by (vm_compute; reflexivity).
  split; [exact H|].
  destruct (C5_registry_names env_two_scripts _ _ H) as (_ & Hn & _).
  rewrite Hn. vm_compute. reflexivity.
Defined.

(** C5 as stated fails: a directory with two executable startup
    scripts whose names differ only in the 64th byte loads without an
    error, and the two services have the same name. *)
Lemma C5_duplicate_names_load :
  NoDup (dir_entries env_two_scripts)
  /\ exists w',
       load_services env_two_scripts (boot_world [] 1) = Some w'
       /\ map name (services w') = [long_stem; long_stem]
       /\ ~ NoDup (map name (services w')).
Proof.
  split.
  - apply NoDup_ListNoDup. vm_compute.
    repeat constructor; simpl; intuition discriminate.
  - exists (with_services (fun _ => [script_service script_a; script_service script_b])
                          (boot_world [] 1)).
    split; [vm_compute; reflexivity|]. split; [vm_compute; reflexivity|].
    intros H. apply NoDup_ListNoDup in H.
    vm_compute in H. inversion H as [|? ? Hin _]. apply Hin. now left.
Qed.

(** The same with [parse_service_file]: two service files in different
    directories with the same base name both load, under one name. *)
Lemma parse_service_file_same_base_name :
  let r1 := parse_service_file env_two_files 3 "/etc/init.d/web" (boot_world [] 1) in
  let r2 := parse_service_file env_two_files 3 "/opt/etc/web" (fst r1) in
  snd r1 = 0 /\ snd r2 = 0
  /\ map name (services (fst r2)) = ["web"; "web"]
  /\ map cmd (services (fst r2)) = ["/usr/sbin/httpd -f"; "/usr/sbin/httpd -f"]
  /\ map runlevel (services (fst r2)) = [3; 3]
  /\ map flags (services (fst r2)) = [SVC_FLAG_RESPAWN; SVC_FLAG_RESPAWN].
Proof. cbv zeta. do 5 (split; [vm_compute; reflexivity|]). vm_compute. reflexivity. Qed.

(** ** The respawn policy *)

Lemma trace_emit e w : trace (emit e w) = trace w ++ [e].
Proof. reflexivity. Qed.

Lemma filter_fork_signals l : List.filter is_fork (map EvSignal l) = [].
Proof. induction l as [|a l IH]; [reflexivity|exact IH]. Qed.

Lemma set_pid_twice s : set_pid 0 (set_pid 0 s) = set_pid 0 s.
Proof. reflexivity. Qed.

Lemma reap_one_down p (l : list service) i s :
  l !! i = Some s -> state s <> SVC_RUNNING ->
  reap_one p l !! i = Some s \/ reap_one p l !! i = Some (set_pid 0 s).
Proof.
  revert i; induction l as [|s0 l IH]; intros i Hs Hst; [discriminate|].
  simpl. destruct (pid s0 =? p).
  - destruct i as [|i]; [|left; exact Hs].
    injection Hs as ->. apply Z.eqb_neq in Hst. rewrite Hst. now right.
  - destruct i as [|i]; [left; exact Hs|]. simpl. now apply IH.
Qed.

Ltac once_lookup Hs :=
  repeat first [ rewrite services_upd | rewrite services_emit
               | rewrite services_blocked | rewrite list_lookup_alter_eq ];
  rewrite Hs; cbn [fmap option_fmap option_map]; reflexivity.

Ltac once_trace :=
  repeat first [ rewrite trace_upd | rewrite trace_blocked
               | rewrite trace_emit ];
  rewrite <- ?app_assoc; reflexivity.

Ltac once_outcome :=
  split; [eexists _, _; reflexivity|];
  cbn [List.filter app is_fork]; rewrite ?filter_fork_signals;
  first [ left; eexists; split; [reflexivity|];
          split; [assumption|]; split; reflexivity
        | right; left; eexists; split; [reflexivity|];
          split; [assumption|];
          split; [first [left; reflexivity | right; reflexivity]|reflexivity]
        | right; right;
          split; [first [left; reflexivity | right; reflexivity]|reflexivity] ].

Ltac once_leaf Hs :=
  cbn [fst]; eexists; eexists;
  split; [once_lookup Hs|];
  split; [now repeat split|];
  split; [once_trace|];
  once_outcome.

Section Respawn.

Context (E : env).

(** One call of [start_service] for a service that is not RUNNING. *)
Lemma start_service_once i w s :
  services w !! i = Some s -> state s <> SVC_RUNNING ->
  exists s' new,
    services (fst (start_service E i w)) !! i = Some s'
    /\ same_budget s s'
    /\ trace (fst (start_service E i w)) = trace w ++ new
    /\ start_outcome s s' new.
Proof.
  intros Hs Hst. unfold start_service. rewrite Hs.
  apply Z.eqb_neq in Hst. rewrite Hst.
  destruct (o_access E (trace w) (cmd s)).
  - cbn [negb]. destruct (o_fork E _) as [p|]; [|once_leaf Hs].
    destruct (has_flag s SVC_FLAG_WAIT) eqn:Hw; [|once_leaf Hs].
    destruct (o_waitpid E _ _) as [[| |]|]; once_leaf Hs.
  - destruct (String.index 0 " " (cmd s)) as [n|].
    + destruct (o_access E _ (String.substring 0 n (cmd s))); cbn [negb];
        [|once_leaf Hs].
      destruct (o_fork E _) as [p|]; [|once_leaf Hs].
      destruct (has_flag s SVC_FLAG_WAIT) eqn:Hw; [|once_leaf Hs].
      destruct (o_waitpid E _ _) as [[| |]|]; once_leaf Hs.
    + cbn [negb]. destruct (o_fork E _) as [p|]; [|once_leaf Hs].
      destruct (has_flag s SVC_FLAG_WAIT) eqn:Hw; [|once_leaf Hs].
      destruct (o_waitpid E _ _) as [[| |]|]; once_leaf Hs.
Qed.

Lemma reap_children_down w i s :
  services w !! i = Some s -> state s <> SVC_RUNNING ->
  services (reap_children E w) !! i = Some s
  \/ services (reap_children E w) !! i = Some (set_pid 0 s).
Proof.
  intros Hs Hst. unfold reap_children.
  change (services (set_child_died 0 ?x)) with (services x).
  generalize (o_reap E (trace w)).
  intros l.
  assert (H : services w !! i = Some s \/ services w !! i = Some (set_pid 0 s))
    by now left.
  clear Hs. revert w H; induction l as [|p l IH]; intros w H; [exact H|].
  simpl. apply IH. simpl.
  destruct H as [H|H].
  - now apply reap_one_down.
  - destruct (reap_one_down (Z.pos p) (services w) i (set_pid 0 s) H Hst)
      as [H'|H']; right; exact H'.
Qed.

(** A service that is not RUNNING is never started by the main loop:
    after any number of turns, in every environment, it is as it was,
    but for a recorded pid that a reaping pass may have cleared. *)
Lemma down_service_stays w i s n :
  services w !! i = Some s -> state s <> SVC_RUNNING ->
  services (Nat.iter n (loop_body E) w) !! i = Some s
  \/ services (Nat.iter n (loop_body E) w) !! i = Some (set_pid 0 s).
Proof.
  intros Hs Hst. induction n as [|n IH]; [now left|].
  simpl. set (w0 := Nat.iter n (loop_body E) w) in *. clearbody w0.
  assert (Hstep : forall x, services w0 !! i = Some x -> state x <> SVC_RUNNING ->
            services (loop_body E w0) !! i = Some x
            \/ services (loop_body E w0) !! i = Some (set_pid 0 x)).
  { intros x Hx Hstx. unfold loop_body.
    set (w1 := blocked E (EvUsleep 100000) w0).
    assert (H1 : services w1 !! i = Some x)
      by (unfold w1; now rewrite services_blocked).
    set (w2 := if negb (child_died w1 =? 0) then reap_children E w1 else w1).
    assert (H2 : services w2 !! i = Some x
                 \/ services w2 !! i = Some (set_pid 0 x)).
    { unfold w2. destruct (negb (child_died w1 =? 0)); [|now left].
      now apply reap_children_down. }
    clearbody w2.
    assert (H3 : services (check_services E w2) !! i = Some x
                 \/ services (check_services E w2) !! i = Some (set_pid 0 x)).
    { destruct H2 as [H2|H2]; [left|right];
        now apply (check_services_idle E w2 i _ H2). }
    unfold kick_watchdog. destruct (0 <=? watchdog_fd _); exact H3. }
  destruct IH as [IH|IH].
  - now apply Hstep.
  - destruct (Hstep _ IH Hst) as [H|H]; right; exact H.
Qed.

Lemma down_service_state w i s n :
  services w !! i = Some s -> state s <> SVC_RUNNING ->
  exists s', services (Nat.iter n (loop_body E) w) !! i = Some s'
             /\ state s' = state s /\ restart_count s' = restart_count s.
Proof.
  intros Hs Hst.
  destruct (down_service_stays w i s n Hs Hst) as [H|H];
    eexists; (split; [exact H|]); split; reflexivity.
Qed.

(** The health check of a RUNNING service with the RESPAWN flag whose
    process is gone, while no shutdown is requested and the budget is
    not used up. *)
Lemma respawn_within_budget i w s :
  services w !! i = Some s ->
  state s = SVC_RUNNING ->
  0 < pid s ->
  o_alive E (trace w) (pid s) = false ->
  has_flag s SVC_FLAG_RESPAWN = true ->
  shutdown_requested w = 0 ->
  restart_count s < max_restarts s ->
  exists s' sigs new,
    services (check_service E i w) !! i = Some s'
    /\ same_config s s'
    /\ restart_count s' = restart_count s + 1
    /\ trace (check_service E i w)
       = trace w ++ EvProbe (pid s) false
                 :: EvSleep (to_unsigned (restart_delay s))
                 :: map EvSignal sigs ++ new
    /\ start_outcome s s' new.
Proof.
  intros Hs Hst Hp Ha Hf Hsd Hlt. unfold check_service.
  rewrite Hs, Hst, Z.eqb_refl, (is_running_dead E _ _ Hp Ha).
  set (w2 := upd i (set_state SVC_STOPPED) (emit (EvProbe (pid s) false) w)).
  change (shutdown_requested w2) with (shutdown_requested w).
  rewrite Hf, Hsd. cbn [andb Z.eqb].
  apply Z.ltb_lt in Hlt. rewrite Hlt.
  set (w3 := blocked E (EvSleep (to_unsigned (restart_delay s))) w2).
  assert (Hs3 : services w3 !! i = Some (set_state SVC_STOPPED s)).
  { unfold w3. rewrite services_blocked. unfold w2. simpl.
    now rewrite list_lookup_alter_eq, Hs. }
  assert (Hst3 : state (set_state SVC_STOPPED s) <> SVC_RUNNING)
    by discriminate.
  destruct (start_service_once i w3 _ Hs3 Hst3)
    as (s4 & new & Hs4 & [Hc4 Hr4] & Hn & Ho).
  set (w4 := fst (start_service E i w3)) in *.
  exists (set_restart_count (restart_count s4 + 1) s4),
         (o_signals E (trace w2 ++ [EvSleep (to_unsigned (restart_delay s))])),
         new.
  split; [simpl; now rewrite list_lookup_alter_eq, Hs4|].
  split.
  { destruct Hc4 as (? & ? & ? & ? & ? & ? & ?). repeat split; assumption. }
  split; [simpl; rewrite Hr4; reflexivity|].
  split; [|exact Ho].
  rewrite trace_upd, Hn. unfold w3 at 1. rewrite trace_blocked.
  unfold w2. simpl. rewrite <- !app_assoc. reflexivity.
Qed.

(** The same when the budget is used up. *)
Lemma respawn_out_of_budget i w s :
  services w !! i = Some s ->
  state s = SVC_RUNNING ->
  0 < pid s ->
  o_alive E (trace w) (pid s) = false ->
  has_flag s SVC_FLAG_RESPAWN = true ->
  shutdown_requested w = 0 ->
  max_restarts s <= restart_count s ->
  services (check_service E i w) !! i = Some (set_state SVC_FAILED s)
  /\ trace (check_service E i w) = trace w ++ [EvProbe (pid s) false].
Proof.
  intros Hs Hst Hp Ha Hf Hsd Hge. unfold check_service.
  rewrite Hs, Hst, Z.eqb_refl, (is_running_dead E _ _ Hp Ha).
  set (w2 := upd i (set_state SVC_STOPPED) (emit (EvProbe (pid s) false) w)).
  change (shutdown_requested w2) with (shutdown_requested w).
  rewrite Hf, Hsd. cbn [andb Z.eqb].
  apply Z.ltb_ge in Hge. rewrite Hge.
  assert (Hfin : services (upd i (set_state SVC_FAILED) w2) !! i
                 = Some (set_state SVC_FAILED s)).
  { unfold w2. simpl. now rewrite !list_lookup_alter_eq, Hs. }
  destruct (has_flag s SVC_FLAG_CRITICAL); split;
    first [exact Hfin | reflexivity].
Qed.

End Respawn.

(** C3 (as the code has it).  [restart_count] counts the respawn
    attempts, not the crashes.  When the health check finds a RUNNING
    service with the RESPAWN flag dead ([kill (pid, 0)] fails) and no
    shutdown is requested:

    - if [restart_count < max_restarts], it sleeps [restart_delay]
      seconds (the [int] taken as [unsigned int]), calls
      [start_service] once and adds exactly one to [restart_count],
      whatever the start gave: the service RUNNING under the pid of
      the one child that was forked; for a WAIT service, STOPPED or
      FAILED after its child ran; or FAILED with no child, when the
      command was not found or [fork] failed.  A service that this
      leaves STOPPED or FAILED stays so, with that count, through
      every later turn of the main loop, whatever is left of its
      budget;
    - if [restart_count >= max_restarts], it marks the service FAILED,
      makes no start attempt and leaves [restart_count] as it is, and
      the service stays FAILED with that count through every later
      turn of the main loop.

    So for a service with [max_restarts = 2] and [restart_count = 0]
    that three health checks in a row find dead (the two respawns in
    between having succeeded), the counter is 1 after the first, 2
    after the second, and the third marks it FAILED with
    [restart_count = 2] and no start attempt. *)
Theorem C3_respawn_budget E i w s :
  services w !! i = Some s ->
  state s = SVC_RUNNING ->
  0 < pid s ->
  o_alive E (trace w) (pid s) = false ->
  has_flag s SVC_FLAG_RESPAWN = true ->
  shutdown_requested w = 0 ->
  let w' := check_service E i w in
  (restart_count s < max_restarts s ->
   exists s' sigs new,
     services w' !! i = Some s'
     /\ same_config s s'
     /\ restart_count s' = restart_count s + 1
     /\ trace w'
        = trace w ++ EvProbe (pid s) false
                  :: EvSleep (to_unsigned (restart_delay s))
                  :: map EvSignal sigs ++ new
     /\ start_outcome s s' new
     /\ (state s' <> SVC_RUNNING ->
         forall n, exists s'',
           services (Nat.iter n (loop_body E) w') !! i = Some s''
           /\ state s'' = state s'
           /\ restart_count s'' = restart_count s'))
  /\ (max_restarts s <= restart_count s ->
      services w' !! i = Some (set_state SVC_FAILED s)
      /\ trace w' = trace w ++ [EvProbe (pid s) false]
      /\ forall n, exists s'',
           services (Nat.iter n (loop_body E) w') !! i = Some s''
           /\ state s'' = SVC_FAILED
           /\ restart_count s'' = restart_count s)
  /\ (restart_count s = 0 -> max_restarts s = 2 ->
      forall wb b wc c,
        services wb !! i = services w' !! i -> found_dead E i wb b ->
        services wc !! i = services (check_service E i wb) !! i ->
        found_dead E i wc c ->
        restart_count b = 1 /\ restart_count c = 2
        /\ services (check_service E i wc) !! i = Some (set_state SVC_FAILED c)
        /\ trace (check_service E i wc) = trace wc ++ [EvProbe (pid c) false]).
Proof.
  intros Hs Hst Hp Ha Hf Hsd w'. subst w'.
  split; [|split].
  - intros Hlt.
    destruct (respawn_within_budget E i w s Hs Hst Hp Ha Hf Hsd Hlt)
      as (s' & sigs & new & H1 & H2 & H3 & H4 & H5).
    exists s', sigs, new. do 5 (split; [assumption|]).
    intros Hdown n. now apply down_service_state.
  - intros Hge.
    destruct (respawn_out_of_budget E i w s Hs Hst Hp Ha Hf Hsd Hge)
      as [H1 H2].
    split; [exact H1|]. split; [exact H2|].
    intros n.
    destruct (down_service_state E _ i _ n H1) as (s'' & Hs'' & H3 & H4);
      [discriminate|].
    exists s''. split; [exact Hs''|]. split; [exact H3|exact H4].
  - intros Hrc Hmax wb b wc c Hwb (Hb & Hbst & Hbp & Hba & Hbsd)
           Hwc (Hc & Hcst & Hcp & Hca & Hcsd).
    destruct (respawn_within_budget E i w s Hs Hst Hp Ha Hf Hsd ltac:(lia))
      as (s' & _ & _ & H1 & C1 & R1 & _).
    rewrite H1, Hb in Hwb. injection Hwb as <-.
    assert (Hbf : has_flag b SVC_FLAG_RESPAWN = true).
    { unfold has_flag in *. destruct C1 as (_ & _ & _ & _ & -> & _). exact Hf. }
    assert (Hbm : max_restarts b = 2)
      by (destruct C1 as (_ & _ & _ & _ & _ & -> & _); exact Hmax).
    destruct (respawn_within_budget E i wb b Hb Hbst Hbp Hba Hbf Hbsd
                ltac:(lia))
      as (s'' & _ & _ & H2 & C2 & R2 & _).
    rewrite H2, Hc in Hwc. injection Hwc as <-.
    assert (Hcf : has_flag c SVC_FLAG_RESPAWN = true).
    { unfold has_flag in *. destruct C2 as (_ & _ & _ & _ & -> & _). exact Hbf. }
    assert (Hcm : max_restarts c = 2)
      by (destruct C2 as (_ & _ & _ & _ & _ & -> & _); exact Hbm).
    split; [lia|]. split; [lia|].
    apply (respawn_out_of_budget E i wc c Hc Hcst Hcp Hca Hcf Hcsd). lia.
Qed.

Lemma C3_respawn_budget_witness :
  let E := env_pid_reused in
  let reaped w := reap_children E (blocked E (EvUsleep 100000) w) in
  let wa := reaped world_pid_reused in
  let wb := reaped (check_service E 3 wa) in
  let wc := reaped (check_service E 3 wb) in
  found_dead E 3 wa (running_as 100 svc_C)
  /\ (exists b c,
        found_dead E 3 wb b /\ found_dead E 3 wc c
        /\ restart_count b = 1 /\ restart_count c = 2
        /\ services (check_service E 3 wc) !! 3%nat
           = Some (set_state SVC_FAILED c)).
Proof.
  intros E reaped wa wb wc.
  assert (Ha : found_dead E 3 wa (running_as 100 svc_C)).
  { split; [vm_compute; reflexivity|]. split; [reflexivity|].
    split; [reflexivity|]. split; vm_compute; reflexivity. }
  split; [exact Ha|].
  destruct Ha as (A1 & A2 & A3 & A4 & A5).
  destruct (C3_respawn_budget E 3 wa (running_as 100 svc_C)
              A1 A2 A3 A4 eq_refl A5) as (_ & _ & S).
  assert (Hb : exists b, found_dead E 3 wb b).
  { eexists. split; [vm_compute; reflexivity|]. split; [reflexivity|].
    split; [reflexivity|]. split; vm_compute; reflexivity. }
  destruct Hb as [b Hb].
  assert (Hc : exists c, found_dead E 3 wc c).
  { eexists. split; [vm_compute; reflexivity|]. split; [reflexivity|].
    split; [reflexivity|]. split; vm_compute; reflexivity. }
  destruct Hc as [c Hc].
  assert (Hwb : services wb !! 3%nat
                = services (check_service E 3 wa) !! 3%nat)
    by (vm_compute; reflexivity).
  assert (Hwc : services wc !! 3%nat
                = services (check_service E 3 wb) !! 3%nat)
    by (vm_compute; reflexivity).
  destruct (S eq_refl eq_refl wb b wc c Hwb Hb Hwc Hc) as (R1 & R2 & R3 & _).
  exists b, c. split; [exact Hb|]. split; [exact Hc|].
  split; [exact R1|]. split; [exact R2|exact R3].
Defined.

(** C3 as stated fails at the crash that finds the budget used up.
    Service C (RESPAWN, [max_restarts = 2], [restart_delay = 0],
    [restart_count = 0]) runs as pid 100.  Three times its process
    exits and is collected by the reaping pass, which clears the pid of
    an earlier table entry that still records it and so leaves C
    RUNNING; three times the health check then finds C dead.  C is
    respawned twice and ends FAILED with [restart_count = 2]: three
    observed crashes, two increments. *)
Lemma C3_crash_without_increment :
  let w3 := Nat.iter 3 (loop_body env_pid_reused) world_pid_reused in
  calls (trace w3)
  = [EvUsleep 100000; EvWaitNohang (-1) 100; EvProbe 100 false; EvSleep 0;
     EvAccess "/usr/bin/c -d" true;
     EvFork ["/bin/sh"; "-c"; "/usr/bin/c -d"] (Some 101%positive); EvTime 7;
     EvUsleep 100000; EvWaitNohang (-1) 101; EvProbe 101 false; EvSleep 0;
     EvAccess "/usr/bin/c -d" true;
     EvFork ["/bin/sh"; "-c"; "/usr/bin/c -d"] (Some 102%positive); EvTime 15;
     EvUsleep 100000; EvWaitNohang (-1) 102; EvProbe 102 false]
  /\ map state (services w3)
     = [SVC_STOPPED; SVC_STOPPED; SVC_STOPPED; SVC_FAILED]
  /\ map restart_count (services w3) = [0; 0; 0; 2]
  /\ length (List.filter is_probe (trace w3)) = 3%nat
  /\ map restart_count (services w3) <> [0; 0; 0; 3]
  /\ loop_body env_pid_reused w3 = emit (EvUsleep 100000) w3.
Proof.
  cbv zeta. do 4 (split; [vm_compute; reflexivity|]).
  split; [vm_compute; discriminate|]. vm_compute. reflexivity.
Qed.

(** * Further properties *)

(** ** Text *)

Lemma string_app_cons x (a b : string) :
  String x a +:+ b = String x (a +:+ b).
Proof. reflexivity. Qed.

Lemma string_app_nil_l (a : string) : "" +:+ a = a.
Proof. reflexivity. Qed.

Lemma string_app_assoc (a b c : string) : (a +:+ b) +:+ c = a +:+ b +:+ c.
Proof.
  induction a as [|x a IH]; [reflexivity|].
  rewrite !string_app_cons. now rewrite IH.
Qed.

Lemma string_app_nil_r (a : string) : a +:+ "" = a.
Proof.
  induction a as [|x a IH]; [reflexivity|].
  rewrite string_app_cons. now rewrite IH.
Qed.

Lemma string_length_app (a b : string) :
  String.length (a +:+ b) = (String.length a + String.length b)%nat.
Proof.
  induction a as [|x a IH]; [reflexivity|].
  rewrite string_app_cons. simpl. now rewrite IH.
Qed.

Lemma string_forall_app p (a b : string) :
  string_forall p (a +:+ b) = string_forall p a && string_forall p b.
Proof.
  induction a as [|x a IH]; [reflexivity|].
  rewrite string_app_cons. simpl. rewrite IH. now rewrite andb_assoc.
Qed.

Lemma leading_then_rest s : s = leading_blanks s +:+ skip_blanks s.
Proof.
  induction s as [|c r IH]; [reflexivity|].
  simpl. destruct (is_blank c); [|reflexivity].
  rewrite string_app_cons. now rewrite <- IH.
Qed.

Lemma leading_blanks_blank s : string_forall is_blank (leading_blanks s) = true.
Proof.
  induction s as [|c r IH]; [reflexivity|].
  simpl. destruct (is_blank c) eqn:Hc; [|reflexivity].
  simpl. now rewrite Hc.
Qed.

Lemma skip_blanks_head s c r :
  skip_blanks s = String c r -> is_blank c = false.
Proof.
  induction s as [|c0 r0 IH]; [discriminate|].
  simpl. destruct (is_blank c0) eqn:Hc; [exact IH|].
  intros [= <- _]. exact Hc.
Qed.

Lemma skip_blanks_empty s :
  skip_blanks s = "" <-> string_forall is_blank s = true.
Proof.
  induction s as [|c r IH]; [split; reflexivity|].
  simpl. destruct (is_blank c); simpl; [exact IH|].
  split; discriminate.
Qed.

Lemma strip_end_split r :
  exists t, r = strip_end r +:+ t
            /\ string_forall is_line_end_space t = true.
Proof.
  induction r as [|c r IH]; [now exists ""|].
  destruct IH as (t & Hr & Ht). simpl.
  destruct (strip_end r) as [|d r'] eqn:Hs.
  - rewrite string_app_nil_l in Hr. subst t.
    destruct (is_line_end_space c) eqn:Hc.
    + exists (String c r). split; [reflexivity|]. simpl. now rewrite Hc.
    + exists r. split; [reflexivity|exact Ht].
  - exists t. split; [|exact Ht]. rewrite string_app_cons. now rewrite <- Hr.
Qed.

Lemma strip_end_last r :
  strip_end r = ""
  \/ exists p d, strip_end r = p +:+ String d ""
                 /\ is_line_end_space d = false.
Proof.
  induction r as [|c r IH]; [now left|].
  simpl. destruct (strip_end r) as [|d r'] eqn:Hs.
  - destruct (is_line_end_space c) eqn:Hc; [now left|].
    right. exists "", c. now split.
  - right. destruct IH as [IH|(p & e & Hp & He)]; [discriminate|].
    exists (String c p), e. split; [|exact He].
    rewrite string_app_cons. now rewrite Hp.
Qed.

Lemma strip_end_idem r : strip_end (strip_end r) = strip_end r.
Proof.
  induction r as [|c r IH]; [reflexivity|].
  simpl. destruct (strip_end r) as [|d r'] eqn:Hs.
  - destruct (is_line_end_space c) eqn:Hc; [reflexivity|].
    simpl. now rewrite Hc.
  - change (strip_end (String c (String d r')))
      with (match strip_end (String d r') with
            | EmptyString =>
                if is_line_end_space c then EmptyString else String c EmptyString
            | r'' => String c r''
            end).
    now rewrite IH.
Qed.

(** X1.  [trim] cuts white space off the two ends and nothing else: the
    string is its leading blanks, the result, and a tail of blanks,
    newlines and carriage returns.  The result does not begin with a
    blank and, when it has more than one character, does not end with
    white space; trimming it again changes nothing. *)
Theorem X1_trim_shape s :
  (exists t, s = leading_blanks s +:+ trim s +:+ t
             /\ string_forall is_line_end_space t = true)
  /\ string_forall is_blank (leading_blanks s) = true
  /\ (forall c r, trim s = String c r ->
        is_blank c = false
        /\ (r = "" \/ exists p d, r = p +:+ String d ""
                                  /\ is_line_end_space d = false))
  /\ trim (trim s) = trim s.
Proof.
  unfold trim.
  pose proof (leading_then_rest s) as Hsplit.
  destruct (skip_blanks s) as [|c r] eqn:Hsk.
  - split; [exists ""; now rewrite !string_app_nil_r in *|].
    split; [apply leading_blanks_blank|]. split; [discriminate|reflexivity].
  - pose proof (skip_blanks_head s c r Hsk) as Hc.
    split.
    { destruct (strip_end_split r) as (t & Hr & Ht). exists t.
      split; [|exact Ht]. rewrite string_app_cons. now rewrite <- Hr. }
    split; [apply leading_blanks_blank|].
    split.
    { intros c' r' [= <- <-]. split; [exact Hc|]. apply strip_end_last. }
    simpl. rewrite Hc. now rewrite strip_end_idem.
Qed.

(** X2.  [trim] returns the empty string only for a string of spaces
    and tabs: the loop that cuts the end stops before the first
    character, so a line that is just a newline (or a carriage return)
    comes back as it is and fails the test [*l == 0] for empty lines. *)
Theorem X2_trim_empty s :
  (trim s = "" <-> string_forall is_blank s = true)
  /\ (forall c, is_blank c = false -> trim (String c "") = String c "").
Proof.
  split.
  - unfold trim. rewrite <- skip_blanks_empty.
    destruct (skip_blanks s); [tauto|]. split; discriminate.
  - intros c Hc. unfold trim. simpl. now rewrite Hc.
Qed.

Lemma scanset_spec n ok s :
  s = fst (scanset n ok s) +:+ snd (scanset n ok s)
  /\ (String.length (fst (scanset n ok s)) <= n)%nat
  /\ string_forall ok (fst (scanset n ok s)) = true.
Proof.
  revert s; induction n as [|n IH]; intros s; [now repeat split|].
  destruct s as [|c r]; [repeat split; simpl; lia|].
  simpl. destruct (ok c) eqn:Hc; [|repeat split; simpl; lia].
  destruct (IH r) as (H1 & H2 & H3).
  destruct (scanset n ok r) as [a b]. cbn [fst snd] in *.
  split; [rewrite string_app_cons; now rewrite <- H1|].
  split; [simpl; lia|]. simpl. now rewrite Hc.
Qed.

Lemma scanset_exact n ok (a b : string) :
  string_forall ok a = true ->
  (String.length a <= n)%nat ->
  match b with String c _ => ok c = false | EmptyString => True end ->
  scanset n ok (a +:+ b) = (a, b).
Proof.
  revert n; induction a as [|x a IH]; intros n Ha Hn Hb.
  - rewrite string_app_nil_l. destruct n as [|n]; [reflexivity|].
    destruct b as [|c r]; [reflexivity|]. simpl. now rewrite Hb.
  - destruct n as [|n]; [simpl in Hn; lia|].
    simpl in Ha. apply andb_true_iff in Ha as [Hx Ha].
    rewrite string_app_cons. simpl. rewrite Hx.
    rewrite (IH n Ha ltac:(simpl in Hn; lia) Hb). reflexivity.
Qed.

(** X3.  When the [sscanf] of a service-file line succeeds, the line
    is the key, an equals sign, the value and a rest; the key is not
    empty, has at most 63 characters and no equals sign; the value is
    not empty, has at most 255 characters and no newline.  So a line
    whose first 64 characters hold no equals sign is skipped. *)
Theorem X3_scan_key_value_sound l k v :
  scan_key_value l = Some (k, v) ->
  (exists rest, l = k +:+ "=" +:+ v +:+ rest)
  /\ k <> "" /\ (String.length k <= 63)%nat
  /\ string_forall (fun c => negb (Ascii.eqb c "=")) k = true
  /\ v <> "" /\ (String.length v <= 255)%nat
  /\ string_forall (fun c => negb (Ascii.eqb c "010")) v = true.
Proof.
  unfold scan_key_value.
  destruct (scanset_spec 63 (fun c => negb (Ascii.eqb c "=")) l)
    as (H1 & H2 & H3).
  destruct (scanset 63 _ l) as [k0 r1]. cbn [fst snd] in *.
  destruct k0 as [|kc kr]; [discriminate|].
  destruct r1 as [|c r2]; [discriminate|].
  destruct (Ascii.eqb c "=") eqn:Hc; [|discriminate].
  apply Ascii.eqb_eq in Hc. subst c.
  destruct (scanset_spec 255 (fun c => negb (Ascii.eqb c "010")) r2)
    as (G1 & G2 & G3).
  destruct (fst (scanset 255 _ r2)) as [|vc vr] eqn:Hv; [discriminate|].
  intros [= <- <-].
  split.
  { exists (snd (scanset 255 (fun c => negb (Ascii.eqb c "010")) r2)).
    rewrite H1 at 1. f_equal. rewrite string_app_cons, string_app_nil_l.
    now rewrite <- G1. }
  repeat split; try discriminate; assumption.
Qed.

Lemma X3_scan_key_value_sound_witness :
  scan_key_value "cmd=/bin/a -x" = Some ("cmd", "/bin/a -x")
  /\ exists rest, "cmd=/bin/a -x" = "cmd" +:+ "=" +:+ "/bin/a -x" +:+ rest.
Proof.
  split; [reflexivity|].
  exact (proj1 (X3_scan_key_value_sound "cmd=/bin/a -x" "cmd" "/bin/a -x" eq_refl)).
Defined.

(** X4.  The other way round: a key of 1 to 63 characters without an
    equals sign and a value of 1 to 255 characters without a newline,
    written as [key=value], are read back as they are. *)
Theorem X4_scan_key_value_round_trip k v :
  k <> "" -> (String.length k <= 63)%nat ->
  string_forall (fun c => negb (Ascii.eqb c "=")) k = true ->
  v <> "" -> (String.length v <= 255)%nat ->
  string_forall (fun c => negb (Ascii.eqb c "010")) v = true ->
  scan_key_value (k +:+ "=" +:+ v) = Some (k, v).
Proof.
  intros Hk Hkl Hkc Hv Hvl Hvc. unfold scan_key_value.
  rewrite (scanset_exact 63 _ k ("=" +:+ v) Hkc Hkl) by reflexivity.
  destruct k as [|kc kr]; [contradiction|].
  rewrite string_app_cons, string_app_nil_l. cbn [Ascii.eqb Bool.eqb].
  change (Ascii.eqb "=" "=") with true. cbv iota.
  rewrite <- (string_app_nil_r v) at 1.
  rewrite (scanset_exact 255 _ v "" Hvc Hvl I). cbn [fst].
  destruct v; [contradiction|reflexivity].
Qed.

Lemma X4_scan_key_value_round_trip_witness :
  scan_key_value ("runlevel " +:+ "=" +:+ " 3") = Some ("runlevel ", " 3").
Proof.
  apply X4_scan_key_value_round_trip;
    first [discriminate | simpl; lia | reflexivity].
Defined.

Lemma fgets_spec n s :
  s = fst (fgets n s) +:+ snd (fgets n s)
  /\ (String.length (fst (fgets n s)) <= n)%nat
  /\ line_shaped (fst (fgets n s))
  /\ (s <> "" -> (0 < n)%nat -> fst (fgets n s) <> "").
Proof.
  revert s; induction n as [|n IH]; intros s.
  - simpl. repeat split; try lia. exists "". split; [reflexivity|now left].
  - destruct s as [|c r].
    + simpl. repeat split; try lia; try contradiction.
      exists "". split; [reflexivity|now left].
    + simpl. destruct (Ascii.eqb c "010") eqn:Hc.
      * apply Ascii.eqb_eq in Hc. subst c. cbn [fst snd].
        repeat split; try (simpl; lia); try discriminate.
        exists "". split; [reflexivity|now right].
      * destruct (IH r) as (H1 & H2 & (a & Ha & Hl) & _).
        destruct (fgets n r) as [x y]. cbn [fst snd] in *.
        split; [rewrite string_app_cons; now rewrite <- H1|].
        split; [simpl; lia|]. split; [|discriminate].
        exists (String c a). split; [simpl; now rewrite Hc|].
        destruct Hl as [->| ->]; [now left|now right].
Qed.

Lemma fgets_lines_spec fuel s :
  (String.length s <= fuel)%nat ->
  foldr String.append "" (fgets_lines fuel s) = s
  /\ Forall (fun l => l <> "" /\ (String.length l <= 255)%nat /\ line_shaped l)
            (fgets_lines fuel s).
Proof.
  revert s; induction fuel as [|fuel IH]; intros s Hlen.
  - destruct s; [now split|simpl in Hlen; lia].
  - destruct s as [|c r]; [now split|].
    cbn [fgets_lines].
    destruct (fgets_spec (MAX_LINE - 1) (String c r)) as (H1 & H2 & H3 & H4).
    destruct (fgets (MAX_LINE - 1) (String c r)) as [l rest] eqn:Hf.
    cbn [fst snd] in *.
    assert (Hl : l <> "") by (apply H4; [discriminate|simpl; lia]).
    assert (Hrest : (String.length rest <= fuel)%nat).
    { assert (Hsum : String.length (String c r)
                     = (String.length l + String.length rest)%nat)
        by (rewrite H1 at 1; apply string_length_app).
      destruct l; [contradiction|]. simpl in *. lia. }
    destruct (IH rest Hrest) as [G1 G2].
    split; [simpl; rewrite G1; now rewrite <- H1|].
    constructor; [|exact G2]. now repeat split.
Qed.

(** X5.  The [fgets] loop loses nothing and invents nothing: the lines
    it sees, put end to end, are the text of the file.  No line is
    empty, none is longer than 255 characters (a longer line of the
    file arrives in pieces), and a newline can only be the last
    character of a line. *)
Theorem X5_fgets_lines_partition s :
  foldr String.append "" (fgets_lines (String.length s) s) = s
  /\ Forall (fun l => l <> "" /\ (String.length l <= 255)%nat /\ line_shaped l)
            (fgets_lines (String.length s) s).
Proof. apply fgets_lines_spec. lia. Qed.

(** ** Numbers *)

Lemma digit_is_plain c :
  is_digit c = true ->
  is_space c = false /\ Ascii.eqb c "-" = false /\ Ascii.eqb c "+" = false
  /\ 0 <= Z.of_nat (nat_of_ascii c) - 48 <= 9.
Proof.
  destruct c as [[] [] [] [] [] [] [] []]; vm_compute; intros H;
    first [discriminate H | repeat split; discriminate].
Qed.

Lemma digits_value_linear a acc :
  string_forall is_digit a = true ->
  digits_value acc a
  = acc * 10 ^ Z.of_nat (String.length a) + digits_value 0 a
    /\ 0 <= digits_value 0 a.
Proof.
  revert acc; induction a as [|c a IH]; intros acc Ha.
  - simpl. lia.
  - simpl in Ha. apply andb_true_iff in Ha as [Hc Ha].
    destruct (digit_is_plain c Hc) as (_ & _ & _ & Hd).
    cbn [digits_value String.length]. rewrite Hc.
    destruct (IH (10 * acc + (Z.of_nat (nat_of_ascii c) - 48)) Ha) as [E1 _].
    destruct (IH (10 * 0 + (Z.of_nat (nat_of_ascii c) - 48)) Ha) as [E2 P2].
    destruct (IH 0 Ha) as [_ P0].
    rewrite E1, E2. rewrite Nat2Z.inj_succ, Z.pow_succ_r by lia.
    split; [ring|].
    assert (0 <= 10 ^ Z.of_nat (String.length a)) by (apply Z.pow_nonneg; lia).
    nia.
Qed.

Lemma digits_value_app a b acc :
  string_forall is_digit a = true ->
  digits_value acc (a +:+ b) = digits_value (digits_value acc a) b.
Proof.
  revert acc; induction a as [|c a IH]; intros acc Ha; [reflexivity|].
  simpl in Ha. apply andb_true_iff in Ha as [Hc Ha].
  rewrite string_app_cons. cbn [digits_value]. rewrite Hc. now apply IH.
Qed.

Lemma digits_value_stop t acc :
  match t with String c _ => is_digit c = false | EmptyString => True end ->
  digits_value acc t = acc.
Proof. destruct t as [|c r]; [reflexivity|]. intros H. simpl. now rewrite H. Qed.

Lemma digits_value_bound a :
  string_forall is_digit a = true ->
  0 <= digits_value 0 a < 10 ^ Z.of_nat (String.length a).
Proof.
  induction a as [|c a IH]; intros Ha; [simpl; lia|].
  pose proof Ha as Ha0.
  simpl in Ha. apply andb_true_iff in Ha as [Hc Ha].
  destruct (digit_is_plain c Hc) as (_ & _ & _ & Hd).
  destruct (digits_value_linear (String c a) 0 Ha0) as [_ Hpos].
  split; [exact Hpos|].
  cbn [digits_value String.length]. rewrite Hc.
  destruct (digits_value_linear a (10 * 0 + (Z.of_nat (nat_of_ascii c) - 48)) Ha)
    as [-> _].
  rewrite Nat2Z.inj_succ, Z.pow_succ_r by lia.
  specialize (IH Ha). nia.
Qed.

Lemma to_int_range z : - 2 ^ 31 <= to_int z <= 2 ^ 31 - 1.
Proof.
  unfold to_int.
  pose proof (Z.mod_pos_bound (z + 2 ^ 31) (2 ^ 32) ltac:(lia)). lia.
Qed.

Lemma to_int_fits z : - 2 ^ 31 <= z <= 2 ^ 31 - 1 -> to_int z = z.
Proof.
  intros H. unfold to_int. rewrite Z.mod_small; lia.
Qed.

(** A number of at most nine digits fits an [int]. *)
Lemma nine_digits_fit a :
  string_forall is_digit a = true -> (String.length a <= 9)%nat ->
  0 <= digits_value 0 a <= 999999999.
Proof.
  intros Ha Hl. destruct (digits_value_bound a Ha) as [H0 H1].
  assert (10 ^ Z.of_nat (String.length a) <= 10 ^ 9)
    by (apply Z.pow_le_mono_r; lia).
  lia.
Qed.

Lemma cut_small v :
  0 <= v <= 999999999 ->
  to_int (Z.min LONG_MAX v) = v /\ to_int (Z.max LONG_MIN (- v)) = - v.
Proof.
  intros H. unfold LONG_MAX, LONG_MIN.
  assert (H63 : 2 ^ 63 = 9223372036854775808) by reflexivity.
  rewrite Z.min_r, Z.max_r by lia.
  split; apply to_int_fits; lia.
Qed.

Lemma atoi_digits a :
  string_forall is_digit a = true -> (String.length a <= 9)%nat ->
  atoi a = digits_value 0 a.
Proof.
  intros Ha Hl. destruct (cut_small _ (nine_digits_fit a Ha Hl)) as [Hcut _].
  destruct a as [|c a]; [reflexivity|].
  pose proof Ha as Ha0.
  simpl in Ha. apply andb_true_iff in Ha as [Hc _].
  destruct (digit_is_plain c Hc) as (Hs & Hm & Hp & _).
  unfold atoi, strtol. cbn [skip_spaces]. rewrite Hs, Hm, Hp. exact Hcut.
Qed.

(** X6.  [atoi] gives an [int], and reads a decimal number of up to
    nine digits (which always fits) as its value: for digit strings
    [a] (not empty) and [b] of nine digits together, the value of
    [a b] is the value of [a] times ten to the length of [b], plus
    the value of [b].  It stops at the first character that is no
    digit, takes a minus sign, skips a leading blank, and gives no
    negative value for such digits alone. *)
Theorem X6_atoi_decimal a b t :
  string_forall is_digit a = true -> a <> "" ->
  string_forall is_digit b = true ->
  (String.length a + String.length b <= 9)%nat ->
  match t with String c _ => is_digit c = false | EmptyString => True end ->
  0 <= atoi a
  /\ atoi (a +:+ b +:+ t)
     = atoi a * 10 ^ Z.of_nat (String.length b) + atoi b
  /\ atoi ("-" +:+ a +:+ t) = - atoi a
  /\ atoi (" " +:+ a +:+ t) = atoi a
  /\ forall s, - 2 ^ 31 <= atoi s <= 2 ^ 31 - 1.
Proof.
  intros Ha Hne Hb Hlen Ht.
  rewrite (atoi_digits a Ha), (atoi_digits b Hb) by lia.
  destruct (nine_digits_fit a Ha ltac:(lia)) as [Hpos Hup].
  destruct (cut_small _ (conj Hpos Hup)) as [Hcut Hcutm].
  assert (Hab : string_forall is_digit (a +:+ b) = true)
    by (rewrite string_forall_app, Ha, Hb; reflexivity).
  assert (Hlab : (String.length (a +:+ b) <= 9)%nat)
    by (rewrite string_length_app; lia).
  destruct (cut_small _ (nine_digits_fit _ Hab Hlab)) as [Hcutab _].
  destruct a as [|c a']; [contradiction|].
  pose proof Ha as Ha0.
  simpl in Ha. apply andb_true_iff in Ha as [Hc Ha'].
  destruct (digit_is_plain c Hc) as (Hs & Hm & Hp & _).
  assert (Hat : digits_value 0 (String c a' +:+ t) = digits_value 0 (String c a')).
  { rewrite (digits_value_app _ t 0 Ha0). now apply digits_value_stop. }
  assert (Habt : digits_value 0 (String c a' +:+ b +:+ t)
                 = digits_value 0 (String c a' +:+ b)).
  { rewrite <- string_app_assoc, (digits_value_app _ t 0 Hab).
    now apply digits_value_stop. }
  split; [exact Hpos|]. split; [|split; [|split]].
  - unfold atoi, strtol. rewrite string_app_cons. cbn [skip_spaces].
    rewrite Hs, Hm, Hp. rewrite <- string_app_cons.
    rewrite Habt, Hcutab.
    rewrite (digits_value_app _ b 0 Ha0).
    apply (digits_value_linear b _ Hb).
  - unfold atoi, strtol. rewrite !string_app_cons, string_app_nil_l.
    cbn [skip_spaces]. change (is_space "-") with false. cbv iota.
    change (Ascii.eqb "-" "-") with true. cbv iota.
    rewrite <- string_app_cons. now rewrite Hat.
  - unfold atoi, strtol. rewrite !string_app_cons, string_app_nil_l.
    cbn [skip_spaces]. change (is_space " ") with true. cbv iota.
    rewrite Hs, Hm, Hp. rewrite <- string_app_cons. now rewrite Hat.
  - intros s. apply to_int_range.
Qed.

Lemma X6_atoi_decimal_witness :
  atoi ("12" +:+ "5" +:+ "x") = atoi "12" * 10 ^ 1 + atoi "5"
  /\ atoi "12" = 12.
Proof.
  split; [|reflexivity].
  apply (X6_atoi_decimal "12" "5" "x");
    first [reflexivity | discriminate | (simpl; lia)].
Defined.

(** Numbers that fit no [int]: [strtol] stops at the ends of [long],
    and the conversion to [int] keeps the low 32 bits. *)
Lemma atoi_beyond_int :
  atoi "2147483647" = 2147483647
  /\ atoi "2147483648" = -2147483648
  /\ atoi "4294967298" = 2
  /\ atoi "-2147483649" = 2147483647
  /\ atoi "99999999999999999999" = -1
  /\ atoi "-99999999999999999999" = 0.
Proof. repeat split; vm_compute; reflexivity. Qed.

(** ** Service files *)


Lemma substring_length_le n (s : string) :
  (String.length (String.substring 0 n s) <= n)%nat.
Proof.
  revert s; induction n as [|n IH]; intros s.
  - destruct s; simpl; lia.
  - destruct s as [|c r]; [simpl; lia|]. simpl. specialize (IH r). lia.
Qed.



Section ServiceFiles.

Context (E : env).

Lemma parse_service_lines_keep lines svc :
  let svc' := foldl parse_service_line svc lines in
  name svc' = name svc /\ state svc' = state svc /\ pid svc' = pid svc
  /\ restart_count svc' = restart_count svc
  /\ max_restarts svc' = max_restarts svc
  /\ restart_delay svc' = restart_delay svc
  /\ (String.length (cmd svc) <= 255 -> String.length (cmd svc') <= 255)%nat.
Proof.
  revert svc; induction lines as [|l lines IH]; intros svc; [now repeat split|].
  cbn [foldl]. destruct (IH (parse_service_line svc l))
    as (H1 & H2 & H3 & H4 & H5 & H6 & H7).
  unfold parse_service_line in *.
  destruct (trim l) as [|c l']; [now repeat split|].
  destruct (Ascii.eqb c "#"); [now repeat split|].
  destruct (scan_key_value (String c l')) as [[k v]|]; [|now repeat split].
  repeat match goal with
         | H : context [if ?b then _ else _] |- _ => destruct b
         end;
    cbn [name state pid restart_count max_restarts restart_delay cmd
         set_cmd set_pidfile set_runlevel set_flags] in *;
    repeat split; try assumption;
    intros Hc; apply H7; first [apply substring_length_le | exact Hc].
Qed.

End ServiceFiles.

(** X8.  A service that [parse_service_file] adds is STOPPED with no
    pid and a restart counter of 0; its [max_restarts] is 5 and its
    [restart_delay] is [config.respawn_delay], whatever the file says,
    since no key sets them.  Its command is never empty (a file without
    a command gets the path followed by [start]) and fits the buffer of
    256 bytes, as the name fits its 64.  The services that were there
    and the trace are as before. *)
Theorem X8_parsed_service E d path w :
  (length (services w) < MAX_SERVICES)%nat ->
  o_fopen E path <> None ->
  exists s,
    parse_service_file E d path w = (with_services (fun l => l ++ [s]) w, 0)
    /\ state s = SVC_STOPPED /\ pid s = 0 /\ restart_count s = 0
    /\ max_restarts s = 5 /\ restart_delay s = d
    /\ cmd s <> ""
    /\ (String.length (cmd s) <= 255)%nat
    /\ (String.length (name s) <= 63)%nat.
Proof.
  intros Hroom Hopen. unfold parse_service_file, service_count.
  destruct (MAX_SERVICES <=? length (services w))%nat eqn:Hfull;
    [apply Nat.leb_le in Hfull; lia|].
  destruct (o_fopen E path) as [text|]; [|contradiction].
  set (svc0 := set_restart_delay d _).
  destruct (parse_service_lines_keep
              (fgets_lines (String.length text) text) svc0)
    as (H1 & H2 & H3 & H4 & H5 & H6 & H7).
  set (svc1 := foldl parse_service_line svc0 _) in *.
  eexists. split; [reflexivity|].
  destruct (cmd svc1) as [|c r] eqn:Hcmd.
  - cbn [state pid restart_count max_restarts restart_delay cmd name set_cmd].
    rewrite H1, H2, H3, H4, H5, H6.
    repeat split; try reflexivity.
    + destruct path; discriminate.
    + apply substring_length_le.
    + apply substring_length_le.
  - rewrite H1, H2, H3, H4, H5, H6, Hcmd.
    repeat split; try reflexivity; try discriminate.
    + apply H7. simpl. lia.
    + apply substring_length_le.
Qed.

Lemma X8_parsed_service_witness :
  exists s,
    parse_service_file env_two_files 7 "/etc/init.d/web" (boot_world [] 1)
    = (with_services (fun l => l ++ [s]) (boot_world [] 1), 0)
    /\ max_restarts s = 5 /\ restart_delay s = 7.
Proof.
  destruct (X8_parsed_service env_two_files 7 "/etc/init.d/web" (boot_world [] 1))
    as (s & H & _ & _ & _ & Hm & Hd & _).
  - simpl. unfold MAX_SERVICES. lia.
  - discriminate.
  - exists s. now repeat split.
Defined.

(** ** The registry, continued *)

Section RegistryBounds.

Context (E : env).

Lemma load_entries_overflow entries w :
  accepted E entries <> [] ->
  (MAX_SERVICES < length (services w) + length (accepted E entries))%nat ->
  load_entries E entries w = None.
Proof.
  revert w; induction entries as [|d rest IH]; intros w Hne Hover;
    [contradiction|].
  cbn [load_entries]. unfold accepted in *. cbn [List.filter] in *.
  destruct (is_startup_script d && is_executable E (script_path d)).
  - unfold service_count.
    destruct (MAX_SERVICES <=? length (services w))%nat eqn:Hfull;
      [reflexivity|].
    apply Nat.leb_gt in Hfull. cbn [length] in Hover.
    apply IH.
    + intros Hnil. rewrite Hnil in Hover. simpl in Hover. lia.
    + simpl. rewrite length_app. simpl. lia.
  - now apply IH.
Qed.

Lemma find_service_none nm (l : list service) :
  find_service nm l = None <-> Forall (fun s => name s <> nm) l.
Proof.
  induction l as [|s l IH]; [split; [constructor|reflexivity]|].
  simpl. destruct (String.eqb (name s) nm) eqn:Hn.
  - apply String.eqb_eq in Hn. split; [discriminate|].
    intros H. inversion H; contradiction.
  - apply String.eqb_neq in Hn.
    destruct (find_service nm l) as [[i s']|].
    + split; [discriminate|]. intros H. inversion H as [|? ? _ Hl].
      apply IH in Hl. discriminate.
    + split; [|reflexivity]. intros _. constructor; [exact Hn|]. now apply IH.
Qed.

End RegistryBounds.

(** X9.  [load_services] never compares [service_count] with
    [MAX_SERVICES]: it writes past the table of 32 services exactly
    when it accepts at least one entry and the services already there
    together with the accepted entries are more than 32. *)
Theorem X9_load_services_overflow E w :
  load_services E w = None
  <-> (accepted E (dir_entries E) <> []
       /\ (MAX_SERVICES
           < length (services w) + length (accepted E (dir_entries E)))%nat).
Proof.
  unfold load_services, dir_entries.
  destruct (o_opendir E) as [entries|].
  - split.
    + intros Hnone.
      destruct (Nat.le_gt_cases
                  (length (services w) + length (accepted E entries))
                  MAX_SERVICES) as [Hle|Hgt].
      * destruct (load_entries_room E entries w Hle) as [w' Hw'].
        congruence.
      * split; [|exact Hgt]. intros Hnil.
        assert (Hsome : forall es w0, accepted E es = [] ->
                                      load_entries E es w0 = Some w0).
        { induction es as [|d es IHes]; intros w0 Ha; [reflexivity|].
          cbn [load_entries]. unfold accepted in *. cbn [List.filter] in Ha.
          destruct (is_startup_script d && is_executable E (script_path d));
            [discriminate|]. now apply IHes. }
        rewrite (Hsome entries w Hnil) in Hnone. discriminate.
    + intros [Hne Hover]. now apply load_entries_overflow.
  - split; [discriminate|]. intros [Hne _]. now contradiction Hne.
Qed.

(** X10.  [find_service] finds nothing exactly when no service of the
    registry has the name; and after [load_services] every accepted
    directory entry is found under the first 63 bytes of its name. *)
Theorem X10_find_service_complete E w w' :
  load_services E w = Some w' ->
  (forall nm, find_service nm (services w') = None
              <-> Forall (fun s => name s <> nm) (services w'))
  /\ (forall d, In d (accepted E (dir_entries E)) ->
        exists i s,
          find_service (String.substring 0 63 d) (services w') = Some (i, s)
          /\ name s = String.substring 0 63 d).
Proof.
  intros Hload. split; [intros nm; apply find_service_none|].
  intros d Hd.
  assert (Hsv : services w'
                = services w ++ map script_service (accepted E (dir_entries E))).
  { unfold load_services, dir_entries in *.
    destruct (o_opendir E) as [entries|].
    - now apply load_entries_some in Hload.
    - injection Hload as <-. simpl. now rewrite app_nil_r. }
  destruct (find_service (String.substring 0 63 d) (services w'))
    as [[i s]|] eqn:Hfind.
  - exists i, s. split; [reflexivity|].
    now apply find_service_first in Hfind.
  - exfalso. apply find_service_none in Hfind.
    rewrite Hsv in Hfind. apply Forall_app in Hfind as [_ Hfind].
    rewrite Forall_forall in Hfind.
    apply (Hfind (script_service d)); [|reflexivity].
    apply list_elem_of_In, in_map, Hd.
Qed.

Lemma X10_find_service_complete_witness :
  exists w',
    load_services env_configured initial_world = Some w'
    /\ exists i s, find_service "S20sshd" (services w') = Some (i, s).
Proof.
  assert (H : load_services env_configured initial_world
              = Some (with_services
                        (fun _ => [script_service "S10net";
                                   script_service "S20sshd"]) initial_world))
    by (vm_compute; reflexivity).
  eexists. split; [exact H|].
  destruct (X10_find_service_complete _ _ _ H) as [_ Hfind].
  destruct (Hfind "S20sshd") as (i & s & Hs & _).
  - vm_compute. right. now left.
  - exists i, s. exact Hs.
Defined.

(** ** What a start leaves behind *)

Ltac look_up Hs :=
  repeat first [ rewrite services_upd | rewrite services_emit
               | rewrite services_blocked | rewrite list_lookup_alter_eq ];
  rewrite Hs; cbn [fmap option_fmap option_map].

Ltac start_leaf Hs :=
  cbn [fst snd]; eexists; split; [look_up Hs; reflexivity|];
  split; [now repeat split|];
  first [ left; repeat split; first [assumption | reflexivity]
        | right; left; repeat split; first [assumption | reflexivity]
        | right; right; repeat split; first [assumption | reflexivity] ].

Lemma start_service_outcome E i w s :
  services w !! i = Some s ->
  state s <> SVC_RUNNING ->
  exists s',
    services (fst (start_service E i w)) !! i = Some s'
    /\ same_budget s s'
    /\ ((snd (start_service E i w) = 0 /\ has_flag s SVC_FLAG_WAIT = false
         /\ state s' = SVC_RUNNING /\ 0 < pid s')
        \/ (snd (start_service E i w) = 0 /\ has_flag s SVC_FLAG_WAIT = true
            /\ state s' = SVC_STOPPED /\ 0 < pid s')
        \/ (snd (start_service E i w) = -1 /\ state s' = SVC_FAILED)).
Proof.
  intros Hs Hst. unfold start_service. rewrite Hs.
  apply Z.eqb_neq in Hst. rewrite Hst.
  destruct (o_access E (trace w) (cmd s)).
  - cbn [negb]. destruct (o_fork E _) as [p|]; [|start_leaf Hs].
    destruct (has_flag s SVC_FLAG_WAIT) eqn:Hw; [|start_leaf Hs].
    destruct (o_waitpid E _ _) as [[| |]|]; start_leaf Hs.
  - destruct (String.index 0 " " (cmd s)) as [n|].
    + destruct (o_access E _ (String.substring 0 n (cmd s))); cbn [negb];
        [|start_leaf Hs].
      destruct (o_fork E _) as [p|]; [|start_leaf Hs].
      destruct (has_flag s SVC_FLAG_WAIT) eqn:Hw; [|start_leaf Hs].
      destruct (o_waitpid E _ _) as [[| |]|]; start_leaf Hs.
    + cbn [negb]. destruct (o_fork E _) as [p|]; [|start_leaf Hs].
      destruct (has_flag s SVC_FLAG_WAIT) eqn:Hw; [|start_leaf Hs].
      destruct (o_waitpid E _ _) as [[| |]|]; start_leaf Hs.
Qed.

(** X11.  [start_service] on a service that is not RUNNING ends in one
    of three ways, and its return value tells which: 0 with the
    service RUNNING under the pid of the child; 0 with a WAIT service
    STOPPED after its child left with status 0; -1 with the service
    FAILED (command not found, [fork] failed, or the child of a WAIT
    service left otherwise).  The service is never left STARTING, and
    only its state, pid and start time change. *)
Theorem X11_start_service_outcome E i w s :
  services w !! i = Some s ->
  state s <> SVC_RUNNING ->
  exists s',
    services (fst (start_service E i w)) !! i = Some s'
    /\ same_budget s s'
    /\ ((snd (start_service E i w) = 0 /\ has_flag s SVC_FLAG_WAIT = false
         /\ state s' = SVC_RUNNING /\ 0 < pid s')
        \/ (snd (start_service E i w) = 0 /\ has_flag s SVC_FLAG_WAIT = true
            /\ state s' = SVC_STOPPED /\ 0 < pid s')
        \/ (snd (start_service E i w) = -1 /\ state s' = SVC_FAILED)).
Proof. apply start_service_outcome. Qed.

Lemma X11_start_service_outcome_witness :
  services (boot_world [fsck] 5) !! 0%nat = Some fsck
  /\ exists s',
       services (fst (start_service calm 0 (boot_world [fsck] 5))) !! 0%nat
       = Some s'
       /\ state s' <> SVC_STARTING.
Proof.
  split; [reflexivity|].
  destruct (X11_start_service_outcome calm 0 (boot_world [fsck] 5) fsck eq_refl)
    as (s' & Hs' & _ & [H|[H|H]]).
  - discriminate.
  - exists s'. split; [exact Hs'|]. destruct H as (_ & _ & -> & _). discriminate.
  - exists s'. split; [exact Hs'|]. destruct H as (_ & _ & -> & _). discriminate.
  - exists s'. split; [exact Hs'|]. destruct H as (_ & ->). discriminate.
Defined.

(** ** RUNNING means a pid *)

Section RunningPid.

Context (E : env).

Lemma forall_touch (Q : service -> Prop) i w w' :
  Forall Q (services w) ->
  (forall j, j <> i -> services w' !! j = services w !! j) ->
  (forall s', services w' !! i = Some s' -> Q s') ->
  Forall Q (services w').
Proof.
  intros HF Ho Hi. apply Forall_lookup. intros j s' Hj.
  destruct (decide (j = i)) as [->|Hne]; [now apply Hi|].
  rewrite Ho in Hj by exact Hne.
  rewrite Forall_lookup in HF. now apply (HF j).
Qed.

Lemma start_service_pid i w s' :
  (forall s, services w !! i = Some s -> pid_if_running s) ->
  services (fst (start_service E i w)) !! i = Some s' -> pid_if_running s'.
Proof.
  intros Hbefore Hs'.
  destruct (services w !! i) as [s|] eqn:Hs.
  - destruct (decide (state s = SVC_RUNNING)) as [Hst|Hst].
    + rewrite (start_service_running E i w s Hs Hst) in Hs'. cbn [fst] in Hs'.
      apply Hbefore. congruence.
    + destruct (start_service_outcome E i w s Hs Hst)
        as (s0 & Hs0 & _ & [H|[H|H]]);
        rewrite Hs0 in Hs'; injection Hs' as <-; intros Hr.
      * apply H.
      * destruct H as (_ & _ & H & _). rewrite H in Hr. discriminate.
      * destruct H as (_ & H). rewrite H in Hr. discriminate.
  - unfold start_service in Hs'. rewrite Hs in Hs'. cbn [fst] in Hs'.
    congruence.
Qed.

Lemma running_pid_start i w :
  running_have_pid w -> running_have_pid (fst (start_service E i w)).
Proof.
  intros H. unfold running_have_pid in *.
  apply (forall_touch _ i w); [exact H| |].
  - apply (t_other _ _ _ _ (start_service_touches E i w)).
  - intros s'. apply start_service_pid. intros s Hs.
    rewrite Forall_lookup in H. exact (H i s Hs).
Qed.

Lemma running_pid_stop i w :
  running_have_pid w -> running_have_pid (fst (stop_service E i w)).
Proof.
  intros H. unfold running_have_pid in *.
  destruct (stop_service_frame E i w) as (_ & Ho & Hi & _).
  apply (forall_touch _ i w); [exact H|exact Ho|].
  intros s' Hs' Hr. now apply Hi in Hs'.
Qed.

Lemma running_pid_blocked e w :
  running_have_pid w -> running_have_pid (blocked E e w).
Proof. unfold running_have_pid. now rewrite services_blocked. Qed.

Lemma check_service_pid i w :
  running_have_pid w -> running_have_pid (check_service E i w).
Proof.
  intros H. unfold running_have_pid in *.
  apply (forall_touch _ i w); [exact H| |].
  - apply (t_other _ _ _ _ (check_service_touches E i w)).
  - intros s'. unfold check_service.
    destruct (services w !! i) as [s|] eqn:Hs; [|congruence].
    assert (Hps : pid_if_running s)
      by (rewrite Forall_lookup in H; exact (H i s Hs)).
    destruct (state s =? SVC_RUNNING); [|rewrite Hs; intros [= <-]; exact Hps].
    unfold is_running.
    set (w1 := if pid s <=? 0 then _ else _).
    assert (Hs1 : services (fst w1) !! i = Some s)
      by (unfold w1; destruct (pid s <=? 0); exact Hs).
    assert (Hdead : forall x,
               services (upd i (set_state SVC_STOPPED) (fst w1)) !! i = Some x ->
               pid_if_running x).
    { intros x. look_up Hs1. intros [= <-]. discriminate. }
    destruct w1 as [w1 alive]. cbn [fst] in *.
    destruct alive; [rewrite Hs1; intros [= <-]; exact Hps|].
    destruct (has_flag s SVC_FLAG_RESPAWN && _); [|apply Hdead].
    destruct (restart_count s <? max_restarts s).
    + rewrite services_upd, list_lookup_alter_eq.
      destruct (services (fst (start_service E i _)) !! i) as [s4|] eqn:Hs4;
        [|discriminate].
      intros [= <-]. apply start_service_pid in Hs4.
      * exact Hs4.
      * intros x. rewrite services_blocked. apply Hdead.
    + assert (Hfail : forall x,
                 services (upd i (set_state SVC_FAILED)
                             (upd i (set_state SVC_STOPPED) w1)) !! i = Some x ->
                 pid_if_running x).
      { intros x. look_up Hs1. intros [= <-]. discriminate. }
      destruct (has_flag s SVC_FLAG_CRITICAL); apply Hfail.
Qed.

Lemma running_pid_check w :
  running_have_pid w -> running_have_pid (check_services E w).
Proof.
  unfold check_services. generalize (indices w).
  intros l; revert w; induction l as [|i l IH]; intros w H; [exact H|].
  simpl. apply IH. now apply check_service_pid.
Qed.

Lemma reap_one_pid p l : Forall pid_if_running l -> Forall pid_if_running (reap_one p l).
Proof.
  induction 1 as [|s l Hs Hl IH]; [constructor|].
  simpl. destruct (pid s =? p).
  - constructor; [|exact Hl].
    destruct (state s =? SVC_RUNNING) eqn:Hq; intros Hr; [discriminate|].
    apply Z.eqb_neq in Hq. now destruct s.
  - now constructor.
Qed.

Lemma running_pid_reap w :
  running_have_pid w -> running_have_pid (reap_children E w).
Proof.
  unfold reap_children, running_have_pid.
  change (services (set_child_died 0 ?x)) with (services x).
  generalize (o_reap E (trace w)).
  intros l; revert w; induction l as [|p l IH]; intros w H; [exact H|].
  simpl. apply IH. simpl. now apply reap_one_pid.
Qed.

Lemma running_pid_loop w :
  running_have_pid w -> running_have_pid (loop_body E w).
Proof.
  intros H. unfold loop_body.
  set (w1 := blocked E (EvUsleep 100000) w).
  assert (H1 : running_have_pid w1) by now apply running_pid_blocked.
  set (w2 := if negb (child_died w1 =? 0) then reap_children E w1 else w1).
  assert (H2 : running_have_pid w2).
  { unfold w2. destruct (negb _); [now apply running_pid_reap|exact H1]. }
  pose proof (running_pid_check w2 H2) as H3.
  unfold kick_watchdog. destruct (0 <=? watchdog_fd _); exact H3.
Qed.

Lemma running_pid_start_all w :
  running_have_pid w -> running_have_pid (start_all_services E w).
Proof.
  unfold start_all_services. generalize (indices w).
  intros l; revert w; induction l as [|i l IH]; intros w H; [exact H|].
  simpl. apply IH. unfold start_if_eligible.
  destruct (services w !! i) as [s|]; [|exact H].
  destruct (runlevel s <=? current_runlevel w); [|exact H].
  now apply running_pid_start.
Qed.

End RunningPid.

(** X12.  A RUNNING service always has the pid of a process on
    record: if every RUNNING service has a positive pid, this is still
    so after [start_service], [stop_service], [restart_service],
    [start_all_services], [check_services], [reap_children] and any
    number of turns of the main loop, whatever the environment does. *)
Theorem X12_running_have_pid E w i n :
  running_have_pid w ->
  running_have_pid (fst (start_service E i w))
  /\ running_have_pid (fst (stop_service E i w))
  /\ running_have_pid (fst (restart_service E i w))
  /\ running_have_pid (start_all_services E w)
  /\ running_have_pid (check_services E w)
  /\ running_have_pid (reap_children E w)
  /\ running_have_pid (Nat.iter n (loop_body E) w).
Proof.
  intros H.
  split; [now apply running_pid_start|].
  split; [now apply running_pid_stop|].
  split.
  { unfold restart_service.
    pose proof (running_pid_stop E i w H) as Hs.
    destruct (stop_service E i w) as [w1 r]. cbn [fst] in Hs.
    now apply running_pid_start, running_pid_blocked. }
  split; [now apply running_pid_start_all|].
  split; [now apply running_pid_check|].
  split; [now apply running_pid_reap|].
  induction n as [|n IH]; [exact H|]. simpl. now apply running_pid_loop.
Qed.

Lemma X12_running_have_pid_witness :
  running_have_pid (boot_world [running_as 100 httpd; fsck] 5)
  /\ running_have_pid
       (Nat.iter 2 (loop_body env_all_dead)
          (boot_world [running_as 100 httpd; fsck] 5)).
Proof.
  assert (H : running_have_pid (boot_world [running_as 100 httpd; fsck] 5)).
  { repeat constructor. intros H. discriminate H. }
  split; [exact H|].
  apply (X12_running_have_pid env_all_dead _ 0%nat 2 H).
Defined.

(** ** What the main loop does and does not do *)

Lemma emits_refl K w : emits K w w.
Proof. exists []. split; [now rewrite app_nil_r|constructor]. Qed.

Lemma emits_trans K w1 w2 w3 : emits K w1 w2 -> emits K w2 w3 -> emits K w1 w3.
Proof.
  intros (n1 & H1 & F1) (n2 & H2 & F2). exists (n1 ++ n2).
  split; [rewrite H2, H1; now rewrite app_assoc|]. apply Forall_app. now split.
Qed.

Lemma emits_weaken (K K' : event -> bool) w w' :
  (forall e, K e = true -> K' e = true) -> emits K w w' -> emits K' w w'.
Proof.
  intros HK (new & H & F). exists new. split; [exact H|].
  eapply Forall_impl; [exact F|]. exact HK.
Qed.

Lemma emits_emit K e w0 w :
  K e = true -> emits K w0 w -> emits K w0 (emit e w).
Proof.
  intros He H. eapply emits_trans; [exact H|].
  exists [e]. split; [reflexivity|]. now repeat constructor.
Qed.

Lemma emits_upd K i f w0 w : emits K w0 w -> emits K w0 (upd i f w).
Proof. exact (fun H => H). Qed.

Lemma emits_blocked K E e w0 w :
  K e = true -> (forall s, K (EvSignal s) = true) ->
  emits K w0 w -> emits K w0 (blocked E e w).
Proof.
  intros He Hs H. eapply emits_trans; [exact H|].
  eexists. split; [apply trace_blocked|].
  constructor; [exact He|]. apply Forall_map, Forall_true. exact Hs.
Qed.

Ltac emits_tac :=
  repeat first
    [ apply emits_refl
    | apply emits_upd
    | apply emits_emit; [reflexivity|]
    | apply emits_blocked; [reflexivity|reflexivity|] ].

Section LoopEvents.

Context (E : env).

(** A call of [start_service] checks the command, forks, reads the
    clock and waits for the child of a WAIT service; it sends no signal
    and touches no file. *)
Lemma start_service_emits i w :
  emits start_kind w (fst (start_service E i w)).
Proof.
  unfold start_service.
  destruct (services w !! i) as [s|]; [|apply emits_refl].
  destruct (state s =? SVC_RUNNING); [apply emits_refl|].
  destruct (o_access E (trace w) (cmd s)).
  - cbn [negb]. destruct (o_fork E _) as [p|]; [|cbn [fst]; emits_tac].
    destruct (has_flag s SVC_FLAG_WAIT); [|cbn [fst]; emits_tac].
    destruct (o_waitpid E _ _) as [[| |]|]; cbn [fst]; emits_tac.
  - destruct (String.index 0 " " (cmd s)) as [n|].
    + destruct (o_access E _ (String.substring 0 n (cmd s))); cbn [negb];
        [|cbn [fst]; emits_tac].
      destruct (o_fork E _) as [p|]; [|cbn [fst]; emits_tac].
      destruct (has_flag s SVC_FLAG_WAIT); [|cbn [fst]; emits_tac].
      destruct (o_waitpid E _ _) as [[| |]|]; cbn [fst]; emits_tac.
    + cbn [negb]. destruct (o_fork E _) as [p|]; [|cbn [fst]; emits_tac].
      destruct (has_flag s SVC_FLAG_WAIT); [|cbn [fst]; emits_tac].
      destruct (o_waitpid E _ _) as [[| |]|]; cbn [fst]; emits_tac.
Qed.

Lemma start_kind_loop e : start_kind e = true -> loop_kind e = true.
Proof. destruct e; simpl; congruence. Qed.

Lemma check_service_emits i w : emits loop_kind w (check_service E i w).
Proof.
  unfold check_service.
  destruct (services w !! i) as [s|]; [|apply emits_refl].
  destruct (state s =? SVC_RUNNING); [|apply emits_refl].
  assert (H1 : emits loop_kind w (fst (is_running E (pid s) w))).
  { unfold is_running. destruct (pid s <=? 0); cbn [fst]; emits_tac. }
  destruct (is_running E (pid s) w) as [w1 alive]. cbn [fst] in H1.
  destruct alive; [exact H1|].
  destruct (has_flag s SVC_FLAG_RESPAWN && _); [|exact H1].
  destruct (restart_count s <? max_restarts s).
  - apply emits_upd. eapply emits_trans.
    2:{ eapply emits_weaken; [exact start_kind_loop|].
        apply start_service_emits. }
    apply emits_blocked; [reflexivity|reflexivity|exact H1].
  - destruct (has_flag s SVC_FLAG_CRITICAL); exact H1.
Qed.

Lemma check_services_emits w : emits loop_kind w (check_services E w).
Proof.
  unfold check_services. generalize (indices w).
  intros l; revert w; induction l as [|i l IH]; intros w; [apply emits_refl|].
  simpl. eapply emits_trans; [apply check_service_emits|apply IH].
Qed.

Lemma reap_children_emits w : emits loop_kind w (reap_children E w).
Proof.
  unfold reap_children. generalize (o_reap E (trace w)). intros l.
  enough (H : emits loop_kind w
                (foldl (fun w p =>
                          with_services (reap_one (Z.pos p))
                            (emit (EvWaitNohang (-1) (Z.pos p)) w)) w l))
    by exact H.
  revert w; induction l as [|p l IH]; intros w; [apply emits_refl|].
  simpl. eapply emits_trans; [|apply IH].
  exists [EvWaitNohang (-1) (Z.pos p)]. split; [reflexivity|].
  now repeat constructor.
Qed.

Lemma watchdog_check_services w :
  watchdog_fd (check_services E w) = watchdog_fd w.
Proof.
  unfold check_services. generalize (indices w).
  intros l; revert w; induction l as [|i l IH]; intros w; [reflexivity|].
  simpl. rewrite IH. apply (t_watchdog _ _ _ _ (check_service_touches E i w)).
Qed.

Lemma watchdog_reap_children w :
  watchdog_fd (reap_children E w) = watchdog_fd w.
Proof.
  unfold reap_children.
  change (watchdog_fd (set_child_died 0 ?x)) with (watchdog_fd x).
  generalize (o_reap E (trace w)).
  intros l; revert w; induction l as [|p l IH]; intros w; [reflexivity|].
  simpl. now rewrite IH.
Qed.

Lemma loop_body_events w :
  watchdog_fd (loop_body E w) = watchdog_fd w
  /\ exists new,
       trace (loop_body E w)
       = trace w ++ new
         ++ (if 0 <=? watchdog_fd w then [EvWrite (watchdog_fd w) "k"] else [])
       /\ Forall (fun e => loop_kind e = true) new.
Proof.
  unfold loop_body. cbv zeta.
  set (w1 := blocked E (EvUsleep 100000) w).
  assert (H1 : emits loop_kind w w1)
    by (unfold w1; apply emits_blocked; [reflexivity|reflexivity|apply emits_refl]).
  assert (F1 : watchdog_fd w1 = watchdog_fd w) by apply watchdog_blocked.
  set (w2 := if negb (child_died w1 =? 0) then reap_children E w1 else w1).
  assert (H2 : emits loop_kind w1 w2).
  { unfold w2. destruct (negb _); [apply reap_children_emits|apply emits_refl]. }
  assert (F2 : watchdog_fd w2 = watchdog_fd w1).
  { unfold w2. destruct (negb _); [apply watchdog_reap_children|reflexivity]. }
  pose proof (check_services_emits w2) as H3.
  pose proof (watchdog_check_services w2) as F3.
  destruct (emits_trans _ _ _ _ H1 (emits_trans _ _ _ _ H2 H3))
    as (new & Hn & Fn).
  unfold kick_watchdog. rewrite F3, F2, F1.
  destruct (0 <=? watchdog_fd w).
  - split; [simpl; congruence|]. exists new. split; [|exact Fn].
    simpl. rewrite Hn. now rewrite <- app_assoc.
  - split; [congruence|]. exists new. split; [|exact Fn].
    now rewrite app_nil_r.
Qed.

End LoopEvents.

(** X13.  A turn of the main loop sleeps, reaps, probes, and starts
    services; it sends no signal to any process, closes and unmounts
    nothing, and never syncs or reboots.  When the watchdog is open the
    turn ends with one byte ["k"] written to it, and that is the only
    write; when it is not open, nothing is written.  The watchdog
    handle is the same after the turn. *)
Theorem X13_loop_turn_events E w :
  watchdog_fd (loop_body E w) = watchdog_fd w
  /\ exists new,
       trace (loop_body E w)
       = trace w ++ new
         ++ (if 0 <=? watchdog_fd w then [EvWrite (watchdog_fd w) "k"] else [])
       /\ Forall (fun e => loop_kind e = true) new.
Proof. apply loop_body_events. Qed.

(** ** Services without the RESPAWN flag *)

Lemma keeps_config_refl w : keeps_config w w.
Proof.
  unfold keeps_config. induction (services w); constructor;
    [apply same_config_refl|assumption].
Qed.

Lemma keeps_config_trans w1 w2 w3 :
  keeps_config w1 w2 -> keeps_config w2 w3 -> keeps_config w1 w3.
Proof.
  unfold keeps_config. intros H1 H2.
  eapply Forall2_trans; [|exact H1|exact H2].
  intros x y z. apply same_config_trans.
Qed.

Lemma touches_keeps_config R i w w' :
  (forall s s', R s s' -> same_config s s') ->
  touches R i w w' -> keeps_config w w'.
Proof.
  intros HR [L O T _ _ _ _]. unfold keeps_config.
  apply Forall2_same_length_lookup. split; [now rewrite L|].
  intros j x y Hx Hy. destruct (decide (j = i)) as [->|Hne].
  - destruct (T x Hx) as (s' & Hs' & Hr). rewrite Hs' in Hy.
    injection Hy as <-. now apply HR.
  - rewrite O in Hy by exact Hne. rewrite Hx in Hy. injection Hy as <-.
    apply same_config_refl.
Qed.

Lemma keeps_config_none_respawns w w' :
  keeps_config w w' -> none_respawns w -> none_respawns w'.
Proof.
  unfold keeps_config, none_respawns. intros H.
  induction H as [|s s' l l' Hs _ IH]; intros HF; [constructor|].
  inversion HF as [|? ? Hf Hl]. constructor; [|now apply IH].
  destruct Hs as (_ & _ & _ & _ & Hfl & _). unfold has_flag in *.
  now rewrite Hfl.
Qed.


Section NoRespawn.

Context (E : env).


Lemma keeps_config_check_services w : keeps_config w (check_services E w).
Proof.
  unfold check_services. generalize (indices w).
  intros l; revert w; induction l as [|i l IH]; intros w;
    [apply keeps_config_refl|].
  simpl. eapply keeps_config_trans; [|apply IH].
  eapply touches_keeps_config; [|apply check_service_touches]. auto.
Qed.

Lemma reap_one_config p l : Forall2 same_config l (reap_one p l).
Proof.
  induction l as [|s l IH]; [constructor|].
  simpl. destruct (pid s =? p).
  - constructor.
    + destruct (state s =? SVC_RUNNING); now repeat split.
    + clear IH. induction l; constructor;
        [apply same_config_refl|assumption].
  - constructor; [apply same_config_refl|exact IH].
Qed.

Lemma keeps_config_reap w : keeps_config w (reap_children E w).
Proof.
  unfold reap_children, keeps_config.
  change (services (set_child_died 0 ?x)) with (services x).
  generalize (o_reap E (trace w)).
  intros l; revert w; induction l as [|p l IH]; intros w;
    [apply keeps_config_refl|].
  simpl. eapply Forall2_trans;
    [|apply (reap_one_config (Z.pos p))
     |apply (IH (with_services (reap_one (Z.pos p))
                   (emit (EvWaitNohang (-1) (Z.pos p)) w)))].
  intros x y z. apply same_config_trans.
Qed.

Lemma keeps_config_loop w : keeps_config w (loop_body E w).
Proof.
  unfold loop_body. cbv zeta.
  set (w1 := blocked E (EvUsleep 100000) w).
  assert (H1 : keeps_config w w1).
  { unfold keeps_config, w1. rewrite services_blocked. apply keeps_config_refl. }
  set (w2 := if negb (child_died w1 =? 0) then reap_children E w1 else w1).
  assert (H2 : keeps_config w1 w2).
  { unfold w2. destruct (negb _); [apply keeps_config_reap|apply keeps_config_refl]. }
  pose proof (keeps_config_check_services w2) as H3.
  eapply keeps_config_trans; [exact H1|].
  eapply keeps_config_trans; [exact H2|].
  unfold kick_watchdog. destruct (0 <=? watchdog_fd _); exact H3.
Qed.

(** The health check of a service without the RESPAWN flag forks
    nothing. *)
Lemma check_service_no_fork i w :
  none_respawns w ->
  emits (fun e => negb (is_fork e)) w (check_service E i w).
Proof.
  intros H. unfold check_service.
  destruct (services w !! i) as [s|] eqn:Hs; [|apply emits_refl].
  assert (Hf : has_flag s SVC_FLAG_RESPAWN = false).
  { unfold none_respawns in H. rewrite Forall_lookup in H. exact (H i s Hs). }
  destruct (state s =? SVC_RUNNING); [|apply emits_refl].
  assert (H1 : emits (fun e => negb (is_fork e)) w
                 (fst (is_running E (pid s) w))).
  { unfold is_running. destruct (pid s <=? 0); cbn [fst]; emits_tac. }
  destruct (is_running E (pid s) w) as [w1 alive]. cbn [fst] in H1.
  destruct alive; [exact H1|]. rewrite Hf. exact H1.
Qed.

Lemma check_services_no_fork w :
  none_respawns w ->
  emits (fun e => negb (is_fork e)) w (check_services E w).
Proof.
  unfold check_services. generalize (indices w).
  intros l; revert w; induction l as [|i l IH]; intros w H; [apply emits_refl|].
  simpl. eapply emits_trans; [now apply check_service_no_fork|]. apply IH.
  eapply keeps_config_none_respawns; [|exact H].
  eapply touches_keeps_config; [|apply check_service_touches]. auto.
Qed.

Lemma loop_body_no_fork w :
  none_respawns w ->
  emits (fun e => negb (is_fork e)) w (loop_body E w).
Proof.
  intros H. unfold loop_body. cbv zeta.
  set (w1 := blocked E (EvUsleep 100000) w).
  assert (H1 : emits (fun e => negb (is_fork e)) w w1)
    by (unfold w1; apply emits_blocked;
        [reflexivity|reflexivity|apply emits_refl]).
  assert (N1 : none_respawns w1)
    by (unfold none_respawns, w1; now rewrite services_blocked).
  set (w2 := if negb (child_died w1 =? 0) then reap_children E w1 else w1).
  assert (H2 : emits (fun e => negb (is_fork e)) w1 w2).
  { unfold w2. destruct (negb _); [|apply emits_refl].
    unfold reap_children. generalize (o_reap E (trace w1)). intros l.
    enough (Hl : forall w0, emits (fun e => negb (is_fork e)) w0
                  (foldl (fun w p =>
                            with_services (reap_one (Z.pos p))
                              (emit (EvWaitNohang (-1) (Z.pos p)) w)) w0 l))
      by exact (Hl w1).
    induction l as [|p l IH]; intros w0; [apply emits_refl|].
    simpl. eapply emits_trans; [|apply IH].
    exists [EvWaitNohang (-1) (Z.pos p)]. split; [reflexivity|].
    now repeat constructor. }
  assert (N2 : none_respawns w2).
  { unfold w2. destruct (negb _); [|exact N1].
    eapply keeps_config_none_respawns; [apply keeps_config_reap|exact N1]. }
  eapply emits_trans; [exact H1|]. eapply emits_trans; [exact H2|].
  eapply emits_trans; [now apply check_services_no_fork|].
  unfold kick_watchdog. destruct (0 <=? watchdog_fd _); emits_tac.
Qed.

End NoRespawn.

Lemma loop_turns_no_fork E w n :
  none_respawns w ->
  none_respawns (Nat.iter n (loop_body E) w)
  /\ keeps_config w (Nat.iter n (loop_body E) w)
  /\ emits (fun e => negb (is_fork e)) w (Nat.iter n (loop_body E) w).
Proof.
  intros H. induction n as [|n (IH1 & IH2 & IH3)].
  - split; [exact H|]. split; [apply keeps_config_refl|apply emits_refl].
  - simpl. split; [|split].
    + eapply keeps_config_none_respawns; [apply keeps_config_loop|exact IH1].
    + eapply keeps_config_trans; [exact IH2|apply keeps_config_loop].
    + eapply emits_trans; [exact IH3|now apply loop_body_no_fork].
Qed.

(** X14.  When no service has the RESPAWN flag, the main loop starts
    nothing: any number of turns forks no process, whatever dies, and
    the services keep their name, command, runlevel and flags. *)
Theorem X14_no_respawn_flag_no_fork E w n :
  none_respawns w ->
  none_respawns (Nat.iter n (loop_body E) w)
  /\ keeps_config w (Nat.iter n (loop_body E) w)
  /\ emits (fun e => negb (is_fork e)) w (Nat.iter n (loop_body E) w).
Proof. apply loop_turns_no_fork. Qed.

Lemma X14_no_respawn_flag_no_fork_witness :
  none_respawns (boot_world [running_as 100 syslogd] 5)
  /\ emits (fun e => negb (is_fork e))
       (boot_world [running_as 100 syslogd] 5)
       (Nat.iter 3 (loop_body env_all_dead)
          (boot_world [running_as 100 syslogd] 5)).
Proof.
  assert (H : none_respawns (boot_world [running_as 100 syslogd] 5))
    by (repeat constructor).
  split; [exact H|].
  apply (X14_no_respawn_flag_no_fork env_all_dead _ 3 H).
Defined.

(** ** From the configuration to the main loop *)



Section Boot.

Context (E : env).

Lemma start_all_above_runlevel w :
  Forall (fun s => current_runlevel w < runlevel s) (services w) ->
  start_all_services E w = w.
Proof.
  intros H. unfold start_all_services.
  assert (Hl : Forall (fun i => (i < length (services w))%nat) (indices w)).
  { apply Forall_forall. intros i Hi. unfold indices, service_count in Hi.
    apply list_elem_of_In, in_seq in Hi. lia. }
  induction (indices w) as [|i l IH]; [reflexivity|].
  inversion Hl as [|? ? Hi Hl']. simpl.
  assert (Hskip : start_if_eligible E w i = w).
  { unfold start_if_eligible.
    destruct (services w !! i) as [s|] eqn:Hs; [|reflexivity].
    rewrite Forall_lookup in H. specialize (H i s Hs).
    destruct (runlevel s <=? current_runlevel w) eqn:Hle; [|reflexivity].
    apply Z.leb_le in Hle. lia. }
  rewrite Hskip. now apply IH.
Qed.





End Boot.



(** A runlevel that fits no [int] is cut to one before it is compared:
    [runlevel=4294967298] is runlevel 2 and starts nothing,
    [runlevel=-2147483649] is runlevel 2147483647 and starts both
    scripts. *)
Lemma boot_runlevel_beyond_int :
  (exists w, boot (env_runlevel "4294967298") 3 initial_world = Some w
             /\ current_runlevel w = 2 /\ trace w = [])
  /\ (exists w, boot (env_runlevel "-2147483649") 3 initial_world = Some w
                /\ current_runlevel w = 2147483647
                /\ map state (services w) = [SVC_RUNNING; SVC_RUNNING]
                /\ length (List.filter is_fork (trace w)) = 2%nat).
Proof.
  split; eexists; (split; [vm_compute; reflexivity|]);
    repeat split; vm_compute; reflexivity.
Qed.

(** X16.  [start_all_services] is a plain comparison of runlevels:
    when every service sits above [current_runlevel], the pass changes
    nothing at all, not a variable, not a system call. *)
Theorem X16_nothing_eligible E w :
  Forall (fun s => current_runlevel w < runlevel s) (services w) ->
  start_all_services E w = w.
Proof. apply start_all_above_runlevel. Qed.

Lemma X16_nothing_eligible_witness :
  start_all_services calm (boot_world [svc_A; svc_B] 1)
  = boot_world [svc_A; svc_B] 1.
Proof.
  apply X16_nothing_eligible. repeat constructor.
Defined.

(** ** How the supervisor ends *)

Section Ending.

Context (E : env).

Lemma do_shutdown_end w :
  (exists c, last (trace (do_shutdown E w)) = Some (EvReboot c))
  /\ Forall (fun s => state s <> SVC_RUNNING) (services (do_shutdown E w))
  /\ watchdog_fd (do_shutdown E w) < 0.
Proof.
  split; [|split].
  - unfold do_shutdown. cbv zeta.
    destruct (negb _); eexists;
      match goal with
      | |- last (trace (emit ?e ?x)) = _ =>
          change (trace (emit e x)) with (trace x ++ [e])
      end; apply last_snoc.
  - rewrite services_do_shutdown.
    apply (stop_all_services_spec E (stop_watchdog w)).
  - destruct (stop_all_services_spec E (stop_watchdog w)) as (_ & Hwd & _).
    assert (Hsw : watchdog_fd (stop_watchdog w) < 0).
    { unfold stop_watchdog. destruct (0 <=? watchdog_fd w) eqn:Hle.
      - simpl. lia.
      - apply Z.leb_gt in Hle. exact Hle. }
    unfold do_shutdown. cbv zeta.
    set (w2 := stop_all_services E (stop_watchdog w)) in *. clearbody w2.
    assert (Hum : forall l x,
               watchdog_fd (foldl (fun w t => emit (EvUmount t) w) x l)
               = watchdog_fd x).
    { induction l as [|t l IH]; intros x; [reflexivity|]. simpl. now rewrite IH. }
    assert (Hem : forall e x, watchdog_fd (emit e x) = watchdog_fd x)
      by reflexivity.
    destruct (negb _);
      rewrite !Hem, Hum, Hem, watchdog_blocked, Hem, watchdog_blocked, Hem;
      lia.
Qed.

Lemma supervise_spec fuel w w' :
  supervise E fuel w = Some w' ->
  exists k,
    (k <= fuel)%nat
    /\ w' = do_shutdown E (Nat.iter k (loop_body E) w)
    /\ shutdown_requested (Nat.iter k (loop_body E) w) <> 0
    /\ forall j, (j < k)%nat ->
                 shutdown_requested (Nat.iter j (loop_body E) w) = 0.
Proof.
  revert w; induction fuel as [|fuel IH]; intros w H.
  - cbn [supervise] in H.
    destruct (shutdown_requested w =? 0) eqn:Hz; cbn [negb] in H;
      [discriminate|].
    exists 0%nat. apply Z.eqb_neq in Hz.
    split; [lia|]. split; [injection H as H; symmetry; exact H|].
    split; [exact Hz|].
    intros j Hj. lia.
  - cbn [supervise] in H.
    destruct (shutdown_requested w =? 0) eqn:Hz; cbn [negb] in H.
    + destruct (IH _ H) as (k & Hk & Hw' & Hsd & Hbefore).
      exists (S k). rewrite Nat.iter_swap in Hw', Hsd.
      split; [lia|]. split; [exact Hw'|]. split; [exact Hsd|].
      intros [|j] Hj; [now apply Z.eqb_eq|].
      change (Nat.iter (S j) (loop_body E) w)
        with (loop_body E (Nat.iter j (loop_body E) w)).
      rewrite <- Nat.iter_swap. apply Hbefore. lia.
    + exists 0%nat. apply Z.eqb_neq in Hz.
      split; [lia|]. split; [injection H as H; symmetry; exact H|].
    split; [exact Hz|].
      intros j Hj. lia.
Qed.

End Ending.

(** X17.  The supervisor leaves its loop only through [do_shutdown]:
    when [supervise] comes to an end, the loop made some number of
    turns with [shutdown_requested] clear before each, the flag was
    raised after the last, and [do_shutdown] ran on that state.  At the
    end no service is RUNNING, the watchdog is closed, and the last
    system call is [reboot]. *)
Theorem X17_supervise_ends_in_reboot E fuel w w' :
  supervise E fuel w = Some w' ->
  (exists k,
     (k <= fuel)%nat
     /\ w' = do_shutdown E (Nat.iter k (loop_body E) w)
     /\ shutdown_requested (Nat.iter k (loop_body E) w) <> 0
     /\ forall j, (j < k)%nat ->
                  shutdown_requested (Nat.iter j (loop_body E) w) = 0)
  /\ (exists c, last (trace w') = Some (EvReboot c))
  /\ Forall (fun s => state s <> SVC_RUNNING) (services w')
  /\ watchdog_fd w' < 0.
Proof.
  intros H. destruct (supervise_spec E fuel w w' H) as (k & Hk & Hw' & Hsd & Hb).
  split; [exists k; split; [exact Hk|]; split; [exact Hw'|]; split; assumption|].
  rewrite Hw'. apply do_shutdown_end.
Qed.

Lemma X17_supervise_ends_in_reboot_witness :
  exists w',
    supervise calm 5 (sigusr1_handler (boot_world [running_as 7 svc_A] 5))
    = Some w'
    /\ exists c, last (trace w') = Some (EvReboot c).
Proof.
  destruct (supervise calm 5 (sigusr1_handler (boot_world [running_as 7 svc_A] 5)))
    as [w'|] eqn:H; [|vm_compute in H; discriminate H].
  exists w'. split; [reflexivity|].
  apply (X17_supervise_ends_in_reboot calm 5 _ w' H).
Defined.

(** ** A critical service out of budget *)

(** X18.  The CRITICAL flag acts only together with RESPAWN.  When the
    health check finds a RUNNING service with both flags dead and its
    budget used up, it marks the service FAILED and raises
    [reboot_requested] and [shutdown_requested], and the health check
    of any other service after that starts nothing.  A CRITICAL service
    without the RESPAWN flag that dies is just STOPPED: no flag is
    raised. *)
Theorem X18_critical_escalation E i w s :
  services w !! i = Some s ->
  state s = SVC_RUNNING ->
  0 < pid s ->
  o_alive E (trace w) (pid s) = false ->
  shutdown_requested w = 0 ->
  has_flag s SVC_FLAG_CRITICAL = true ->
  let w' := check_service E i w in
  (has_flag s SVC_FLAG_RESPAWN = true ->
   max_restarts s <= restart_count s ->
   services w' !! i = Some (set_state SVC_FAILED s)
   /\ shutdown_requested w' = 1 /\ reboot_requested w' = 1
   /\ forall j, winds_down w' (check_service E j w'))
  /\ (has_flag s SVC_FLAG_RESPAWN = false ->
      services w' !! i = Some (set_state SVC_STOPPED s)
      /\ shutdown_requested w' = 0
      /\ reboot_requested w' = reboot_requested w).
Proof.
  intros Hs Hst Hp Ha Hsd Hc w'. subst w'. unfold check_service.
  rewrite Hs, Hst, Z.eqb_refl, (is_running_dead E _ _ Hp Ha).
  set (w2 := upd i (set_state SVC_STOPPED) (emit (EvProbe (pid s) false) w)).
  change (shutdown_requested w2) with (shutdown_requested w).
  rewrite Hsd. change (0 =? 0) with true. rewrite andb_true_r.
  split.
  - intros Hr Hge. rewrite Hr. apply Z.ltb_ge in Hge. rewrite Hge, Hc.
    split.
    { unfold w2. simpl. now rewrite !list_lookup_alter_eq, Hs. }
    split; [reflexivity|]. split; [reflexivity|].
    intros j. apply check_service_winds_down. discriminate.
  - intros Hr. rewrite Hr.
    split; [unfold w2; simpl; now rewrite list_lookup_alter_eq, Hs|].
    split; [exact Hsd|reflexivity].
Qed.

Lemma X18_critical_escalation_witness :
  let s := set_flags (Z.lor SVC_FLAG_RESPAWN SVC_FLAG_CRITICAL)
             (set_restart_count 2 (running_as 111 svc_C)) in
  let w := boot_world [s] 5 in
  services w !! 0%nat = Some s
  /\ shutdown_requested (check_service env_all_dead 0 w) = 1
  /\ reboot_requested (check_service env_all_dead 0 w) = 1.
Proof.
  intros s w. split; [reflexivity|].
  destruct (X18_critical_escalation env_all_dead 0 w s
              eq_refl eq_refl eq_refl eq_refl eq_refl eq_refl) as [H _].
  destruct (H eq_refl) as (_ & H1 & H2 & _).
  - vm_compute. discriminate.
  - split; [exact H1|exact H2].
Defined.

(** ** Reaping *)

Lemma reap_one_no_match p l :
  Forall (fun s => pid s <> p) l -> reap_one p l = l.
Proof.
  induction 1 as [|s l Hs _ IH]; [reflexivity|].
  simpl. apply Z.eqb_neq in Hs. now rewrite Hs, IH.
Qed.

Lemma reap_one_first p (l : list service) i s :
  l !! i = Some s -> pid s = p ->
  (forall j s', (j < i)%nat -> l !! j = Some s' -> pid s' <> p) ->
  reap_one p l
  = <[i := if state s =? SVC_RUNNING
           then set_state SVC_STOPPED (set_pid 0 s) else set_pid 0 s]> l.
Proof.
  revert i; induction l as [|s0 l IH]; intros i Hs Hp Hfirst; [discriminate|].
  destruct i as [|i].
  - injection Hs as ->. simpl. apply Z.eqb_eq in Hp. now rewrite Hp.
  - simpl. assert (H0 : pid s0 <> p) by (apply (Hfirst 0%nat); [lia|reflexivity]).
    apply Z.eqb_neq in H0. rewrite H0. f_equal.
    apply IH; [exact Hs|exact Hp|].
    intros j s' Hj Hl. apply (Hfirst (S j)); [lia|exact Hl].
Qed.

(** X19.  Reaping children that are no services, which is what init
    does for every orphan of the system, leaves the registry as it is:
    when none of the collected pids is recorded for a service,
    [reap_children] changes no service.  In any case it clears
    [child_died], and its system calls are the [waitpid] calls that
    returned these pids. *)
Theorem X19_reap_orphans E w :
  (forall p, In p (o_reap E (trace w)) ->
             Forall (fun s => pid s <> Z.pos p) (services w)) ->
  services (reap_children E w) = services w
  /\ child_died (reap_children E w) = 0
  /\ trace (reap_children E w)
     = trace w ++ map (fun p => EvWaitNohang (-1) (Z.pos p))
                      (o_reap E (trace w)).
Proof.
  unfold reap_children. generalize (o_reap E (trace w)). intros l H.
  change (services (set_child_died 0 ?x)) with (services x).
  change (trace (set_child_died 0 ?x)) with (trace x).
  split; [|split; [reflexivity|]].
  - revert w H; induction l as [|p l IH]; intros w H; [reflexivity|].
    simpl. rewrite IH.
    + simpl. apply reap_one_no_match, H. now left.
    + intros q Hq. simpl. rewrite reap_one_no_match by (apply H; now left).
      apply H. now right.
  - clear H. revert w; induction l as [|p l IH]; intros w;
      [now rewrite app_nil_r|].
    simpl. rewrite IH. simpl. now rewrite <- app_assoc.
Qed.

Lemma X19_reap_orphans_witness :
  services (reap_children env_sigchld
              (World [running_as 7 svc_A] 5 0 0 1 (-1) [EvUsleep 100000; EvSignal SIGCHLD]))
  = [running_as 7 svc_A].
Proof.
  apply (X19_reap_orphans env_sigchld
           (World [running_as 7 svc_A] 5 0 0 1 (-1)
                  [EvUsleep 100000; EvSignal SIGCHLD])).
  intros p [<-|[]]. repeat constructor. discriminate.
Defined.

(** X20.  For each pid it collects, [reap_children] clears one
    service, the first in the registry that records the pid: that one
    loses the pid and, if it was RUNNING, becomes STOPPED.  A later
    service that records the same pid (a pid left behind by a STOPPED
    service and used again by the system) is not touched. *)
Theorem X20_reap_first_match p (l : list service) i s :
  l !! i = Some s -> pid s = p ->
  (forall j s', (j < i)%nat -> l !! j = Some s' -> pid s' <> p) ->
  reap_one p l
  = <[i := if state s =? SVC_RUNNING
           then set_state SVC_STOPPED (set_pid 0 s) else set_pid 0 s]> l.
Proof. apply reap_one_first. Qed.

Lemma X20_reap_first_match_witness :
  reap_one 101 [set_pid 101 fsck; running_as 101 svc_A]
  = [fsck; running_as 101 svc_A].
Proof.
  apply (X20_reap_first_match 101 [set_pid 101 fsck; running_as 101 svc_A]
           0%nat (set_pid 101 fsck) eq_refl eq_refl).
  intros j s' Hj. lia.
Defined.

(** ** Restart *)

Section Restart.

Context (E : env).

Lemma stop_service_this i w s :
  services w !! i = Some s ->
  exists s1,
    services (fst (stop_service E i w)) !! i = Some s1
    /\ same_budget s s1 /\ state s1 <> SVC_RUNNING.
Proof.
  intros Hs. destruct (decide (state s = SVC_RUNNING)) as [Hst|Hst].
  - destruct (stop_service_running E i w s Hs Hst)
      as (w' & new & rs & esc & H1 & H2 & _).
    rewrite H1. cbn [fst]. exists (set_pid 0 (set_state SVC_STOPPED s)).
    split; [|split; [now repeat split|discriminate]].
    rewrite H2. apply list_lookup_insert_eq. eapply lookup_lt_Some, Hs.
  - rewrite stop_service_idle.
    2:{ intros s' Hs'. rewrite Hs in Hs'. now injection Hs' as <-. }
    exists s. split; [exact Hs|]. split; [apply same_budget_refl|exact Hst].
Qed.

Lemma restart_service_spec i w s :
  services w !! i = Some s ->
  exists a sigs ok b s',
    trace (fst (restart_service E i w))
    = trace w ++ a ++ EvSleep 1 :: map EvSignal sigs
              ++ EvAccess (cmd s) ok :: b
    /\ graceful_kills a
       = (if decide (state s = SVC_RUNNING) then [pid s] else [])
    /\ services (fst (restart_service E i w)) !! i = Some s'
    /\ same_budget s s'
    /\ (state s' = SVC_RUNNING \/ state s' = SVC_STOPPED
        \/ state s' = SVC_FAILED)
    /\ forall j, j <> i ->
         services (fst (restart_service E i w)) !! j = services w !! j.
Proof.
  intros Hs. unfold restart_service.
  destruct (stop_service_this i w s Hs) as (s1 & Hs1 & Hb1 & Hst1).
  destruct (stop_service_frame E i w) as (_ & Ho & _ & _ & a & Ha & Hg).
  rewrite Hs in Hg.
  destruct (stop_service E i w) as [w1 r1]. cbn [fst] in *.
  set (w2 := blocked E (EvSleep 1) w1).
  assert (Hs2 : services w2 !! i = Some s1)
    by (unfold w2; now rewrite services_blocked).
  destruct (start_service_attempt E i w2 s1 Hs2 Hst1) as [_ O _ _ _ _ [b Hb]].
  destruct (start_service_outcome E i w2 s1 Hs2 Hst1) as (s' & Hs' & Hb' & Hout).
  assert (Hcmd : cmd s1 = cmd s) by apply Hb1.
  exists a, (o_signals E (trace w1 ++ [EvSleep 1])),
         (o_access E (trace w2) (cmd s1)), b, s'.
  split.
  { rewrite Hb. simpl. unfold w2 at 1. rewrite trace_blocked, Ha, Hcmd.
    rewrite <- !app_assoc. reflexivity. }
  split; [exact Hg|]. split; [exact Hs'|].
  split; [eapply same_budget_trans; eassumption|].
  split.
  { destruct Hout as [H|[H|H]]; [left|right; left|right; right]; apply H. }
  intros j Hj. rewrite O by exact Hj. simpl. unfold w2.
  rewrite services_blocked. now apply Ho.
Qed.

End Restart.

(** X21.  [restart_service] stops the service if it is RUNNING (it is
    the only one to receive SIGTERM), sleeps one second, and then makes
    a start attempt in any case, also for a service that was STOPPED or
    FAILED.  It ends RUNNING, STOPPED (a WAIT service that completed)
    or FAILED; the restart counter and what the service file said are
    kept, and no other service changes. *)
Theorem X21_restart_service E i w s :
  services w !! i = Some s ->
  exists a sigs ok b s',
    trace (fst (restart_service E i w))
    = trace w ++ a ++ EvSleep 1 :: map EvSignal sigs
              ++ EvAccess (cmd s) ok :: b
    /\ graceful_kills a
       = (if decide (state s = SVC_RUNNING) then [pid s] else [])
    /\ services (fst (restart_service E i w)) !! i = Some s'
    /\ same_budget s s'
    /\ (state s' = SVC_RUNNING \/ state s' = SVC_STOPPED
        \/ state s' = SVC_FAILED)
    /\ forall j, j <> i ->
         services (fst (restart_service E i w)) !! j = services w !! j.
Proof. apply restart_service_spec. Qed.

Lemma X21_restart_service_witness :
  let w := boot_world [set_restart_count 2 (set_state SVC_FAILED svc_C)] 5 in
  services w !! 0%nat = Some (set_restart_count 2 (set_state SVC_FAILED svc_C))
  /\ exists s', services (fst (restart_service calm 0 w)) !! 0%nat = Some s'
                /\ restart_count s' = 2.
Proof.
  intros w. split; [reflexivity|].
  destruct (X21_restart_service calm 0 w _ eq_refl)
    as (a & sigs & ok & b & s' & _ & _ & Hs' & [_ Hrc] & _).
  exists s'. split; [exact Hs'|exact Hrc].
Defined.

(** ** The configuration file *)

Lemma truth_of_bit v : truth_of v = 0 \/ truth_of v = 1.
Proof. unfold truth_of. destruct (_ || _); [now right|now left]. Qed.

Lemma parse_config_line_fits cfg line :
  config_fits cfg ->
  config_fits (parse_config_line cfg line)
  /\ logfile (parse_config_line cfg line) = logfile cfg.
Proof.
  intros (H1 & H2 & H3 & H4). unfold parse_config_line.
  destruct (trim line) as [|c l]; [now repeat split|].
  destruct (Ascii.eqb c "#"); [now repeat split|].
  destruct (scan_key_word (String c l)) as [[k v]|]; [|now repeat split].
  repeat match goal with
         | |- context [if ?b then _ else _] => destruct b
         end;
    (split; [|reflexivity]); unfold config_fits; cbn;
    repeat split;
    first [ assumption | apply substring_length_le | apply truth_of_bit ].
Qed.

Lemma parse_config_lines_fits lines cfg :
  config_fits cfg ->
  config_fits (foldl parse_config_line cfg lines)
  /\ logfile (foldl parse_config_line cfg lines) = logfile cfg.
Proof.
  revert cfg; induction lines as [|l lines IH]; intros cfg H; [now split|].
  simpl. destruct (parse_config_line_fits cfg l H) as [H1 H2].
  destruct (IH _ H1) as [G1 G2]. split; [exact G1|congruence].
Qed.

(** X22.  [parse_config] keeps [config] well formed: the host name
    stays within 63 characters and the watchdog device within 255,
    whatever the length of the values in the file, and the two enable
    flags stay 0 or 1.  No line of the file changes the path of the
    log file.  Without the file nothing changes, [target_runlevel]
    included; with the file [target_runlevel] becomes the runlevel
    that [config] has at the end. *)
Theorem X22_parse_config E cfg target :
  config_fits cfg ->
  config_fits (fst (parse_config E cfg target))
  /\ logfile (fst (parse_config E cfg target)) = logfile cfg
  /\ (o_fopen E CONFIG_FILE = None -> parse_config E cfg target = (cfg, target))
  /\ (o_fopen E CONFIG_FILE <> None ->
      snd (parse_config E cfg target)
      = default_runlevel (fst (parse_config E cfg target))).
Proof.
  intros H. unfold parse_config.
  destruct (o_fopen E CONFIG_FILE) as [text|]; cbn [fst snd].
  - destruct (parse_config_lines_fits
                (fgets_lines (String.length text) text) cfg H) as [H1 H2].
    split; [exact H1|]. split; [exact H2|]. split; [discriminate|reflexivity].
  - split; [exact H|]. split; [reflexivity|]. split; [reflexivity|].
    intros Hne. now contradiction Hne.
Qed.

Lemma X22_parse_config_witness :
  config_fits default_config
  /\ config_fits (fst (parse_config env_configured default_config 5))
  /\ snd (parse_config env_configured default_config 5) = 3.
Proof.
  assert (H : config_fits default_config).
  { unfold config_fits. simpl. repeat split; first [lia | now left | now right]. }
  split; [exact H|].
  split; [apply (X22_parse_config env_configured default_config 5 H)|].
  vm_compute. reflexivity.
Defined.

(** ** The restart counter *)

Lemma within_budget_refl s : within_budget s s.
Proof. split; [apply same_config_refl|]. lia. Qed.

Lemma within_budget_trans s1 s2 s3 :
  within_budget s1 s2 -> within_budget s2 s3 -> within_budget s1 s3.
Proof.
  intros (C1 & L1 & U1) (C2 & L2 & U2).
  split; [eapply same_config_trans; eassumption|].
  assert (Hm : max_restarts s2 = max_restarts s1) by apply C1.
  rewrite Hm in U2. lia.
Qed.

Lemma same_budget_within s s' : same_budget s s' -> within_budget s s'.
Proof. intros [C R]. split; [exact C|]. lia. Qed.

Section Budget.

Context (E : env).

Lemma check_service_budget i w :
  touches within_budget i w (check_service E i w).
Proof.
  pose proof (check_service_touches E i w) as [L O T C W S N].
  constructor; try assumption.
  intros s Hs. unfold check_service. rewrite Hs.
  assert (Hsame : exists s', Some s = Some s' /\ within_budget s s')
    by (exists s; split; [reflexivity|apply within_budget_refl]).
  destruct (state s =? SVC_RUNNING); [|rewrite Hs; exact Hsame].
  unfold is_running.
  set (w1 := if pid s <=? 0 then _ else _).
  assert (Hs1 : services (fst w1) !! i = Some s)
    by (unfold w1; destruct (pid s <=? 0); exact Hs).
  destruct w1 as [w1 alive]. cbn [fst] in Hs1.
  destruct alive; [rewrite Hs1; exact Hsame|].
  assert (Hstop : services (upd i (set_state SVC_STOPPED) w1) !! i
                  = Some (set_state SVC_STOPPED s)) by (look_up Hs1; reflexivity).
  assert (Hw2 : exists s', services (upd i (set_state SVC_STOPPED) w1) !! i
                           = Some s' /\ within_budget s s').
  { eexists. split; [exact Hstop|]. split; [now repeat split|]. simpl. lia. }
  destruct (has_flag s SVC_FLAG_RESPAWN && _); [|exact Hw2].
  destruct (restart_count s <? max_restarts s) eqn:Hlt.
  - apply Z.ltb_lt in Hlt.
    set (w3 := blocked E (EvSleep (to_unsigned (restart_delay s)))
                 (upd i (set_state SVC_STOPPED) w1)).
    assert (Hs3 : services w3 !! i = Some (set_state SVC_STOPPED s))
      by (unfold w3; rewrite services_blocked; exact Hstop).
    destruct (t_this _ _ _ _ (start_service_touches E i w3) _ Hs3)
      as (s4 & Hs4 & [C4 R4]).
    eexists. split; [look_up Hs4; reflexivity|].
    split.
    { destruct C4 as (? & ? & ? & ? & ? & ? & ?). now repeat split. }
    simpl in *. lia.
  - assert (Hfail : exists s',
               services (upd i (set_state SVC_FAILED)
                           (upd i (set_state SVC_STOPPED) w1)) !! i = Some s'
               /\ within_budget s s').
    { eexists. split; [look_up Hs1; reflexivity|].
      split; [now repeat split|]. simpl. lia. }
    destruct (has_flag s SVC_FLAG_CRITICAL); exact Hfail.
Qed.

Lemma forall2_touch (R : service -> service -> Prop) i w w' :
  (forall s, R s s) -> touches R i w w' ->
  Forall2 R (services w) (services w').
Proof.
  intros Rr [L O T _ _ _ _].
  apply Forall2_same_length_lookup. split; [now rewrite L|].
  intros j x y Hx Hy. destruct (decide (j = i)) as [->|Hne].
  - destruct (T x Hx) as (s' & Hs' & Hr). rewrite Hs' in Hy.
    now injection Hy as <-.
  - rewrite O in Hy by exact Hne. rewrite Hx in Hy. injection Hy as <-.
    apply Rr.
Qed.

Lemma forall2_budget_trans (l1 l2 l3 : list service) :
  Forall2 within_budget l1 l2 -> Forall2 within_budget l2 l3 ->
  Forall2 within_budget l1 l3.
Proof.
  intros H1 H2. eapply Forall2_trans; [|exact H1|exact H2].
  intros x y z. apply within_budget_trans.
Qed.

Lemma forall2_budget_refl (l : list service) : Forall2 within_budget l l.
Proof. induction l; constructor; [apply within_budget_refl|assumption]. Qed.

Lemma check_services_budget w :
  Forall2 within_budget (services w) (services (check_services E w)).
Proof.
  unfold check_services. generalize (indices w).
  intros l; revert w; induction l as [|i l IH]; intros w;
    [apply forall2_budget_refl|].
  simpl. eapply forall2_budget_trans; [|apply IH].
  apply (forall2_touch _ i); [apply within_budget_refl|].
  apply check_service_budget.
Qed.

Lemma loop_body_budget w :
  Forall2 within_budget (services w) (services (loop_body E w)).
Proof.
  unfold loop_body. cbv zeta.
  set (w1 := blocked E (EvUsleep 100000) w).
  assert (H1 : services w1 = services w) by apply services_blocked.
  set (w2 := if negb (child_died w1 =? 0) then reap_children E w1 else w1).
  assert (H2 : Forall2 within_budget (services w1) (services w2)).
  { unfold w2. destruct (negb _); [|apply forall2_budget_refl].
    unfold reap_children.
    change (services (set_child_died 0 ?x)) with (services x).
    generalize (o_reap E (trace w1)). intros l.
    generalize w1. induction l as [|p l IH]; intros w0;
      [apply forall2_budget_refl|].
    simpl. eapply forall2_budget_trans;
      [|apply (IH (with_services (reap_one (Z.pos p))
                     (emit (EvWaitNohang (-1) (Z.pos p)) w0)))].
    simpl. clear. induction (services w0) as [|s l IH];
      [constructor|].
    simpl. destruct (pid s =? Z.pos p).
    - constructor; [|apply forall2_budget_refl].
      destruct (state s =? SVC_RUNNING);
        (split; [now repeat split|simpl; lia]).
    - constructor; [apply within_budget_refl|exact IH]. }
  rewrite <- H1. eapply forall2_budget_trans; [exact H2|].
  unfold kick_watchdog.
  destruct (0 <=? watchdog_fd _); apply check_services_budget.
Qed.

Lemma loop_turns_budget w n :
  Forall2 within_budget (services w) (services (Nat.iter n (loop_body E) w)).
Proof.
  induction n as [|n IH]; [apply forall2_budget_refl|].
  simpl. eapply forall2_budget_trans; [exact IH|apply loop_body_budget].
Qed.

(** A health check that finds every process alive. *)
Lemma check_all_alive k w :
  (forall t p, o_alive E t p = true) ->
  running_have_pid w ->
  (k <= length (services w))%nat ->
  foldl (fun w i => check_service E i w) w (seq 0 k)
  = World (services w) (current_runlevel w) (shutdown_requested w)
          (reboot_requested w) (child_died w) (watchdog_fd w)
          (trace w ++ probes_of (take k (services w))).
Proof.
  intros Halive Hpid. induction k as [|k IH]; intros Hk.
  - simpl. unfold probes_of. simpl. rewrite app_nil_r. now destruct w.
  - rewrite seq_S, foldl_app, IH by lia. cbn [foldl Nat.add].
    destruct (lookup_lt_is_Some_2 (services w) k ltac:(lia)) as [s Hs].
    rewrite (take_S_r _ _ _ Hs). unfold probes_of.
    rewrite filter_app, map_app, app_assoc.
    unfold check_service. cbn [services]. rewrite Hs.
    destruct (decide (state s = SVC_RUNNING)) as [Hst|Hst].
    + rewrite filter_cons_True, filter_nil by exact Hst.
      unfold running_have_pid in Hpid. rewrite Forall_lookup in Hpid.
      pose proof (Hpid k s Hs Hst) as Hp.
      rewrite Hst, Z.eqb_refl. unfold is_running.
      destruct (pid s <=? 0) eqn:Hle; [apply Z.leb_le in Hle; lia|].
      rewrite Halive. reflexivity.
    + rewrite filter_cons_False, filter_nil by exact Hst.
      apply Z.eqb_neq in Hst. rewrite Hst. cbn [map]. now rewrite app_nil_r.
Qed.

End Budget.

(** X23.  The restart counter of a service never goes down and never
    passes [max_restarts]: after any number of turns of the main loop
    each service has the configuration it had, and a counter between
    the old one and the larger of the old one and [max_restarts]. *)
Theorem X23_restart_budget E w n :
  Forall2 within_budget (services w) (services (Nat.iter n (loop_body E) w)).
Proof. apply loop_turns_budget. Qed.

(** X24.  While every process is alive the health check only looks:
    [check_services] probes each RUNNING service once, in registry
    order, with [kill (pid, 0)], and changes no service and no flag. *)
Theorem X24_health_check_of_a_healthy_system E w :
  (forall t p, o_alive E t p = true) ->
  running_have_pid w ->
  check_services E w
  = World (services w) (current_runlevel w) (shutdown_requested w)
          (reboot_requested w) (child_died w) (watchdog_fd w)
          (trace w ++ probes_of (services w)).
Proof.
  intros Halive Hpid. unfold check_services, indices, service_count.
  rewrite (check_all_alive E _ w Halive Hpid (Nat.le_refl _)).
  now rewrite firstn_all.
Qed.

Lemma X24_health_check_of_a_healthy_system_witness :
  trace (check_services calm
           (boot_world [running_as 7 svc_A; svc_B; running_as 9 svc_C] 5))
  = [EvProbe 7 true; EvProbe 9 true].
Proof.
  rewrite (X24_health_check_of_a_healthy_system calm).
  - reflexivity.
  - reflexivity.
  - repeat constructor; intros H; discriminate H.
Defined.
